(** * Streak and progress analytics of the mindful-minutes API

    A shallow embedding of [internal/services/analytics.go] together with
    the parts of Go's [time] package the service calls, and the properties
    of the streak, progress and dashboard computations. *)

From Stdlib Require Import ZArith List String Ascii Bool Lia QArith.
From Stdlib Require Import Sorting.Sorted Sorting.Permutation.
Import ListNotations.
Open Scope Z_scope.

(** ** Go's [time] package (UTC only)

    The service calls [time.Parse], [Time.Format], [time.Date],
    [Time.AddDate], [Time.Add], [Time.Sub] and [Duration.Hours].  They are
    library code, embedded here after the Go 1.23 sources with machine
    integers taken as unbounded [Z]; the only location is UTC. *)
Module GoTime.

(** A [time.Time] in UTC: seconds since the Unix epoch and the nanoseconds
    within the second. *)
Record Time := mkTime { sec : Z; nsec : Z }.

Definition secondsPerDay : Z := 86400.

(** [isLeap]: [year%4 == 0 && (year%100 != 0 || year%400 == 0)]. *)
Definition isLeap (year : Z) : bool :=
  (Z.rem year 4 =? 0) && (negb (Z.rem year 100 =? 0) || (Z.rem year 400 =? 0)).

(** [daysBefore[m]]: days in a non-leap year before month [m+1]. *)
Definition daysBefore (m : Z) : Z :=
  match m with
  | 0 => 0 | 1 => 31 | 2 => 59 | 3 => 90 | 4 => 120 | 5 => 151 | 6 => 181
  | 7 => 212 | 8 => 243 | 9 => 273 | 10 => 304 | 11 => 334 | 12 => 365
  | _ => 0
  end.

(** [daysIn(m, year)]. *)
Definition daysIn (m year : Z) : Z :=
  if (m =? 2) && isLeap year then 29
  else daysBefore m - daysBefore (m - 1).

(** [norm(hi, lo, base)]: carries [lo] into [hi] so that [0 <= lo < base]. *)
Definition norm (hi lo base : Z) : Z * Z := (hi + lo / base, lo mod base).

(** Days from 0001-01-01 to the first of January of [year]: the
    400/100/4/1-year cycles that [daysSinceEpoch] adds up. *)
Definition daysBeforeYear (year : Z) : Z :=
  let y := year - 1 in
  let n400 := y / 400 in
  let y := y - 400 * n400 in
  let n100 := y / 100 in
  let y := y - 100 * n100 in
  let n4 := y / 4 in
  let y := y - 4 * n4 in
  146097 * n400 + 36524 * n100 + 1461 * n4 + 365 * y.

(** Day number of 1970-01-01 counted from 0001-01-01. *)
Definition unixEpochDay : Z := 719162.

(** [time.Date(year, month, day, hour, min, sec, nsec, time.UTC)]. *)
Definition Date (year month day hour min sec nsec : Z) : Time :=
  let '(year, m) := norm year (month - 1) 12 in
  let month := m + 1 in
  let '(sec, nsec) := norm sec nsec 1000000000 in
  let '(min, sec) := norm min sec 60 in
  let '(hour, min) := norm hour min 60 in
  let '(day, hour) := norm day hour 24 in
  let d := daysBeforeYear year in
  let d := d + daysBefore (month - 1) in
  let d := if isLeap year && (3 <=? month) then d + 1 else d in
  let d := d + (day - 1) in
  let abs := d * secondsPerDay in
  let abs := abs + (hour * 3600 + min * 60 + sec) in
  mkTime (abs - unixEpochDay * secondsPerDay) nsec.

(** Day number of a time, counted from 0001-01-01. *)
Definition absDay (t : Time) : Z := sec t / secondsPerDay + unixEpochDay.

(** [absDate]: year and day of the year of a day number. *)
Definition yearDay (d : Z) : Z * Z :=
  let n := d / 146097 in
  let y := 400 * n in
  let d := d - 146097 * n in
  let n := d / 36524 in
  let n := n - Z.shiftr n 2 in
  let y := y + 100 * n in
  let d := d - 36524 * n in
  let n := d / 1461 in
  let y := y + 4 * n in
  let d := d - 1461 * n in
  let n := d / 365 in
  let n := n - Z.shiftr n 2 in
  let y := y + n in
  let d := d - 365 * n in
  (y + 1, d).

(** [absDate], second half: month and day of the month. *)
Definition monthDay (year yday : Z) : Z * Z :=
  if isLeap year && (yday =? 31 + 29 - 1) then (2, 29)
  else
    let day := if isLeap year && (31 + 29 - 1 <? yday) then yday - 1 else yday in
    let month := day / 31 in
    let end_ := daysBefore (month + 1) in
    let '(month, begin) :=
      if end_ <=? day then (month + 1, end_) else (month, daysBefore month) in
    (month + 1, day - begin + 1).

(** [t.Date()]: year, month and day of [t]. *)
Definition civil (t : Time) : Z * Z * Z :=
  let '(year, yday) := yearDay (absDay t) in
  let '(month, day) := monthDay year yday in
  (year, month, day).

(** [t.Clock()]: hour, minute and second within the day. *)
Definition Clock (t : Time) : Z * Z * Z :=
  let s := sec t mod secondsPerDay in
  (s / 3600, (s mod 3600) / 60, s mod 60).

(** [t.AddDate(years, months, days)]. *)
Definition AddDate (t : Time) (years months days : Z) : Time :=
  let '(year, month, day) := civil t in
  let '(hour, min, s) := Clock t in
  Date (year + years) (month + months) (day + days) hour min s (nsec t).

(** [t.Year()]. *)
Definition Year (t : Time) : Z := fst (fst (civil t)).

(** A [time.Duration]: signed 64-bit nanoseconds. *)
Definition Duration := Z.
Definition minDuration : Duration := - 2 ^ 63.
Definition maxDuration : Duration := 2 ^ 63 - 1.
Definition Second : Duration := 1000000000.
Definition Hour : Duration := 3600 * Second.

(** [t.Add(d)]. *)
Definition Add (t : Time) (d : Duration) : Time :=
  let n := nsec t + Z.rem d 1000000000 in
  let s := sec t + Z.quot d 1000000000 in
  if 1000000000 <=? n then mkTime (s + 1) (n - 1000000000)
  else if n <? 0 then mkTime (s - 1) (n + 1000000000)
  else mkTime s n.

(** [t.Sub(u)]: the difference in nanoseconds, replaced by [maxDuration]
    or [minDuration] when it does not fit a [Duration]. *)
Definition Sub (t u : Time) : Duration :=
  let d := (sec t - sec u) * Second + (nsec t - nsec u) in
  if (minDuration <=? d) && (d <=? maxDuration) then d
  else if d <? 0 then minDuration
  else maxDuration.

(** [d.Hours()]: [float64(d / Hour) + float64(d % Hour) / (60*60*1e9)],
    with the floating-point value taken as the exact rational. *)
Definition Hours (d : Duration) : Q :=
  (inject_Z (Z.quot d Hour) + Qmake (Z.rem d Hour) 3600000000000)%Q.

(** [t.Before(u)] and the [<=] a store applies to timestamps. *)
Definition Before (t u : Time) : bool :=
  (sec t <? sec u) || ((sec t =? sec u) && (nsec t <? nsec u)).
Definition leTime (t u : Time) : bool := negb (Before u t).

(** The zero [Time], 0001-01-01 00:00:00 UTC, which [time.Parse] returns
    next to an error. *)
Definition zeroTime : Time := Date 1 1 1 0 0 0 0.

(** *** Text of a date: the layout ["2006-01-02"] *)

Definition isDigit (c : ascii) : bool :=
  let n := Z.of_N (N_of_ascii c) in (48 <=? n) && (n <=? 57).

Definition digitVal (c : ascii) : Z := Z.of_N (N_of_ascii c) - 48.

(** [byte('0' + n)]. *)
Definition digit (n : Z) : ascii := ascii_of_N (Z.to_N (48 + n)).

Definition dash : ascii := "-"%char.

(** The decimal digits of [u], most significant first, in front of [acc]:
    the loop of [appendInt] that assembles the decimal in reverse order. *)
Fixpoint decimal (fuel : nat) (u : Z) (acc : list ascii) : list ascii :=
  match fuel with
  | O => digit (u mod 10) :: acc
  | S fuel' =>
      if u <? 10 then digit u :: acc
      else decimal fuel' (u / 10) (digit (u mod 10) :: acc)
  end.

(** [appendInt(b, x, width)]: a minus sign for a negative [x], then its
    absolute value in decimal, padded with zeros to [width] digits. *)
Definition appendInt (x : Z) (width : nat) : list ascii :=
  let u := Z.abs x in
  let ds := decimal (Z.to_nat (Z.log2 u)) u [] in
  ((if x <? 0 then [dash] else []) ++
   repeat "0"%char (width - List.length ds) ++ ds)%list.

(** [t.Format("2006-01-02")]. *)
Definition Format (t : Time) : string :=
  let '(year, month, day) := civil t in
  string_of_list_ascii
    (appendInt year 4 ++ dash :: appendInt month 2 ++ dash :: appendInt day 2)%list.

(** The zeros at the end of a list of digits taken off. *)
Fixpoint dropZeros (l : list ascii) : list ascii :=
  match l with
  | [] => []
  | c :: r => if Ascii.eqb c "0"%char then dropZeros r else l
  end.

(** The layout [.999999999]: a point and the nine digits of the
    nanoseconds without the zeros at their end, and nothing at all for a
    whole second. *)
Definition appendNano (nsec : Z) : list ascii :=
  match rev (dropZeros (rev (appendInt nsec 9))) with
  | [] => []
  | c :: r => "."%char :: c :: r
  end.

(** [t.Format(time.RFC3339Nano)], the layout
    ["2006-01-02T15:04:05.999999999Z07:00"], of a time in UTC. *)
Definition FormatRFC3339Nano (t : Time) : string :=
  let '(year, month, day) := civil t in
  let '(hour, min, s) := Clock t in
  string_of_list_ascii
    (appendInt year 4 ++ dash :: appendInt month 2 ++ dash :: appendInt day 2
     ++ "T"%char :: appendInt hour 2 ++ ":"%char :: appendInt min 2
     ++ ":"%char :: appendInt s 2 ++ appendNano (nsec t) ++ ["Z"%char])%list.

(** What [time.Parse("2006-01-02", s)] reads from [s] when it reports no
    error: four digits of year, a dash, two digits of month, a dash, two
    digits of day and nothing more, the month within 1..12 and the day
    within the month. *)
Definition parseDate (s : string) : option (Z * Z * Z) :=
  match list_ascii_of_string s with
  | [y1; y2; y3; y4; s1; m1; m2; s2; d1; d2] =>
      if forallb isDigit [y1; y2; y3; y4; m1; m2; d1; d2]
         && Ascii.eqb s1 dash && Ascii.eqb s2 dash
      then
        let year :=
          1000 * digitVal y1 + 100 * digitVal y2 + 10 * digitVal y3 + digitVal y4 in
        let month := 10 * digitVal m1 + digitVal m2 in
        let day := 10 * digitVal d1 + digitVal d2 in
        if (month <=? 0) || (12 <? month) then None
        else if (day <? 1) || (daysIn month year <? day) then None
        else Some (year, month, day)
      else None
  | _ => None
  end.

(** [time.Parse("2006-01-02", s)]: the time and whether there was no
    error. *)
Definition Parse (s : string) : Time * bool :=
  match parseDate s with
  | Some (year, month, day) => (Date year month day 0 0 0 0, true)
  | None => (zeroTime, false)
  end.

(** The day count of a civil date: days from 0001-01-01. *)
Definition dayNumber (year month day : Z) : Z :=
  daysBeforeYear year + daysBefore (month - 1)
  + (if isLeap year && (3 <=? month) then 1 else 0) + (day - 1).

(** A well-formed date-only text: one [time.Parse] reads without error. *)
Definition wellFormed (s : string) : bool := snd (Parse s).

(** The day count of the date a text denotes: the days from 0001-01-01 to
    it (and 0, the day of the zero time, for a text that denotes none). *)
Definition dayCount (s : string) : Z :=
  match parseDate s with
  | Some (year, month, day) => dayNumber year month day
  | None => 0
  end.

End GoTime.

(** ** The models and the store *)
Module Models.
Import GoTime.

(** [models.User], as the service reads it. *)
Record User := mkUser {
  User_ID : string;
  ClerkUserID : string;
  Email : string;
  FirstName : string;
  LastName : string
}.

(** [models.Session]; [DeletedAt] is the soft-delete marker. *)
Record Session := mkSession {
  ID : Z;
  UserID : string;
  DurationSeconds : Z;
  SessionType : string;
  Notes : string;
  CreatedAt : Time;
  UpdatedAt : Time;
  DeletedAt : option Time
}.

End Models.

(** The store behind [database.DB]: the rows of the [sessions] table, and
    for every query of a run, in the order the queries are issued, the
    error it ends with, if any, and the choice the engine makes between
    rows that [ORDER BY] does not tell apart: [ties n a b] says that query
    [n] returns [a] before [b].  The clock of the process is part of the
    world a call runs in. *)
Module Database.
Import GoTime Models.

Definition error := string.

Record World := mkWorld {
  now : Time;
  sessions : list Session;
  outcome : nat -> option error;
  ties : nat -> Session -> Session -> bool
}.

(** A computation that issues queries: it is given the number of queries
    issued so far and returns an error or a value, and the new number. *)
Definition M (A : Type) : Type := nat -> (error + A) * nat.

Definition ret {A} (a : A) : M A := fun n => (inr a, n).

Definition bind {A B} (m : M A) (k : A -> M B) : M B :=
  fun n =>
    match m n with
    | (inl e, n') => (inl e, n')
    | (inr a, n') => k a n'
    end.

(** A query whose answer on success is [answer]. *)
Definition query {A} (w : World) (answer : A) : M A :=
  fun n =>
    match outcome w n with
    | Some e => (inl e, S n)
    | None => (inr answer, S n)
    end.

Definition sumSeconds (l : list Session) : Z :=
  fold_right (fun s acc => DurationSeconds s + acc) 0 l.

(** [user_id = ? AND deleted_at IS NULL]. *)
Definition live (userID : string) (s : Session) : bool :=
  String.eqb (UserID s) userID
  && match DeletedAt s with None => true | Some _ => false end.

(** [user_id = ? AND DATE(created_at) = ? AND deleted_at IS NULL]. *)
Definition onDate (userID dateStr : string) (s : Session) : bool :=
  live userID s && String.eqb (Format (CreatedAt s)) dateStr.

(** [user_id = ? AND created_at >= ? AND created_at <= ? AND deleted_at IS NULL]. *)
Definition between (userID : string) (lo hi : Time) (s : Session) : bool :=
  live userID s && leTime lo (CreatedAt s) && leTime (CreatedAt s) hi.

(** [ORDER BY created_at DESC]: insertion into a list that is already in
    descending order, after the rows that are newer and before the rows
    that are older; among rows created at the same time the place is the
    choice [tie] of the engine. *)
Fixpoint insertDesc (tie : Session -> Session -> bool) (s : Session)
  (l : list Session) : list Session :=
  match l with
  | [] => [s]
  | x :: r =>
      if Before (CreatedAt x) (CreatedAt s) then s :: x :: r
      else if Before (CreatedAt s) (CreatedAt x) then x :: insertDesc tie s r
      else if tie s x then s :: x :: r
      else x :: insertDesc tie s r
  end.

Definition orderDesc (tie : Session -> Session -> bool) (l : list Session)
  : list Session :=
  fold_right (insertDesc tie) [] l.

(** [DATE(created_at)]: the midnight that starts the day of a time. *)
Definition dateOf (t : Time) : Time :=
  mkTime ((absDay t - unixEpochDay) * secondsPerDay) 0.

Definition Time_eq_dec (a b : Time) : {a = b} + {a <> b}.
Proof. decide equality; apply Z.eq_dec. Defined.

(** [ORDER BY session_date DESC] on dates. *)
Fixpoint insertDateDesc (d : Time) (l : list Time) : list Time :=
  match l with
  | [] => [d]
  | x :: r =>
      if leTime d x then x :: insertDateDesc d r else d :: x :: r
  end.

Definition orderDatesDesc (l : list Time) : list Time :=
  fold_right insertDateDesc [] l.

(** [SELECT COALESCE(SUM(duration_seconds), 0)] over the rows chosen by
    [cond]. *)
Definition selectSum (w : World) (cond : Session -> bool) : M Z :=
  query w (sumSeconds (filter cond (sessions w))).

(** [SELECT DISTINCT DATE(created_at) as session_date ... ORDER BY
    session_date DESC], plucked into a [[]string]: the PostgreSQL driver
    that [database.Connect] opens hands every date over as a [time.Time],
    and [database/sql] writes a [time.Time] into a string in the layout
    [time.RFC3339Nano]. *)
Definition sessionDateTexts (w : World) (userID : string) : list string :=
  map FormatRFC3339Nano
      (orderDatesDesc
         (nodup Time_eq_dec
            (map (fun s => dateOf (CreatedAt s))
                 (filter (live userID) (sessions w))))).

Definition selectDates (w : World) (userID : string) : M (list string) :=
  query w (sessionDateTexts w userID).

(** [Model(...).Where(...).Count(&count)] over the rows chosen by [cond]:
    the count and the error, the count left at 0 by a query that fails. *)
Definition selectCount (w : World) (cond : Session -> bool)
  : nat -> (Z * option error) * nat :=
  fun n =>
    match outcome w n with
    | Some e => ((0, Some e), S n)
    | None => ((Z.of_nat (List.length (filter cond (sessions w))), None), S n)
    end.

(** [Where(...).Order("created_at DESC").Limit(limit).Find(&sessions)]. *)
Definition selectRecent (w : World) (userID : string) (limit : Z)
  : M (list Session) :=
  fun n =>
    query w (firstn (Z.to_nat limit)
               (orderDesc (ties w n) (filter (live userID) (sessions w)))) n.

End Database.

(** ** The analytics service: [internal/services/analytics.go] *)
Module Services.
Import GoTime Models Database.

Notation "x <- m ;; k" := (bind m (fun x => k))
  (at level 61, m at next level, right associativity).

Record StreakInfo := mkStreakInfo { Current : Z; Longest : Z }.

Record WeeklyProgress := mkWeeklyProgress {
  Day : string;
  Date_ : string;
  Minutes : Z
}.

Record YearlyProgress := mkYearlyProgress {
  Month : string;
  Hours_ : Q;
  YMinutes : Z
}.

Record DashboardData := mkDashboardData {
  User_ : User;
  Streaks : StreakInfo;
  WeeklyProgress_ : list WeeklyProgress;
  YearlyProgress_ : list YearlyProgress;
  RecentSessions : list Session
}.

(** [currDate.Sub(prevDate).Hours() == 24] on two texts of the list, the
    errors of [time.Parse] dropped as the code drops them. *)
Definition consecutive (prev curr : string) : bool :=
  let prevDate := fst (Parse prev) in
  let currDate := fst (Parse curr) in
  Qeq_bool (Hours (Sub currDate prevDate)) (inject_Z 24).

(** The body of the loop of [calculateLongestStreak] at index [i]. *)
Definition longestStep (ascending : list string) (st : Z * Z) (i : nat)
  : Z * Z :=
  let '(longestStreak, currentStreak) := st in
  if consecutive (nth (i - 1) ascending EmptyString) (nth i ascending EmptyString)
  then (longestStreak, currentStreak + 1)
  else ((if longestStreak <? currentStreak then currentStreak else longestStreak), 1).

(** [calculateLongestStreak]: [ascending] is [sessionDates] written back
    to front, and [i] runs from 1 to [len(ascending) - 1]. *)
Definition calculateLongestStreak (sessionDates : list string) : Z :=
  match sessionDates with
  | [] => 0
  | _ :: _ =>
      let ascending := rev sessionDates in
      let '(longestStreak, currentStreak) :=
        fold_left (longestStep ascending)
                  (seq 1 (List.length ascending - 1)) (1, 1) in
      if longestStreak <? currentStreak then currentStreak else longestStreak
  end.

(** The counting loop of [calculateCurrentStreak], left at the first date
    that is not the expected one. *)
Fixpoint countBack (sessionDates : list string) (currentStreak : Z)
  (expectedDate : Time) : Z :=
  match sessionDates with
  | [] => currentStreak
  | dateStr :: rest =>
      let sessionDate := fst (Parse dateStr) in
      if String.eqb (Format sessionDate) (Format expectedDate)
      then countBack rest (currentStreak + 1) (AddDate expectedDate 0 0 (-1))
      else currentStreak
  end.

(** [calculateCurrentStreak], with the clock read as [now]. *)
Definition calculateCurrentStreak (now : Time) (sessionDates : list string) : Z :=
  match sessionDates with
  | [] => 0
  | first :: _ =>
      let today := Format now in
      let yesterday := Format (AddDate now 0 0 (-1)) in
      if String.eqb first today
      then countBack sessionDates 0 (fst (Parse today))
      else if String.eqb first yesterday
      then countBack sessionDates 0 (fst (Parse yesterday))
      else 0
  end.

Section WithWorld.
Variable w : World.

(** [getSessionDates]. *)
Definition getSessionDates (userID : string) : M (list string) :=
  selectDates w userID.

(** [CalculateStreaks]. *)
Definition CalculateStreaks (userID : string) : M StreakInfo :=
  sessionDates <- getSessionDates userID ;;
  let longestStreak := calculateLongestStreak sessionDates in
  let currentStreak := calculateCurrentStreak (now w) sessionDates in
  ret (mkStreakInfo currentStreak longestStreak).

(** [hasSessionOnDate]: [count > 0] and the error of the query. *)
Definition hasSessionOnDate (userID : string) (date : Time)
  : nat -> (bool * option error) * nat :=
  fun n =>
    let dateStr := Format date in
    let '((count, err), n') := selectCount w (onDate userID dateStr) n in
    ((0 <? count, err), n').

(** [date.Format("Mon")]: the day of the week, Sunday first. *)
Definition FormatMon (t : Time) : string :=
  nth (Z.to_nat ((absDay t + 1) mod 7))
      ["Sun"; "Mon"; "Tue"; "Wed"; "Thu"; "Fri"; "Sat"]%string EmptyString.

(** The loop of [GetWeeklyProgress] over the values of [i] still to come. *)
Fixpoint weeklyLoop (userID : string) (idxs : list Z)
  (progress : list WeeklyProgress) : M (list WeeklyProgress) :=
  match idxs with
  | [] => ret progress
  | i :: rest =>
      let date := AddDate (now w) 0 0 (- i) in
      let dateStr := Format date in
      let dayName := FormatMon date in
      totalSeconds <- selectSum w (onDate userID dateStr) ;;
      let totalMinutes := Z.quot totalSeconds 60 in
      weeklyLoop userID rest
        (progress ++ [mkWeeklyProgress dayName dateStr totalMinutes])
  end.

(** [GetWeeklyProgress]: [i] runs from 6 down to 0. *)
Definition GetWeeklyProgress (userID : string) : M (list WeeklyProgress) :=
  weeklyLoop userID [6; 5; 4; 3; 2; 1; 0] [].

Definition months : list string :=
  ["Jan"; "Feb"; "Mar"; "Apr"; "May"; "Jun";
   "Jul"; "Aug"; "Sep"; "Oct"; "Nov"; "Dec"]%string.

Definition monthStart (year i : Z) : Time := Date year (i + 1) 1 0 0 0 0.
Definition monthEnd (year i : Z) : Time :=
  Add (AddDate (monthStart year i) 0 1 0) (- Second).

(** The loop of [GetYearlyProgress] over the months still to come, [i]
    the index of the first of them. *)
Fixpoint yearlyLoop (userID : string) (year : Z) (i : Z) (ms : list string)
  (progress : list YearlyProgress) : M (list YearlyProgress) :=
  match ms with
  | [] => ret progress
  | month :: rest =>
      totalSeconds <-
        selectSum w (between userID (monthStart year i) (monthEnd year i)) ;;
      let minutes := Z.quot totalSeconds 60 in
      let hours := (inject_Z totalSeconds / inject_Z 3600)%Q in
      yearlyLoop userID year (i + 1) rest
        (progress ++ [mkYearlyProgress month hours minutes])
  end.

(** [GetYearlyProgress]. *)
Definition GetYearlyProgress (userID : string) (year : Z)
  : M (list YearlyProgress) :=
  yearlyLoop userID year 0 months [].

(** The limit [GetRecentSessions] passes to the store. *)
Definition sanitizeLimit (limit : Z) : Z :=
  if (limit <=? 0) || (100 <? limit) then 5 else limit.

(** [GetRecentSessions]. *)
Definition GetRecentSessions (userID : string) (limit : Z) : M (list Session) :=
  let limit := sanitizeLimit limit in
  selectRecent w userID limit.

(** [GetDashboardData]; [inl] stands for the pair [nil, err]. *)
Definition GetDashboardData (user : User) (year sessionLimit : Z)
  : M DashboardData :=
  streaks <- CalculateStreaks (User_ID user) ;;
  weeklyProgress <- GetWeeklyProgress (User_ID user) ;;
  let year := if year <=? 0 then Year (now w) else year in
  yearlyProgress <- GetYearlyProgress (User_ID user) year ;;
  recentSessions <- GetRecentSessions (User_ID user) sessionLimit ;;
  ret (mkDashboardData user streaks weeklyProgress yearlyProgress recentSessions).

End WithWorld.

End Services.

(** ** Vocabulary of the calendar *)
Module Calendar.
Import GoTime.

(** The day a leap year adds before the months from March on. *)
Definition leapAdj (y m : Z) : Z := if isLeap y && (3 <=? m) then 1 else 0.

(** The number of days of a year. *)
Definition yearLength (y : Z) : Z := if isLeap y then 366 else 365.

(** A civil date of the Gregorian calendar. *)
Definition validDate (y m d : Z) : Prop :=
  1 <= m <= 12 /\ 1 <= d <= daysIn m y.

(** The number a list of decimal digits writes, read after [acc]. *)
Definition valOf (acc : Z) (l : list ascii) : Z :=
  fold_left (fun a c => 10 * a + digitVal c) l acc.

Definition allDigits (l : list ascii) : Prop :=
  Forall (fun c => isDigit c = true) l.

(** Reads back what [appendInt] writes. *)
Definition readInt (l : list ascii) : Z :=
  match l with
  | [] => 0
  | c :: r => if isDigit c then valOf 0 l else - valOf 0 r
  end.

End Calendar.

(** ** The dashboard handler: [internal/handlers], [GetDashboard] *)
Module Handlers.
Import GoTime Models Database Services Calendar.

(** [strconv.Atoi]: an optional sign, then one decimal digit or more and
    nothing else, the number within the 64 bits of an [int]; [None] stands
    for the error. *)
Definition Atoi (s : string) : option Z :=
  match list_ascii_of_string s with
  | [] => None
  | c :: r =>
      let neg := Ascii.eqb c "-"%char in
      let digits :=
        if Ascii.eqb c "-"%char || Ascii.eqb c "+"%char then r else c :: r in
      match digits with
      | [] => None
      | _ :: _ =>
          if forallb isDigit digits then
            let n := valOf 0 digits in
            let v := if neg then - n else n in
            if (- 2 ^ 63 <=? v) && (v <=? 2 ^ 63 - 1) then Some v else None
          else None
      end
  end.

(** [parseYear], on the value [c.Query("year")] of the parameter, empty
    when the request has none. *)
Definition parseYear (yearStr : string) : Z :=
  if String.eqb yearStr EmptyString then 0
  else
    match Atoi yearStr with
    | None => 0
    | Some year => if (year <? 1900) || (3000 <? year) then 0 else year
    end.

(** [parseSessionLimit], on the value [c.Query("sessions")]. *)
Definition parseSessionLimit (limitStr : string) : Z :=
  if String.eqb limitStr EmptyString then 5
  else
    match Atoi limitStr with
    | None => 5
    | Some limit => if (limit <=? 0) || (100 <? limit) then 5 else limit
    end.

(** What [c.JSON(status, body)] writes. *)
Inductive Body :=
| ErrorBody (message : string) (details : option error)
| DashboardBody (data : DashboardData).

Record Response := mkResponse { status : Z; body : Body }.

(** [GetDashboard]: [user] is what [auth.GetCurrentUser(c)] finds in the
    context. *)
Definition GetDashboard (w : World) (user : option User)
  (yearStr sessionsStr : string) : nat -> Response * nat :=
  fun n =>
    match user with
    | None => (mkResponse 401 (ErrorBody "User not found" None), n)
    | Some user =>
        let year := parseYear yearStr in
        let sessionLimit := parseSessionLimit sessionsStr in
        match GetDashboardData w user year sessionLimit n with
        | (inl err, n') =>
            (mkResponse 500
               (ErrorBody "Failed to retrieve dashboard data" (Some err)), n')
        | (inr dashboardData, n') =>
            (mkResponse 200 (DashboardBody dashboardData), n')
        end
    end.

End Handlers.

(** ** Day counts, runs and windows: the vocabulary of the properties *)
Module Spec.
Import GoTime Services.

(** A run of consecutive calendar days, as day counts in ascending
    order: each is one more than the one before it. *)
Fixpoint isRun (ds : list Z) : Prop :=
  match ds with
  | [] => True
  | a :: r =>
      match r with
      | [] => True
      | b :: _ => b - a = 1 /\ isRun r
      end
  end.

(** The length of the run a list starts with. *)
Fixpoint lead (ds : list Z) : Z :=
  match ds with
  | [] => 0
  | a :: r =>
      match r with
      | [] => 1
      | b :: _ => if b - a =? 1 then 1 + lead r else 1
      end
  end.

(** The greatest length of a run that starts anywhere in the list. *)
Fixpoint longestRun (ds : list Z) : Z :=
  match ds with
  | [] => 0
  | _ :: r => Z.max (lead ds) (longestRun r)
  end.

(** The longest streak over day counts, after the words of the
    specification: walk the adjacent pairs of the ascending list; a
    difference of one day extends the running streak, anything else ends it
    and starts a run of length 1; the greatest length seen is the result. *)
Fixpoint walkDays (prev : Z) (rest : list Z) (run best : Z) : Z :=
  match rest with
  | [] => Z.max best run
  | d :: r =>
      if d - prev =? 1 then walkDays d r (run + 1) best
      else walkDays d r 1 (Z.max best run)
  end.

Definition longestStreakByDayCount (descending : list Z) : Z :=
  match rev descending with
  | [] => 0
  | first :: rest => walkDays first rest 1 1
  end.

(** The number of leading entries of [ds] that are [expected],
    [expected - 1], [expected - 2], ... in this order. *)
Fixpoint countDays (expected : Z) (ds : list Z) : nat :=
  match ds with
  | [] => O
  | d :: r => if d =? expected then S (countDays (expected - 1) r) else O
  end.

(** The text the longest streak reads in place of one that does not
    parse. *)
Definition orZeroDate (s : string) : string :=
  if wellFormed s then s else "0001-01-01"%string.

(** Ten consecutive days, the last of them three days before
    [exampleNow]. *)
Definition exampleNow : Time := Date 2025 7 15 9 30 0 0.
Definition exampleRun : list string :=
  ["2025-07-12"; "2025-07-11"; "2025-07-10"; "2025-07-09"; "2025-07-08";
   "2025-07-07"; "2025-07-06"; "2025-07-05"; "2025-07-04"; "2025-07-03"]%string.

(** The loop of [calculateLongestStreak] as a walk along the ascending
    list: [prev] is the entry at [i - 1], [rest] the entries from [i] on. *)
Fixpoint scan (prev : string) (rest : list string) (st : Z * Z) : Z * Z :=
  match rest with
  | [] => st
  | curr :: r =>
      let '(longestStreak, currentStreak) := st in
      scan curr r
        (if consecutive prev curr then (longestStreak, currentStreak + 1)
         else ((if longestStreak <? currentStreak then currentStreak
                else longestStreak), 1))
  end.

End Spec.

(** ** Vocabulary of the properties of the progress queries *)
Module ProgressSpec.
Import GoTime Models Database Services Calendar.

(** The first of the [len] queries issued from number [n] on that ends
    with an error, with its number. *)
Fixpoint firstError (w : World) (n len : nat) : option (nat * error) :=
  match len with
  | O => None
  | S len' =>
      match outcome w n with
      | Some e => Some (n, e)
      | None => firstError w (S n) len'
      end
  end.

(** The sessions of a user that are not deleted and were created on the
    day with the count [day]. *)
Definition createdOnDay (userID : string) (day : Z) (s : Session) : bool :=
  live userID s && (absDay (CreatedAt s) =? day).

(** The sessions of a user that are not deleted and were created within
    the calendar year [year]. *)
Definition createdInYear (userID : string) (year : Z) (s : Session) : bool :=
  live userID s && (Year (CreatedAt s) =? year).

(** The entry [GetWeeklyProgress] makes for the day [i] days before now. *)
Definition weeklyEntry (w : World) (userID : string) (i : Z) : WeeklyProgress :=
  let date := AddDate (now w) 0 0 (- i) in
  mkWeeklyProgress (FormatMon date) (Format date)
    (Z.quot (sumSeconds (filter (onDate userID (Format date)) (sessions w))) 60).

(** The seconds [GetYearlyProgress] is given for the month with index [i]. *)
Definition monthSeconds (w : World) (userID : string) (year i : Z) : Z :=
  sumSeconds
    (filter (between userID (monthStart year i) (monthEnd year i)) (sessions w)).

(** The entry [GetYearlyProgress] makes for the month with index [i]. *)
Definition yearlyEntry (w : World) (userID : string) (year : Z)
  (im : Z * string) : YearlyProgress :=
  let totalSeconds := monthSeconds w userID year (fst im) in
  mkYearlyProgress (snd im) (inject_Z totalSeconds / inject_Z 3600)%Q
    (Z.quot totalSeconds 60).

(** The months with their indices, from [i] on. *)
Fixpoint indexed (i : Z) (ms : list string) : list (Z * string) :=
  match ms with
  | [] => []
  | m :: r => (i, m) :: indexed (i + 1) r
  end.

Definition sumZ (l : list Z) : Z := fold_right Z.add 0 l.

(** Every session carries a duration that is not negative, as the handler
    that creates sessions requires ([min=1]). *)
Definition durationsNonneg (w : World) : Prop :=
  forall s, In s (sessions w) -> 0 <= DurationSeconds s.

(** Every session was created at a whole second. *)
Definition wholeSeconds (w : World) : Prop :=
  forall s, In s (sessions w) -> nsec (CreatedAt s) = 0.

(** Every time of the world has its nanoseconds within the second. *)
Definition validTime (t : Time) : Prop := 0 <= nsec t < 1000000000.

(** The scenario of the specification: sessions of 600, 900 and 300
    seconds on the first three days of July 2025, the last of them today;
    a session of another user and a deleted one besides. *)
Definition exampleSession (id : Z) (userID : string) (seconds : Z)
  (created : Time) (deleted : option Time) : Session :=
  mkSession id userID seconds "mindfulness" "" created created deleted.

Definition exampleWorld : World :=
  mkWorld (Date 2025 7 3 10 0 0 0)
    [exampleSession 1 "u" 600 (Date 2025 7 1 8 0 0 0) None;
     exampleSession 2 "u" 900 (Date 2025 7 2 8 0 0 0) None;
     exampleSession 3 "u" 300 (Date 2025 7 3 8 0 0 0) None;
     exampleSession 4 "v" 120 (Date 2025 7 3 8 30 0 0) None;
     exampleSession 5 "u" 240 (Date 2025 7 3 9 0 0 0)
       (Some (Date 2025 7 3 9 5 0 0))]
    (fun _ => None) (fun _ _ _ => false).

(** Two sessions of half a minute each, in two months of 2024. *)
Definition halfMinutesWorld : World :=
  mkWorld (Date 2024 3 1 10 0 0 0)
    [exampleSession 1 "u" 30 (Date 2024 1 10 8 0 0 0) None;
     exampleSession 2 "u" 30 (Date 2024 2 10 8 0 0 0) None]
    (fun _ => None) (fun _ _ _ => false).

(** The seconds at which the month with index [i] of [year] starts; the
    index 12 is the start of the next year. *)
Definition boundary (year i : Z) : Z :=
  (daysBeforeYear year + daysBefore i + leapAdj year (i + 1) - unixEpochDay)
  * secondsPerDay.

(** 1 when [lo <= x < hi], else 0. *)
Definition within (lo hi x : Z) : Z := if (lo <=? x) && (x <? hi) then 1 else 0.

(** [k] consecutive indices from [i] on. *)
Fixpoint zseq (i : Z) (k : nat) : list Z :=
  match k with
  | O => []
  | S k' => i :: zseq (i + 1) k'
  end.

(** [a] comes before [b] in descending order of creation. *)
Definition newerFirst (a b : Session) : Prop :=
  leTime (CreatedAt b) (CreatedAt a) = true.

(** A list in descending order of creation. *)
Definition descending (l : list Session) : Prop := StronglySorted newerFirst l.

(** The claim C3 at a world, a user and a year: the minutes of the twelve
    entries add up to the minutes of the year. *)
Definition monthly_minutes_add_up (w : World) (userID : string) (year : Z)
  : Prop :=
  forall progress n',
    GetYearlyProgress w userID year 0%nat = (inr progress, n') ->
    sumZ (map YMinutes progress)
    = sumSeconds (filter (createdInYear userID year) (sessions w)) / 60.

(** The labels [Format("Mon")] gives the days of a week. *)
Definition weekdays : list string :=
  ["Sun"; "Mon"; "Tue"; "Wed"; "Thu"; "Fri"; "Sat"]%string.

(** The user has a session that is not deleted and was created on the
    day with the count [day]. *)
Definition hasDay (w : World) (userID : string) (day : Z) : Prop :=
  exists s, In s (sessions w) /\ live userID s = true /\
            absDay (CreatedAt s) = day.

(** The midnight that starts the day with the count [day]. *)
Definition midnight (day : Z) : Time :=
  mkTime ((day - unixEpochDay) * secondsPerDay) 0.

(** The text in which the store's date of the day [day] reaches the
    service: the date, then the time of day and the zone of a midnight in
    UTC. *)
Definition dayText (day : Z) : string :=
  (Format (midnight day) ++ "T00:00:00Z")%string.

(** A character that the layout ["2006-01-02"] can write or read: a digit
    or the dash. *)
Definition dateChar (c : ascii) : bool := isDigit c || Ascii.eqb c dash.

(** The longest streak the service computes from the dates of a store:
    none without a session, and one day with any. *)
Definition storeLongest (l : list Session) : Z :=
  match l with
  | [] => 0
  | _ :: _ => 1
  end.

End ProgressSpec.

(** ** Facts about the calendar of [GoTime] *)
Module GoTimeFacts.
Import GoTime Calendar.

Ltac div_lia := Z.to_euclidean_division_equations; lia.

(** Evaluates the month table and the comparisons of closed numbers. *)
Ltac eval_closed :=
  repeat match goal with
  | |- context [daysBefore ?k] =>
      let v := eval vm_compute in (daysBefore k) in
      lazymatch v with
      | Z0 => idtac | Zpos _ => idtac
      end; change (daysBefore k) with v
  | |- context [Z.eqb ?a ?b] =>
      let v := eval vm_compute in (Z.eqb a b) in
      lazymatch v with true => idtac | false => idtac end;
      change (Z.eqb a b) with v
  | |- context [Z.leb ?a ?b] =>
      let v := eval vm_compute in (Z.leb a b) in
      lazymatch v with true => idtac | false => idtac end;
      change (Z.leb a b) with v
  end.


Lemma isLeap_true y :
  isLeap y = true <-> (y mod 4 = 0 /\ (y mod 100 <> 0 \/ y mod 400 = 0)).
Proof.
  unfold isLeap.
  rewrite andb_true_iff, orb_true_iff, negb_true_iff, Z.eqb_neq, !Z.eqb_eq.
  div_lia.
Qed.

Lemma month_cases (m : Z) : 0 <= m <= 11 ->
  m = 0 \/ m = 1 \/ m = 2 \/ m = 3 \/ m = 4 \/ m = 5 \/ m = 6 \/ m = 7 \/ m = 8 \/
  m = 9 \/ m = 10 \/ m = 11.
Proof. lia. Qed.

Ltac each_month H :=
  destruct (month_cases _ H) as [?E|[?E|[?E|[?E|[?E|[?E|[?E|[?E|[?E|[?E|[?E|?E]]]]]]]]]]].

Lemma yearDay_spec d :
  let '(y, yd) := yearDay d in
  daysBeforeYear y + yd = d /\ 0 <= yd < yearLength y.
Proof.
  unfold yearDay, daysBeforeYear, yearLength.
  rewrite !Z.shiftr_div_pow2 by lia. cbv zeta.
  change (2 ^ 2) with 4.
  set (q := d / 146097). set (r := d - 146097 * q).
  set (a0 := r / 36524). set (a := a0 - a0 / 4). set (r2 := r - 36524 * a).
  set (b := r2 / 1461). set (r3 := r2 - 1461 * b).
  set (c0 := r3 / 365). set (c := c0 - c0 / 4).
  assert (Hr : 0 <= r < 146097) by (subst r q; div_lia).
  assert (Ha : 0 <= a <= 3 /\ (a0 = a \/ (a0 = 4 /\ a = 3)))
    by (subst a a0; div_lia).
  assert (Hr2 : 0 <= r2 /\ (r2 < 36524 \/ (a = 3 /\ r2 = 36524)))
    by (subst r2 a a0; div_lia).
  assert (Hb : 0 <= b <= 24 /\ 0 <= r3 < 1461 /\ (b = 24 -> a < 3 -> r3 < 1460))
    by (subst r3 b; div_lia).
  assert (Hc : 0 <= c <= 3 /\ 0 <= r3 - 365 * c /\
               (c < 3 -> r3 - 365 * c < 365) /\ r3 - 365 * c <= 365)
    by (subst c c0; div_lia).
  set (y := 400 * q + 100 * a + 4 * b + c) in *.
  assert (Hy : (y + 1 - 1) / 400 = q /\ (y + 1 - 1 - 400 * q) / 100 = a /\
               (y + 1 - 1 - 400 * q - 100 * a) / 4 = b)
    by (subst y; div_lia).
  destruct Hy as (E1 & E2 & E3).
  rewrite E1, E2, E3.
  split; [subst y r3 r2 r; lia|]. split; [lia|].
  destruct (isLeap (y + 1)) eqn:L; [lia|].
  assert (NL : ~ (isLeap (y + 1) = true)) by congruence.
  rewrite isLeap_true in NL.
  assert (c = 3 -> (b = 24 /\ a < 3)) by (subst y; div_lia).
  lia.
Qed.

Lemma monthDay_spec y yd :
  0 <= yd < yearLength y ->
  let '(m, dd) := monthDay y yd in
  validDate y m dd /\ daysBefore (m - 1) + leapAdj y m + (dd - 1) = yd.
Proof.
  intros H. unfold monthDay, leapAdj, validDate, daysIn, yearLength in *.
  destruct (isLeap y) eqn:L; cbv beta iota delta [andb].
  - destruct (Z.eqb_spec yd (31 + 29 - 1)) as [->|N];
      [vm_compute; intuition congruence|].
    set (day := if 31 + 29 - 1 <? yd then yd - 1 else yd).
    assert (Hd : 0 <= day <= 364 /\
                 (yd < 59 /\ day = yd \/ 59 < yd /\ day = yd - 1)).
    { subst day. destruct (Z.ltb_spec (31 + 29 - 1) yd); lia. }
    assert (Hm : 0 <= day / 31 <= 11) by div_lia.
    assert (Hq : 31 * (day / 31) <= day < 31 * (day / 31) + 31) by div_lia.
    each_month Hm; rewrite E in *; eval_closed;
      match goal with |- context [?a <=? ?b] => destruct (Z.leb_spec a b) end;
      cbv beta iota zeta; eval_closed; cbv beta iota delta [andb]; lia.
  - assert (Hm : 0 <= yd / 31 <= 11) by div_lia.
    assert (Hq : 31 * (yd / 31) <= yd < 31 * (yd / 31) + 31) by div_lia.
    each_month Hm; rewrite E in *; eval_closed;
      match goal with |- context [?a <=? ?b] => destruct (Z.leb_spec a b) end;
      cbv beta iota zeta; eval_closed; cbv beta iota delta [andb]; lia.
Qed.

Lemma dayNumber_eq y m d :
  dayNumber y m d = daysBeforeYear y + daysBefore (m - 1) + leapAdj y m + (d - 1).
Proof. reflexivity. Qed.

(** [t.Date()] is a date of the calendar, and it is the date of the day
    number of [t]. *)
Lemma civil_spec t :
  let '(y, m, d) := civil t in
  validDate y m d /\ dayNumber y m d = absDay t.
Proof.
  unfold civil. pose proof (yearDay_spec (absDay t)) as H1.
  destruct (yearDay (absDay t)) as [y yd]. destruct H1 as [H1 H2].
  pose proof (monthDay_spec y yd H2) as H3.
  destruct (monthDay y yd) as [m d]. destruct H3 as [H3 H4].
  split; [exact H3|]. rewrite dayNumber_eq. lia.
Qed.

Lemma norm_small hi lo base : 0 <= lo < base -> norm hi lo base = (hi, lo).
Proof.
  intros H. unfold norm. rewrite Z.div_small, Z.mod_small by lia.
  f_equal. lia.
Qed.

(** [time.Date] on a month, a time of day and nanoseconds within their
    ranges; the day may be any number. *)
Lemma Date_normal y m d h mi s ns :
  1 <= m <= 12 -> 0 <= h < 24 -> 0 <= mi < 60 -> 0 <= s < 60 ->
  0 <= ns < 1000000000 ->
  Date y m d h mi s ns =
  mkTime ((dayNumber y m d - unixEpochDay) * secondsPerDay
          + (h * 3600 + mi * 60 + s)) ns.
Proof.
  intros Hm Hh Hmi Hs Hns. unfold Date.
  rewrite (norm_small y (m - 1) 12) by lia.
  rewrite (norm_small s ns) by lia.
  rewrite (norm_small mi s) by lia.
  rewrite (norm_small h mi) by lia.
  rewrite (norm_small d h) by lia.
  replace (m - 1 + 1) with m by lia.
  rewrite dayNumber_eq. unfold leapAdj.
  destruct (isLeap y && (3 <=? m)); f_equal; lia.
Qed.

Lemma absDay_Date y m d h mi s ns :
  1 <= m <= 12 -> 0 <= h < 24 -> 0 <= mi < 60 -> 0 <= s < 60 ->
  0 <= ns < 1000000000 ->
  absDay (Date y m d h mi s ns) = dayNumber y m d.
Proof.
  intros. rewrite Date_normal by assumption. unfold absDay, secondsPerDay.
  cbn [sec]. div_lia.
Qed.

Lemma Clock_spec t :
  let '(h, mi, s) := Clock t in
  0 <= h < 24 /\ 0 <= mi < 60 /\ 0 <= s < 60 /\
  h * 3600 + mi * 60 + s = sec t mod secondsPerDay.
Proof. unfold Clock, secondsPerDay. cbv zeta. div_lia. Qed.

(** [AddDate(0, 0, k)] moves a time by [k] whole days. *)
Lemma AddDate_days t k :
  0 <= nsec t < 1000000000 ->
  AddDate t 0 0 k = mkTime (sec t + secondsPerDay * k) (nsec t).
Proof.
  intros Hns. unfold AddDate.
  pose proof (civil_spec t) as Hc. destruct (civil t) as [[y m] d].
  destruct Hc as [[Hm Hd] Hn].
  pose proof (Clock_spec t) as Hk. destruct (Clock t) as [[h mi] s].
  destruct Hk as (Hh & Hmi & Hs & Hsum).
  rewrite !Z.add_0_r. rewrite Date_normal by assumption.
  f_equal.
  assert (E : dayNumber y m (d + k) = dayNumber y m d + k)
    by (rewrite !dayNumber_eq; lia).
  rewrite E, Hn, Hsum. unfold absDay, secondsPerDay. div_lia.
Qed.

Lemma absDay_AddDate_days t k :
  0 <= nsec t < 1000000000 ->
  absDay (AddDate t 0 0 k) = absDay t + k.
Proof.
  intros H. rewrite AddDate_days by assumption.
  unfold absDay, secondsPerDay. cbn [sec]. div_lia.
Qed.

Lemma daysBeforeYear_succ y :
  daysBeforeYear (y + 1) = daysBeforeYear y + yearLength y.
Proof.
  unfold yearLength. destruct (isLeap y) eqn:L.
  - apply isLeap_true in L. unfold daysBeforeYear. div_lia.
  - assert (NL : ~ (isLeap y = true)) by congruence.
    rewrite isLeap_true in NL. unfold daysBeforeYear. div_lia.
Qed.

Lemma daysBeforeYear_mono y y' : y <= y' -> daysBeforeYear y <= daysBeforeYear y'.
Proof. intros H. unfold daysBeforeYear. div_lia. Qed.

Lemma yearLength_pos y : 365 <= yearLength y <= 366.
Proof. unfold yearLength. destruct (isLeap y); lia. Qed.

Ltac month_of m H :=
  let Hm := fresh "Hm" in
  assert (Hm : 0 <= m - 1 <= 11) by lia;
  each_month Hm;
  match goal with E : m - 1 = ?k |- _ =>
    let v := eval vm_compute in (k + 1) in
    assert (m = v) by lia; subst m; clear E
  end.

Lemma dayNumber_bounds y m d :
  validDate y m d ->
  daysBeforeYear y <= dayNumber y m d < daysBeforeYear y + yearLength y.
Proof.
  intros [Hm Hd]. rewrite dayNumber_eq.
  unfold leapAdj, yearLength, daysIn in *.
  destruct (isLeap y); month_of m Hm; revert Hd; eval_closed;
    cbv beta iota delta [andb]; lia.
Qed.

(** Two dates of the calendar with the same day number are the same
    date. *)
Lemma dayNumber_inj y m d y' m' d' :
  validDate y m d -> validDate y' m' d' ->
  dayNumber y m d = dayNumber y' m' d' ->
  y = y' /\ m = m' /\ d = d'.
Proof.
  intros V V' E.
  pose proof (dayNumber_bounds _ _ _ V) as B.
  pose proof (dayNumber_bounds _ _ _ V') as B'.
  assert (y = y').
  { destruct (Z.lt_trichotomy y y') as [L|[L|L]]; [|exact L|].
    - pose proof (daysBeforeYear_mono (y + 1) y' ltac:(lia)).
      rewrite daysBeforeYear_succ in *. lia.
    - pose proof (daysBeforeYear_mono (y' + 1) y ltac:(lia)).
      rewrite daysBeforeYear_succ in *. lia. }
  subst y'. split; [reflexivity|].
  rewrite !dayNumber_eq in E. clear B B'.
  destruct V as [Hm Hd], V' as [Hm' Hd'].
  unfold leapAdj, daysIn in *.
  destruct (isLeap y); month_of m Hm; month_of m' Hm';
    revert Hd Hd' E; eval_closed; cbv beta iota delta [andb]; lia.
Qed.

(** [t.Date()] gives back the date a time was made from. *)
Lemma civil_Date y m d h mi s ns :
  validDate y m d -> 0 <= h < 24 -> 0 <= mi < 60 -> 0 <= s < 60 ->
  0 <= ns < 1000000000 ->
  civil (Date y m d h mi s ns) = (y, m, d).
Proof.
  intros V Hh Hmi Hs Hns.
  pose proof (civil_spec (Date y m d h mi s ns)) as Hc.
  destruct (civil (Date y m d h mi s ns)) as [[y' m'] d'].
  destruct Hc as [V' E].
  rewrite absDay_Date in E by (unfold validDate in V; tauto).
  destruct (dayNumber_inj _ _ _ _ _ _ V' V E) as (-> & -> & ->).
  reflexivity.
Qed.

(** *** The text of a date determines the day *)


Lemma digit_spec n :
  0 <= n <= 9 -> isDigit (digit n) = true /\ digitVal (digit n) = n.
Proof.
  intros H.
  assert (E : exists k : nat, n = Z.of_nat k /\ (k < 10)%nat)
    by (exists (Z.to_nat n); lia).
  destruct E as (k & -> & Hk). clear H.
  do 10 (destruct k as [|k]; [split; reflexivity|]). lia.
Qed.

Lemma isDigit_digitVal c : isDigit c = true -> 0 <= digitVal c <= 9.
Proof.
  unfold isDigit, digitVal. cbv zeta.
  rewrite andb_true_iff, !Z.leb_le. lia.
Qed.

Lemma valOf_app a l1 l2 : valOf a (l1 ++ l2) = valOf (valOf a l1) l2.
Proof. apply fold_left_app. Qed.

Lemma valOf_zeros k l : valOf 0 (repeat "0"%char k ++ l) = valOf 0 l.
Proof. induction k as [|k IH]; [reflexivity|exact IH]. Qed.

Lemma decimal_spec fuel : forall u acc,
  0 <= u < 2 ^ (Z.of_nat fuel + 1) ->
  exists ds, decimal fuel u acc = (ds ++ acc)%list /\ ds <> [] /\
             allDigits ds /\ valOf 0 ds = u.
Proof.
  induction fuel as [|fuel IH]; intros u acc Hu.
  - change (2 ^ (Z.of_nat 0 + 1)) with 2 in Hu.
    exists [digit (u mod 10)]. cbn [decimal]. rewrite Z.mod_small by lia.
    destruct (digit_spec u ltac:(lia)) as [D1 D2].
    split; [reflexivity|]. split; [discriminate|].
    split; [repeat constructor; exact D1|].
    unfold valOf. cbn [fold_left]. rewrite D2. lia.
  - cbn [decimal]. destruct (Z.ltb_spec u 10) as [L|L].
    + exists [digit u]. destruct (digit_spec u ltac:(lia)) as [D1 D2].
      split; [reflexivity|]. split; [discriminate|].
      split; [repeat constructor; exact D1|].
      unfold valOf. cbn [fold_left]. rewrite D2. lia.
    + assert (Hq : 0 <= u / 10 < 2 ^ (Z.of_nat fuel + 1)).
      { replace (Z.of_nat (S fuel) + 1) with (Z.succ (Z.of_nat fuel + 1)) in Hu
          by lia.
        rewrite Z.pow_succ_r in Hu by lia. div_lia. }
      destruct (IH (u / 10) (digit (u mod 10) :: acc) Hq)
        as (ds & E & _ & A & V).
      exists (ds ++ [digit (u mod 10)])%list.
      destruct (digit_spec (u mod 10) ltac:(div_lia)) as [D1 D2].
      rewrite E, <- app_assoc.
      split; [reflexivity|]. split; [|split].
      * destruct ds; discriminate.
      * apply Forall_app. split; [exact A|repeat constructor; exact D1].
      * rewrite valOf_app, V. unfold valOf. cbn [fold_left]. rewrite D2. div_lia.
Qed.


Lemma readInt_digits l : l <> [] -> allDigits l -> readInt l = valOf 0 l.
Proof.
  destruct l as [|c r]; [congruence|]. intros _ A.
  inversion A as [|? ? Hc _]; subst. unfold readInt. rewrite Hc. reflexivity.
Qed.

Lemma readInt_appendInt x width : readInt (appendInt x width) = x.
Proof.
  unfold appendInt. cbv zeta.
  set (u := Z.abs x).
  assert (Hu : 0 <= u < 2 ^ (Z.of_nat (Z.to_nat (Z.log2 u)) + 1)).
  { split; [subst u; lia|].
    rewrite Z2Nat.id by apply Z.log2_nonneg.
    destruct (Z.eq_dec u 0) as [->|N]; [reflexivity|].
    replace (Z.log2 u + 1) with (Z.succ (Z.log2 u)) by lia.
    apply Z.log2_spec. subst u. lia. }
  destruct (decimal_spec _ u [] Hu) as (ds & E & NE & A & V).
  rewrite E, app_nil_r.
  set (body := (repeat "0"%char (width - List.length ds) ++ ds)%list).
  assert (Hb : body <> [] /\ allDigits body /\ valOf 0 body = u).
  { subst body. split; [|split].
    - destruct (repeat "0"%char (width - List.length ds)); [exact NE|discriminate].
    - apply Forall_app. split; [|exact A].
      apply Forall_forall. intros c Hc. apply repeat_spec in Hc. subst c.
      reflexivity.
    - rewrite valOf_zeros. exact V. }
  destruct Hb as (B1 & B2 & B3).
  destruct (Z.ltb_spec x 0) as [L|L].
  - cbn [app readInt]. change (isDigit dash) with false.
    cbv iota. rewrite B3. subst u. lia.
  - cbn [app]. rewrite readInt_digits by assumption. rewrite B3. subst u. lia.
Qed.

Lemma appendInt_width2 n :
  0 <= n <= 99 -> appendInt n 2 = [digit (n / 10); digit (n mod 10)].
Proof.
  intros H.
  assert (E : exists k : nat, n = Z.of_nat k /\ (k < 100)%nat)
    by (exists (Z.to_nat n); lia).
  destruct E as (k & -> & Hk). clear H.
  do 100 (destruct k as [|k]; [reflexivity|]). lia.
Qed.

Lemma tail6_inj (l l' : list ascii) a b c d e f a' b' c' d' e' f' :
  (l ++ [a; b; c; d; e; f])%list = (l' ++ [a'; b'; c'; d'; e'; f'])%list ->
  l = l' /\ b = b' /\ c = c' /\ e = e' /\ f = f'.
Proof.
  intros H. apply (f_equal (@rev ascii)) in H.
  rewrite !rev_app_distr in H. cbn in H.
  injection H as -> -> _ -> -> _ H.
  apply (f_equal (@rev ascii)) in H. rewrite !rev_involutive in H.
  repeat split; assumption.
Qed.

Lemma string_of_list_ascii_inj l l' :
  string_of_list_ascii l = string_of_list_ascii l' -> l = l'.
Proof.
  intros H. apply (f_equal list_ascii_of_string) in H.
  rewrite !list_ascii_of_string_of_list_ascii in H. exact H.
Qed.

Lemma daysIn_le_31 m y : 1 <= m <= 12 -> daysIn m y <= 31.
Proof.
  intros Hm. unfold daysIn.
  destruct (isLeap y); month_of m Hm; eval_closed;
    cbv beta iota delta [andb]; lia.
Qed.

Lemma two_digits_inj n n' :
  0 <= n <= 99 -> 0 <= n' <= 99 ->
  digit (n / 10) = digit (n' / 10) -> digit (n mod 10) = digit (n' mod 10) ->
  n = n'.
Proof.
  intros H H' E1 E2.
  apply (f_equal digitVal) in E1, E2.
  rewrite (proj2 (digit_spec (n / 10) ltac:(div_lia))) in E1.
  rewrite (proj2 (digit_spec (n' / 10) ltac:(div_lia))) in E1.
  rewrite (proj2 (digit_spec (n mod 10) ltac:(div_lia))) in E2.
  rewrite (proj2 (digit_spec (n' mod 10) ltac:(div_lia))) in E2.
  div_lia.
Qed.

(** Two times with the same text [Format] are on the same day, and the
    other way round. *)
Lemma Format_eq_iff t u : Format t = Format u <-> absDay t = absDay u.
Proof.
  split.
  - unfold Format. intros H.
    pose proof (civil_spec t) as Ht. pose proof (civil_spec u) as Hu.
    destruct (civil t) as [[y m] d], (civil u) as [[y' m'] d'].
    destruct Ht as [[Hm Hd] Nt], Hu as [[Hm' Hd'] Nu].
    pose proof (daysIn_le_31 m y Hm). pose proof (daysIn_le_31 m' y' Hm').
    apply string_of_list_ascii_inj in H.
    rewrite !(appendInt_width2 m), !(appendInt_width2 d) in H by lia.
    rewrite !(appendInt_width2 m'), !(appendInt_width2 d') in H by lia.
    cbn [app] in H.
    apply tail6_inj in H. destruct H as (Ey & Em1 & Em2 & Ed1 & Ed2).
    apply (f_equal readInt) in Ey. rewrite !readInt_appendInt in Ey.
    assert (m = m') by (apply two_digits_inj; assumption || lia).
    assert (d = d') by (apply two_digits_inj; assumption || lia).
    congruence.
  - unfold Format, civil. intros ->. reflexivity.
Qed.

(** *** What [time.Parse] returns *)

Lemma parseDate_valid s y m d :
  parseDate s = Some (y, m, d) -> validDate y m d /\ 0 <= y <= 9999.
Proof.
  unfold parseDate.
  destruct (list_ascii_of_string s)
    as [|y1 [|y2 [|y3 [|y4 [|s1 [|m1 [|m2 [|s2 [|d1 [|d2 [|]]]]]]]]]]];
    try discriminate.
  destruct (forallb isDigit [y1; y2; y3; y4; m1; m2; d1; d2]
            && Ascii.eqb s1 dash && Ascii.eqb s2 dash) eqn:G; [|discriminate].
  apply andb_true_iff in G. destruct G as [G _].
  apply andb_true_iff in G. destruct G as [G _].
  cbn [forallb] in G. rewrite !andb_true_iff in G.
  destruct G as (G1 & G2 & G3 & G4 & _).
  apply isDigit_digitVal in G1, G2, G3, G4.
  cbv zeta.
  destruct (Z.leb_spec (10 * digitVal m1 + digitVal m2) 0);
    cbn [orb]; [discriminate|].
  destruct (Z.ltb_spec 12 (10 * digitVal m1 + digitVal m2));
    cbn [orb]; [discriminate|].
  match goal with |- context [Z.ltb ?a 1] => destruct (Z.ltb_spec a 1) end;
    cbn [orb]; [discriminate|].
  match goal with |- context [Z.ltb (daysIn ?a ?b) ?c] =>
    destruct (Z.ltb_spec (daysIn a b) c) end; [discriminate|].
  match goal with |- Some (?a, ?b, ?c) = _ -> _ =>
    assert (By : 0 <= a <= 9999) by lia;
    generalize dependent a; intros yy; generalize dependent b; intros mm;
    generalize dependent c; intros dd end.
  intros. match goal with E : Some _ = Some _ |- _ => injection E as <- <- <- end.
  unfold validDate. lia.
Qed.

(** Whatever the text, the time the service takes from [time.Parse] is
    the midnight that starts the day [dayCount] counts. *)
Lemma Parse_time s :
  fst (Parse s) = mkTime ((dayCount s - unixEpochDay) * secondsPerDay) 0.
Proof.
  unfold Parse, dayCount. destruct (parseDate s) as [[[y m] d]|] eqn:E.
  - apply parseDate_valid in E. destruct E as [[Hm Hd] _].
    cbn [fst]. rewrite Date_normal by lia. f_equal. lia.
  - reflexivity.
Qed.

Lemma absDay_Parse s : absDay (fst (Parse s)) = dayCount s.
Proof.
  rewrite Parse_time. unfold absDay, secondsPerDay. cbn [sec]. div_lia.
Qed.

Lemma wellFormed_parseDate s :
  wellFormed s = true <-> exists y m d, parseDate s = Some (y, m, d).
Proof.
  unfold wellFormed, Parse. destruct (parseDate s) as [[[y m] d]|].
  - split; [intros _; eauto|reflexivity].
  - split; [discriminate|intros (? & ? & ? & ?); discriminate].
Qed.

(** *** Durations *)

Lemma Hours_24 d :
  Qeq_bool (Hours d) (inject_Z 24) = true <-> d = 24 * Hour.
Proof.
  rewrite Qeq_bool_iff. unfold Hours, Qeq, Qplus, inject_Z, Hour, Second.
  cbn [Qnum Qden]. div_lia.
Qed.

(** Between two midnights, [Sub] is 24 hours exactly when the second is
    one day after the first. *)
Lemma Sub_24 a b :
  Sub (mkTime (b * secondsPerDay) 0) (mkTime (a * secondsPerDay) 0) = 24 * Hour
  <-> b - a = 1.
Proof.
  unfold Sub, minDuration, maxDuration, Hour, Second, secondsPerDay.
  cbn [sec nsec]. cbv zeta.
  match goal with |- context [if ?c then _ else _] => destruct c eqn:C end.
  - lia.
  - match goal with |- context [if ?c then _ else _] => destruct c end.
    + split; [intros H; discriminate H|].
      intros H. rewrite andb_false_iff, !Z.leb_gt in C. lia.
    + split; [intros H; discriminate H|].
      intros H. rewrite andb_false_iff, !Z.leb_gt in C. lia.
Qed.

End GoTimeFacts.


(** ** Facts about the streak computations *)
Module StreakFacts.
Import GoTime Calendar GoTimeFacts Models Database Services Spec.


Lemma consecutive_iff a b :
  consecutive a b = true <-> dayCount b - dayCount a = 1.
Proof.
  unfold consecutive. cbv zeta. rewrite Hours_24, !Parse_time.
  rewrite Sub_24. lia.
Qed.

Lemma fold_scan l : forall pre a st,
  fold_left (longestStep (pre ++ a :: l))
            (seq (S (List.length pre)) (List.length l)) st
  = scan a l st.
Proof.
  induction l as [|b l IH]; intros pre a st; [reflexivity|].
  cbn [List.length seq fold_left scan].
  unfold longestStep at 2. destruct st as [lo cu].
  replace (S (List.length pre) - 1)%nat with (List.length pre) by lia.
  rewrite (app_nth2 pre) by lia. rewrite Nat.sub_diag. cbn [nth].
  replace (pre ++ a :: b :: l)%list with ((pre ++ [a]) ++ b :: l)%list
    by (rewrite <- app_assoc; reflexivity).
  rewrite (app_nth2 (pre ++ [a])) by (rewrite length_app; cbn [List.length]; lia).
  replace (S (List.length pre) - List.length (pre ++ [a]))%nat with 0%nat
    by (rewrite length_app; cbn [List.length]; lia).
  cbn [nth].
  replace (S (S (List.length pre))) with (S (List.length (pre ++ [a])))
    by (rewrite length_app; cbn [List.length]; lia).
  rewrite IH. reflexivity.
Qed.

Lemma calculateLongestStreak_scan l :
  calculateLongestStreak l =
  match rev l with
  | [] => 0
  | a :: r =>
      let '(longestStreak, currentStreak) := scan a r (1, 1) in
      if longestStreak <? currentStreak then currentStreak else longestStreak
  end.
Proof.
  unfold calculateLongestStreak. destruct l as [|x l]; [reflexivity|].
  destruct (rev (x :: l)) as [|a r] eqn:E.
  - apply (f_equal (@List.length string)) in E.
    rewrite length_rev in E. discriminate E.
  - cbv zeta.
    replace (List.length (a :: r) - 1)%nat with (List.length r)
      by (cbn [List.length]; lia).
    rewrite <- (fold_scan r [] a). reflexivity.
Qed.

Lemma scan_walkDays rest : forall prev lo cu,
  (let '(longestStreak, currentStreak) := scan prev rest (lo, cu) in
   if longestStreak <? currentStreak then currentStreak else longestStreak)
  = walkDays (dayCount prev) (map dayCount rest) cu lo.
Proof.
  induction rest as [|curr r IH]; intros prev lo cu.
  - cbn. destruct (Z.ltb_spec lo cu); lia.
  - cbn [scan map walkDays].
    destruct (consecutive prev curr) eqn:C.
    + apply consecutive_iff in C. rewrite (proj2 (Z.eqb_eq _ _) C). apply IH.
    + assert (N : dayCount curr - dayCount prev <> 1).
      { intros H. apply consecutive_iff in H. congruence. }
      rewrite (proj2 (Z.eqb_neq _ _) N), IH. f_equal.
      destruct (Z.ltb_spec lo cu); lia.
Qed.

Lemma lead_nonneg ds : 0 <= lead ds.
Proof.
  induction ds as [|a r IH]; [cbn; lia|].
  change (lead (a :: r))
    with (match r with
          | [] => 1
          | b :: _ => if b - a =? 1 then 1 + lead r else 1
          end).
  destruct r as [|b r]; [lia|]. destruct (b - a =? 1); lia.
Qed.

Lemma lead_cons a b r :
  lead (a :: b :: r) = if b - a =? 1 then 1 + lead (b :: r) else 1.
Proof. reflexivity. Qed.

Lemma lead_pos a r : 1 <= lead (a :: r).
Proof.
  destruct r as [|b r]; [cbn; lia|]. rewrite lead_cons.
  pose proof (lead_nonneg (b :: r)). destruct (b - a =? 1); lia.
Qed.

Lemma longestRun_nonneg ds : 0 <= longestRun ds.
Proof.
  destruct ds as [|a r]; cbn [longestRun]; [lia|].
  pose proof (lead_pos a r). lia.
Qed.

Lemma walkDays_longestRun rest : forall prev run best,
  0 <= run ->
  walkDays prev rest run best
  = Z.max best (Z.max (run - 1 + lead (prev :: rest)) (longestRun rest)).
Proof.
  induction rest as [|d r IH]; intros prev run best Hrun.
  - cbn. lia.
  - cbn [walkDays]. pose proof (lead_pos d r) as Hl.
    pose proof (longestRun_nonneg r) as Hn.
    rewrite lead_cons.
    change (longestRun (d :: r)) with (Z.max (lead (d :: r)) (longestRun r)).
    destruct (d - prev =? 1); rewrite IH by lia; lia.
Qed.

(** The longest streak is the greatest length of a run in the ascending
    list of day counts. *)
Lemma calculateLongestStreak_longestRun l :
  calculateLongestStreak l = longestRun (map dayCount (rev l)).
Proof.
  rewrite calculateLongestStreak_scan.
  destruct (rev l) as [|a r]; [reflexivity|].
  rewrite scan_walkDays, walkDays_longestRun by lia.
  cbn [map]. change (longestRun (dayCount a :: map dayCount r))
    with (Z.max (lead (dayCount a :: map dayCount r))
                (longestRun (map dayCount r))).
  pose proof (lead_pos (dayCount a) (map dayCount r)). lia.
Qed.

(** *** Runs and windows *)

Lemma isRun_cons a b r : isRun (a :: b :: r) <-> b - a = 1 /\ isRun (b :: r).
Proof. reflexivity. Qed.

Lemma isRun_snoc w y x :
  isRun (w ++ [y]) -> x - y = 1 -> isRun ((w ++ [y]) ++ [x]).
Proof.
  induction w as [|a w IH]; intros R E.
  - cbn. auto.
  - destruct w as [|b w].
    + cbn in *. tauto.
    + change (isRun (a :: (b :: w ++ [y]) ++ [x])).
      change (isRun (a :: b :: w ++ [y])) in R.
      apply isRun_cons in R. destruct R as [R1 R2].
      apply isRun_cons. split; [exact R1|]. apply IH; assumption.
Qed.

Lemma lead_run_prefix w : forall post,
  isRun w -> Z.of_nat (List.length w) <= lead (w ++ post).
Proof.
  induction w as [|a w IH]; intros post R.
  - cbn [List.length app]. apply lead_nonneg.
  - destruct w as [|b w].
    + cbn [List.length app]. pose proof (lead_pos a post). lia.
    + apply isRun_cons in R. destruct R as [R1 R2].
      change ((a :: b :: w) ++ post)%list with (a :: b :: (w ++ post))%list.
      rewrite lead_cons, (proj2 (Z.eqb_eq _ _) R1).
      specialize (IH post R2). cbn [List.length app] in *. lia.
Qed.

Lemma lead_is_run ds :
  exists w post, ds = (w ++ post)%list /\ isRun w /\
                 Z.of_nat (List.length w) = lead ds.
Proof.
  induction ds as [|a r IH].
  - exists [], []. cbn. auto.
  - destruct r as [|b r].
    + exists [a], []. cbn. auto.
    + rewrite lead_cons. destruct (Z.eqb_spec (b - a) 1) as [E|N].
      * destruct IH as (w & post & E1 & R & L).
        destruct w as [|b' w].
        { pose proof (lead_pos b r). cbn [List.length] in L. lia. }
        injection E1 as <- E1.
        exists (a :: b :: w), post. split; [cbn; congruence|].
        split; [apply isRun_cons; auto|].
        cbn [List.length] in *. lia.
      * exists [a], (b :: r). cbn. auto.
Qed.

(** No run inside the list is longer than [longestRun]. *)
Lemma longestRun_upper pre : forall w post,
  isRun w -> Z.of_nat (List.length w) <= longestRun (pre ++ w ++ post).
Proof.
  induction pre as [|x pre IH]; intros w post R.
  - cbn [app]. destruct w as [|a w].
    + cbn [List.length]. apply longestRun_nonneg.
    + pose proof (lead_run_prefix (a :: w) post R) as H.
      change (longestRun ((a :: w) ++ post))
        with (Z.max (lead ((a :: w) ++ post)) (longestRun (w ++ post))).
      lia.
  - change (longestRun ((x :: pre) ++ w ++ post))
      with (Z.max (lead ((x :: pre) ++ w ++ post))
                  (longestRun (pre ++ w ++ post))).
    specialize (IH w post R). lia.
Qed.

(** Some run inside the list has the length [longestRun]. *)
Lemma longestRun_attained ds :
  exists pre w post, ds = (pre ++ w ++ post)%list /\ isRun w /\
                     Z.of_nat (List.length w) = longestRun ds.
Proof.
  induction ds as [|a r IH].
  - exists [], [], []. cbn. auto.
  - change (longestRun (a :: r)) with (Z.max (lead (a :: r)) (longestRun r)).
    destruct (Z.max_spec (lead (a :: r)) (longestRun r)) as [[_ E]|[_ E]];
      rewrite E.
    + destruct IH as (pre & w & post & E1 & R & L).
      exists (a :: pre), w, post. cbn [app]. split; [congruence|auto].
    + destruct (lead_is_run (a :: r)) as (w & post & E1 & R & L).
      exists [], w, post. cbn [app]. auto.
Qed.

(** *** The current streak *)

Lemma countBack_countDays l : forall c e,
  nsec e = 0 ->
  countBack l c e = c + Z.of_nat (countDays (absDay e) (map dayCount l)).
Proof.
  induction l as [|s l IH]; intros c e He.
  - cbn. lia.
  - cbn [countBack map countDays]. cbv zeta.
    destruct (String.eqb_spec (Format (fst (Parse s))) (Format e)) as [E|N].
    + apply Format_eq_iff in E. rewrite absDay_Parse in E.
      rewrite (proj2 (Z.eqb_eq _ _) E).
      rewrite IH by (rewrite AddDate_days by lia; exact He).
      rewrite absDay_AddDate_days by lia.
      replace (absDay e + -1) with (absDay e - 1) by lia. lia.
    + assert (N' : dayCount s <> absDay e).
      { intros H. apply N. apply Format_eq_iff. rewrite absDay_Parse. exact H. }
      rewrite (proj2 (Z.eqb_neq _ _) N'). lia.
Qed.

Lemma countBack_from_first first rest :
  countBack (first :: rest) 0 (fst (Parse first))
  = Z.of_nat (countDays (dayCount first) (map dayCount (first :: rest))).
Proof.
  rewrite countBack_countDays by (rewrite Parse_time; reflexivity).
  rewrite absDay_Parse. lia.
Qed.

(** The current streak is 0, or the count of the leading entries that
    step down by one day from the first. *)
Lemma calculateCurrentStreak_cases now l :
  calculateCurrentStreak now l =
  match l with
  | [] => 0
  | first :: _ =>
      if String.eqb first (Format now)
         || String.eqb first (Format (AddDate now 0 0 (-1)))
      then Z.of_nat (countDays (dayCount first) (map dayCount l))
      else 0
  end.
Proof.
  destruct l as [|first rest]; [reflexivity|].
  unfold calculateCurrentStreak. cbv zeta.
  destruct (String.eqb_spec first (Format now)) as [<-|_]; cbn [orb].
  - apply countBack_from_first.
  - destruct (String.eqb_spec first (Format (AddDate now 0 0 (-1)))) as [<-|_].
    + apply countBack_from_first.
    + reflexivity.
Qed.

Lemma countDays_spec ds : forall e,
  let k := countDays e ds in
  (k <= List.length ds)%nat /\
  (forall i, (i < k)%nat -> nth i ds 0 = e - Z.of_nat i) /\
  (k = List.length ds \/ nth k ds 0 <> e - Z.of_nat k).
Proof.
  induction ds as [|d r IH]; intros e; cbn [countDays].
  - cbn. split; [lia|]. split; [intros i Hi; lia|auto].
  - destruct (Z.eqb_spec d e) as [->|N]; cbv zeta.
    + destruct (IH (e - 1)) as (H1 & H2 & H3). cbn [List.length nth].
      split; [lia|]. split.
      * intros [|i] Hi; [cbn; lia|]. cbn [nth]. rewrite H2 by lia. lia.
      * destruct H3 as [H3|H3]; [left; lia|right]. intros H. apply H3. lia.
    + cbn [List.length nth]. split; [lia|]. split; [intros i Hi; lia|].
      right. cbn. lia.
Qed.

Lemma countDays_run ds : forall e,
  isRun (rev (firstn (countDays e ds) ds)) /\
  ((0 < countDays e ds)%nat ->
   exists t, firstn (countDays e ds) ds = e :: t).
Proof.
  induction ds as [|d r IH]; intros e; cbn [countDays].
  - cbn. split; [exact I|lia].
  - destruct (Z.eqb_spec d e) as [->|N].
    + destruct (IH (e - 1)) as [R H]. cbn [firstn rev]. split; [|eauto].
      destruct (countDays (e - 1) r) as [|k'] eqn:K; [exact I|].
      destruct (H ltac:(lia)) as [t Ht]. rewrite Ht in *. cbn [rev] in *.
      apply isRun_snoc; [exact R|lia].
    + cbn. split; [exact I|lia].
Qed.

(** The count of the current streak never exceeds the longest run of the
    same dates in ascending order. *)
Lemma countDays_le_longestRun e ds :
  Z.of_nat (countDays e ds) <= longestRun (rev ds).
Proof.
  set (k := countDays e ds).
  destruct (countDays_spec ds e) as [Hk _]. fold k in Hk.
  destruct (countDays_run ds e) as [R _]. fold k in R.
  rewrite <- (firstn_skipn k ds) at 1. rewrite rev_app_distr.
  rewrite <- (app_nil_r (rev (firstn k ds))).
  pose proof (longestRun_upper (rev (skipn k ds)) _ [] R) as H.
  rewrite length_rev, length_firstn in H. lia.
Qed.

Lemma current_le_longest now l :
  0 <= calculateCurrentStreak now l <= calculateLongestStreak l.
Proof.
  rewrite calculateCurrentStreak_cases, calculateLongestStreak_longestRun.
  rewrite map_rev.
  pose proof (longestRun_nonneg (rev (map dayCount l))).
  destruct l as [|first rest]; [lia|].
  pose proof (countDays_le_longestRun (dayCount first)
                (map dayCount (first :: rest))).
  destruct (_ || _); lia.
Qed.

End StreakFacts.


(** ** Facts about the progress queries *)
Module ProgressFacts.
Import GoTime Calendar GoTimeFacts Models Database Services Spec ProgressSpec.

Lemma selectSum_run w cond n :
  selectSum w cond n =
  match outcome w n with
  | Some e => (inl e, S n)
  | None => (inr (sumSeconds (filter cond (sessions w))), S n)
  end.
Proof. reflexivity. Qed.

Lemma firstError_none w len : forall n,
  firstError w n len = None <->
  (forall k, (n <= k < n + len)%nat -> outcome w k = None).
Proof.
  induction len as [|len IH]; intros n; cbn [firstError].
  - split; [intros _ k Hk; lia|reflexivity].
  - destruct (outcome w n) as [e|] eqn:E.
    + split; [discriminate|]. intros H. rewrite H in E by lia. discriminate.
    + rewrite IH. split; intros H k Hk.
      * destruct (Nat.eq_dec k n) as [->|]; [exact E|apply H; lia].
      * apply H. lia.
Qed.

Lemma firstError_some w len : forall n k e,
  firstError w n len = Some (k, e) ->
  (n <= k < n + len)%nat /\ outcome w k = Some e /\
  (forall j, (n <= j < k)%nat -> outcome w j = None).
Proof.
  induction len as [|len IH]; intros n k e; cbn [firstError]; [discriminate|].
  destruct (outcome w n) as [e'|] eqn:E.
  - intros [= <- <-]. split; [lia|]. split; [exact E|]. intros j Hj. lia.
  - intros H. apply IH in H. destruct H as (H1 & H2 & H3).
    split; [lia|]. split; [exact H2|]. intros j Hj.
    destruct (Nat.eq_dec j n) as [->|]; [exact E|apply H3; lia].
Qed.

Lemma firstError_app w a b : forall n,
  firstError w n (a + b) =
  match firstError w n a with
  | Some r => Some r
  | None => firstError w (n + a) b
  end.
Proof.
  induction a as [|a IH]; intros n; cbn [firstError Nat.add].
  - rewrite Nat.add_0_r. reflexivity.
  - destruct (outcome w n); [reflexivity|].
    rewrite IH. replace (S n + a)%nat with (n + S a)%nat by lia. reflexivity.
Qed.

(** The weekly loop: it stops at the first query that fails, and
    otherwise appends one entry for every day asked for, in order. *)
Lemma weeklyLoop_run w userID idxs : forall progress n,
  weeklyLoop w userID idxs progress n =
  match firstError w n (List.length idxs) with
  | Some (k, e) => (inl e, S k)
  | None =>
      (inr (progress ++ map (weeklyEntry w userID) idxs)%list,
       (n + List.length idxs)%nat)
  end.
Proof.
  induction idxs as [|i idxs IH]; intros progress n.
  - cbn. rewrite app_nil_r, Nat.add_0_r. reflexivity.
  - cbn [weeklyLoop List.length firstError map]. unfold bind.
    rewrite selectSum_run. destruct (outcome w n); [reflexivity|].
    rewrite IH. destruct (firstError w (S n) (List.length idxs)) as [[k e]|].
    + reflexivity.
    + rewrite <- app_assoc. cbn [app]. f_equal. lia.
Qed.

(** The yearly loop, in the same way. *)
Lemma yearlyLoop_run w userID year ms : forall i progress n,
  yearlyLoop w userID year i ms progress n =
  match firstError w n (List.length ms) with
  | Some (k, e) => (inl e, S k)
  | None =>
      (inr (progress ++ map (yearlyEntry w userID year) (indexed i ms))%list,
       (n + List.length ms)%nat)
  end.
Proof.
  induction ms as [|m ms IH]; intros i progress n.
  - cbn. rewrite app_nil_r, Nat.add_0_r. reflexivity.
  - cbn [yearlyLoop List.length firstError map indexed]. unfold bind.
    rewrite selectSum_run. destruct (outcome w n); [reflexivity|].
    rewrite IH. destruct (firstError w (S n) (List.length ms)) as [[k e]|].
    + reflexivity.
    + rewrite <- app_assoc. cbn [app]. f_equal. lia.
Qed.

Lemma sumSeconds_nonneg l :
  (forall s, In s l -> 0 <= DurationSeconds s) -> 0 <= sumSeconds l.
Proof.
  induction l as [|s l IH]; intros H; cbn; [lia|].
  pose proof (H s (or_introl eq_refl)).
  assert (0 <= sumSeconds l) by (apply IH; intros; apply H; right; assumption).
  unfold sumSeconds in *. lia.
Qed.

Lemma sumSeconds_filter_nonneg w cond :
  durationsNonneg w -> 0 <= sumSeconds (filter cond (sessions w)).
Proof.
  intros H. apply sumSeconds_nonneg. intros s Hs.
  apply filter_In in Hs. apply H. tauto.
Qed.

Lemma sumSeconds_filter_ext (f g : Session -> bool) l :
  (forall s, f s = g s) ->
  sumSeconds (filter f l) = sumSeconds (filter g l).
Proof. intros H. rewrite (filter_ext _ _ H). reflexivity. Qed.

(** The rows of a date text are the rows of its day. *)
Lemma onDate_createdOnDay userID t s :
  onDate userID (Format t) s = createdOnDay userID (absDay t) s.
Proof.
  unfold onDate, createdOnDay. f_equal.
  destruct (String.eqb_spec (Format (CreatedAt s)) (Format t)) as [E|N];
    destruct (Z.eqb_spec (absDay (CreatedAt s)) (absDay t)) as [E'|N'];
    try reflexivity.
  - apply Format_eq_iff in E. contradiction.
  - apply Format_eq_iff in E'. contradiction.
Qed.

(** *** The bounds of the months *)

Lemma Date_month13 y d h mi s ns :
  Date y 13 d h mi s ns = Date (y + 1) 1 d h mi s ns.
Proof.
  unfold Date.
  change (norm y (13 - 1) 12) with (y + 1, 0).
  change (norm (y + 1) (1 - 1) 12) with (y + 1 + 0, 0).
  rewrite Z.add_0_r. reflexivity.
Qed.

Lemma daysIn_ge_28 m y : 1 <= m <= 12 -> 28 <= daysIn m y.
Proof.
  intros Hm. unfold daysIn.
  destruct (isLeap y); month_of m Hm; eval_closed;
    cbv beta iota delta [andb]; lia.
Qed.

Lemma validDate_first y m : 1 <= m <= 12 -> validDate y m 1.
Proof.
  intros Hm. split; [exact Hm|]. pose proof (daysIn_ge_28 m y Hm). lia.
Qed.

Lemma monthStart_time year i :
  0 <= i <= 11 ->
  monthStart year i =
  mkTime ((dayNumber year (i + 1) 1 - unixEpochDay) * secondsPerDay) 0.
Proof.
  intros Hi. unfold monthStart. rewrite Date_normal by lia. f_equal. lia.
Qed.

Lemma Clock_midnight a : Clock (mkTime (a * secondsPerDay) 0) = (0, 0, 0).
Proof.
  unfold Clock, secondsPerDay. cbn [sec]. cbv zeta.
  rewrite Z.mod_mul by lia. reflexivity.
Qed.

(** [monthEnd] is one second before the first instant of the month that
    follows. *)
Lemma monthEnd_time year i :
  0 <= i <= 11 ->
  monthEnd year i = mkTime (sec (monthStart year (i + 1)) - 1) 0.
Proof.
  intros Hi. unfold monthEnd.
  assert (E : AddDate (monthStart year i) 0 1 0 = monthStart year (i + 1)).
  { unfold AddDate.
    replace (civil (monthStart year i)) with (year, i + 1, 1)
      by (symmetry; apply civil_Date; try lia; apply validDate_first; lia).
    rewrite monthStart_time by exact Hi. rewrite Clock_midnight.
    cbn [nsec]. rewrite Z.add_0_r. reflexivity. }
  rewrite E. unfold Add, Second.
  assert (N : nsec (monthStart year (i + 1)) = 0).
  { destruct (Z.eq_dec i 11) as [->|].
    - unfold monthStart. change (11 + 1 + 1) with 13.
      rewrite Date_month13, Date_normal by lia. reflexivity.
    - rewrite monthStart_time by lia. reflexivity. }
  rewrite N. reflexivity.
Qed.


Lemma monthStart_boundary year i :
  0 <= i <= 12 -> monthStart year i = mkTime (boundary year i) 0.
Proof.
  intros Hi. unfold boundary. destruct (Z.eq_dec i 12) as [->|].
  - unfold monthStart. change (12 + 1) with 13.
    rewrite Date_month13, Date_normal by lia. f_equal.
    rewrite dayNumber_eq, daysBeforeYear_succ.
    unfold yearLength, leapAdj. destruct (isLeap year), (isLeap (year + 1));
      eval_closed; cbv beta iota delta [andb]; lia.
  - rewrite monthStart_time by lia. f_equal. rewrite dayNumber_eq.
    replace (i + 1 - 1) with i by lia. lia.
Qed.

Lemma boundary_increasing year i :
  0 <= i <= 11 -> boundary year i < boundary year (i + 1).
Proof.
  intros Hi. unfold boundary, leapAdj, secondsPerDay.
  destruct (isLeap year); each_month Hi; subst i; eval_closed;
    cbv beta iota delta [andb]; lia.
Qed.

Lemma GetWeeklyProgress_run w userID n :
  GetWeeklyProgress w userID n =
  match firstError w n 7 with
  | Some (k, e) => (inl e, S k)
  | None => (inr (map (weeklyEntry w userID) [6; 5; 4; 3; 2; 1; 0]), (n + 7)%nat)
  end.
Proof. unfold GetWeeklyProgress. rewrite weeklyLoop_run. reflexivity. Qed.

Lemma GetYearlyProgress_run w userID year n :
  GetYearlyProgress w userID year n =
  match firstError w n 12 with
  | Some (k, e) => (inl e, S k)
  | None =>
      (inr (map (yearlyEntry w userID year) (indexed 0 months)), (n + 12)%nat)
  end.
Proof. unfold GetYearlyProgress. rewrite yearlyLoop_run. reflexivity. Qed.

(** *** The months of a year divide it *)


Lemma within_split lo mid hi x :
  lo <= mid <= hi -> within lo mid x + within mid hi x = within lo hi x.
Proof.
  intros H. unfold within.
  destruct (Z.leb_spec lo x), (Z.ltb_spec x mid), (Z.leb_spec mid x),
    (Z.ltb_spec x hi); cbn; lia.
Qed.

Lemma chain_mono (b : Z -> Z) k : forall i,
  (forall j, i <= j < i + Z.of_nat k -> b j <= b (j + 1)) ->
  b i <= b (i + Z.of_nat k).
Proof.
  induction k as [|k IH]; intros i H.
  - rewrite Z.add_0_r. lia.
  - pose proof (H i ltac:(lia)).
    pose proof (IH (i + 1) ltac:(intros j Hj; apply H; lia)).
    replace (i + Z.of_nat (S k)) with (i + 1 + Z.of_nat k) by lia. lia.
Qed.

Lemma within_telescope (b : Z -> Z) x k : forall i,
  (forall j, i <= j < i + Z.of_nat k -> b j <= b (j + 1)) ->
  sumZ (map (fun j => within (b j) (b (j + 1)) x) (zseq i k))
  = within (b i) (b (i + Z.of_nat k)) x.
Proof.
  induction k as [|k IH]; intros i H.
  - cbn. rewrite Z.add_0_r. unfold within.
    destruct (Z.leb_spec (b i) x), (Z.ltb_spec x (b i)); cbn; lia.
  - cbn [zseq map sumZ fold_right]. fold (sumZ (map (fun j => within (b j) (b (j + 1)) x) (zseq (i + 1) k))).
    rewrite IH by (intros j Hj; apply H; lia).
    replace (i + Z.of_nat (S k)) with (i + 1 + Z.of_nat k) by lia.
    apply within_split. split; [apply H; lia|].
    apply chain_mono. intros j Hj. apply H. lia.
Qed.

Lemma leapAdj_low y m : m <= 2 -> leapAdj y m = 0.
Proof.
  intros H. unfold leapAdj. destruct (Z.leb_spec 3 m); [lia|].
  rewrite andb_false_r. reflexivity.
Qed.

Lemma boundary_next_year y : boundary y 12 = boundary (y + 1) 0.
Proof.
  unfold boundary. rewrite daysBeforeYear_succ.
  rewrite (leapAdj_low (y + 1)) by lia.
  unfold yearLength, leapAdj. destruct (isLeap y); eval_closed;
    cbv beta iota delta [andb]; lia.
Qed.

(** The year of a time is [y] exactly between the start of [y] and the
    start of the year after. *)
Lemma Year_iff t y :
  Year t = y <-> boundary y 0 <= sec t < boundary y 12.
Proof.
  rewrite boundary_next_year. unfold boundary.
  rewrite !leapAdj_low by lia. change (daysBefore 0) with 0.
  unfold Year, civil.
  pose proof (yearDay_spec (absDay t)) as H.
  destruct (yearDay (absDay t)) as [y' yd]. destruct H as [H1 H2].
  destruct (monthDay y' yd) as [m d]. cbn [fst].
  pose proof (daysBeforeYear_succ y') as S1.
  pose proof (daysBeforeYear_succ y) as S2.
  assert (A : daysBeforeYear y <= absDay t < daysBeforeYear (y + 1)
              <-> (daysBeforeYear y + 0 + 0 - unixEpochDay) * secondsPerDay
                  <= sec t
                  < (daysBeforeYear (y + 1) + 0 + 0 - unixEpochDay)
                    * secondsPerDay).
  { unfold absDay, secondsPerDay. div_lia. }
  rewrite <- A. split.
  - intros <-. lia.
  - intros B. destruct (Z.lt_trichotomy y' y) as [L|[L|L]]; [|exact L|].
    + pose proof (daysBeforeYear_mono (y' + 1) y ltac:(lia)). lia.
    + pose proof (daysBeforeYear_mono (y + 1) y' ltac:(lia)). lia.
Qed.

Lemma createdInYear_within userID year s :
  createdInYear userID year s =
  live userID s
  && (within (boundary year 0) (boundary year 12) (sec (CreatedAt s)) =? 1).
Proof.
  unfold createdInYear, within. f_equal.
  destruct (Z.eqb_spec (Year (CreatedAt s)) year) as [E|N].
  - apply Year_iff in E.
    rewrite (proj2 (Z.leb_le _ _)), (proj2 (Z.ltb_lt _ _)) by lia. reflexivity.
  - destruct (Z.leb_spec (boundary year 0) (sec (CreatedAt s)));
      destruct (Z.ltb_spec (sec (CreatedAt s)) (boundary year 12));
      try reflexivity.
    exfalso. apply N. apply Year_iff. lia.
Qed.

Lemma between_within userID year i s :
  0 <= i <= 11 -> nsec (CreatedAt s) = 0 ->
  between userID (monthStart year i) (monthEnd year i) s =
  live userID s
  && (within (boundary year i) (boundary year (i + 1)) (sec (CreatedAt s)) =? 1).
Proof.
  intros Hi Hs. unfold between. rewrite monthEnd_time by exact Hi.
  rewrite !monthStart_boundary by lia. rewrite <- andb_assoc. f_equal.
  unfold leTime, Before, within. cbn [sec nsec]. rewrite Hs.
  destruct (Z.leb_spec (boundary year i) (sec (CreatedAt s)));
    destruct (Z.ltb_spec (sec (CreatedAt s)) (boundary year (i + 1)));
    destruct (Z.ltb_spec (sec (CreatedAt s)) (boundary year i));
    destruct (Z.ltb_spec (boundary year (i + 1) - 1) (sec (CreatedAt s)));
    destruct (Z.eqb_spec (sec (CreatedAt s)) (boundary year i));
    destruct (Z.eqb_spec (boundary year (i + 1) - 1) (sec (CreatedAt s)));
    cbn; try reflexivity; lia.
Qed.

Lemma sumSeconds_filter_cons (f : Session -> bool) s l :
  sumSeconds (filter f (s :: l))
  = (if f s then DurationSeconds s else 0) + sumSeconds (filter f l).
Proof. cbn [filter]. destruct (f s); reflexivity. Qed.

Lemma sumZ_map_add {A} (f g : A -> Z) xs :
  sumZ (map (fun i => f i + g i) xs) = sumZ (map f xs) + sumZ (map g xs).
Proof.
  induction xs as [|x xs IH]; [reflexivity|].
  cbn [map sumZ fold_right] in *. unfold sumZ in IH. lia.
Qed.

Lemma sumZ_map_scale {A} c (f : A -> Z) xs :
  sumZ (map (fun i => c * f i) xs) = c * sumZ (map f xs).
Proof.
  induction xs as [|x xs IH]; [cbn; lia|].
  cbn [map sumZ fold_right] in *. unfold sumZ in IH. lia.
Qed.

Lemma sumZ_map_const0 {A} (xs : list A) : sumZ (map (fun _ => 0) xs) = 0.
Proof. induction xs as [|x xs IH]; [reflexivity|exact IH]. Qed.

Lemma zseq_In k : forall i j, In j (zseq i k) -> i <= j < i + Z.of_nat k.
Proof.
  induction k as [|k IH]; intros i j; cbn [zseq In]; [tauto|].
  intros [<-|H]; [lia|]. apply IH in H. lia.
Qed.

Lemma within_01 lo hi x : within lo hi x = 0 \/ within lo hi x = 1.
Proof. unfold within. destruct (_ && _); auto. Qed.

(** One session counts for exactly one month of the year it was created
    in, and for no month of another year. *)
Lemma session_in_one_month userID year s :
  nsec (CreatedAt s) = 0 ->
  sumZ (map (fun i =>
               if between userID (monthStart year i) (monthEnd year i) s
               then DurationSeconds s else 0) (zseq 0 12))
  = if createdInYear userID year s then DurationSeconds s else 0.
Proof.
  intros Hs.
  rewrite (map_ext_in _
    (fun i => (if live userID s then DurationSeconds s else 0)
              * within (boundary year i) (boundary year (i + 1))
                       (sec (CreatedAt s)))).
  - rewrite sumZ_map_scale.
    rewrite (within_telescope (boundary year) (sec (CreatedAt s)) 12 0)
      by (intros j Hj; pose proof (boundary_increasing year j); lia).
    rewrite createdInYear_within. change (0 + Z.of_nat 12) with 12.
    destruct (live userID s); cbn [andb]; [|lia].
    destruct (within_01 (boundary year 0) (boundary year 12)
                (sec (CreatedAt s))) as [E|E]; rewrite E; cbn; lia.
  - intros i Hi. apply zseq_In in Hi.
    rewrite between_within by (assumption || lia).
    destruct (live userID s); cbn [andb]; [|lia].
    destruct (within_01 (boundary year i) (boundary year (i + 1))
                (sec (CreatedAt s))) as [E|E]; rewrite E; cbn; lia.
Qed.

(** The seconds of the twelve months add up to the seconds of the year. *)
Lemma months_partition userID year l :
  (forall s, In s l -> nsec (CreatedAt s) = 0) ->
  sumZ (map (fun i =>
               sumSeconds
                 (filter (between userID (monthStart year i) (monthEnd year i)) l))
            (zseq 0 12))
  = sumSeconds (filter (createdInYear userID year) l).
Proof.
  induction l as [|s l IH]; intros H.
  - cbn [filter]. apply sumZ_map_const0.
  - rewrite sumSeconds_filter_cons.
    rewrite <- IH by (intros; apply H; right; assumption).
    rewrite <- (session_in_one_month userID year s)
      by (apply H; left; reflexivity).
    rewrite <- sumZ_map_add. apply f_equal, map_ext. intros i.
    apply sumSeconds_filter_cons.
Qed.

(** Rounding every month down to whole minutes loses less than a minute
    a month. *)
Lemma floor_minutes_sum ms :
  Forall (fun m => 0 <= m) ms ->
  let q := sumZ (map (fun m => Z.quot m 60) ms) in
  60 * q <= sumZ ms <= 60 * q + 59 * Z.of_nat (List.length ms).
Proof.
  induction 1 as [|m ms Hm _ IH]; cbv zeta in *.
  - cbn. lia.
  - cbn [map sumZ fold_right List.length] in *. unfold sumZ in IH.
    rewrite Z.quot_div_nonneg by lia. div_lia.
Qed.

Lemma floor_minutes_exact ms :
  Forall (fun m => 0 <= m /\ m mod 60 = 0) ms ->
  60 * sumZ (map (fun m => Z.quot m 60) ms) = sumZ ms.
Proof.
  induction 1 as [|m ms [Hm Hd] _ IH].
  - reflexivity.
  - cbn [map sumZ fold_right] in *. unfold sumZ in IH.
    rewrite Z.quot_div_nonneg by lia. div_lia.
Qed.

End ProgressFacts.

(** ** Facts about the store's ordering *)
Module OrderFacts.
Import GoTime Models Database ProgressSpec.


Lemma leTime_spec t u :
  leTime t u = true <-> sec t < sec u \/ (sec t = sec u /\ nsec t <= nsec u).
Proof.
  unfold leTime, Before.
  rewrite negb_true_iff, orb_false_iff, andb_false_iff, !Z.ltb_ge, Z.eqb_neq.
  lia.
Qed.

Lemma leTime_total t u : leTime t u = false -> leTime u t = true.
Proof.
  intros H. apply leTime_spec.
  assert (N : ~ (leTime t u = true)) by congruence.
  rewrite leTime_spec in N. lia.
Qed.

Lemma newerFirst_trans a b c : newerFirst a b -> newerFirst b c -> newerFirst a c.
Proof. unfold newerFirst. rewrite !leTime_spec. lia. Qed.

Lemma Before_spec t u :
  Before t u = true <-> sec t < sec u \/ (sec t = sec u /\ nsec t < nsec u).
Proof.
  unfold Before. rewrite orb_true_iff, andb_true_iff, !Z.ltb_lt, Z.eqb_eq.
  reflexivity.
Qed.

Lemma insertDesc_perm tie s l : Permutation (insertDesc tie s l) (s :: l).
Proof.
  induction l as [|x r IH]; cbn [insertDesc]; [reflexivity|].
  destruct (Before (CreatedAt x) (CreatedAt s)); [reflexivity|].
  destruct (Before (CreatedAt s) (CreatedAt x));
    [rewrite IH; apply perm_swap|].
  destruct (tie s x); [reflexivity|]. rewrite IH. apply perm_swap.
Qed.

Lemma orderDesc_perm tie l : Permutation (orderDesc tie l) l.
Proof.
  induction l as [|s l IH]; [reflexivity|].
  cbn [orderDesc fold_right]. rewrite insertDesc_perm.
  apply perm_skip. exact IH.
Qed.

Lemma insertDesc_descending tie s l :
  descending l -> descending (insertDesc tie s l).
Proof.
  unfold descending. induction l as [|x r IH]; intros H; cbn [insertDesc].
  - repeat constructor.
  - apply StronglySorted_inv in H. destruct H as [H1 H2].
    assert (Front : newerFirst s x -> StronglySorted newerFirst (s :: x :: r)).
    { intros N. constructor; [constructor; assumption|].
      constructor; [exact N|].
      apply Forall_forall. intros y Hy. rewrite Forall_forall in H2.
      apply (newerFirst_trans s x y N). apply H2. exact Hy. }
    assert (Back : newerFirst x s ->
                   StronglySorted newerFirst (x :: insertDesc tie s r)).
    { intros N. constructor; [apply IH; exact H1|].
      apply Forall_forall. intros y Hy.
      apply (Permutation_in _ (insertDesc_perm tie s r)) in Hy.
      destruct Hy as [<-|Hy]; [exact N|].
      rewrite Forall_forall in H2. apply H2. exact Hy. }
    destruct (Before (CreatedAt x) (CreatedAt s)) eqn:E1.
    { apply Front. unfold newerFirst. apply leTime_spec.
      apply Before_spec in E1. lia. }
    destruct (Before (CreatedAt s) (CreatedAt x)) eqn:E2.
    { apply Back. unfold newerFirst. apply leTime_spec.
      apply Before_spec in E2. lia. }
    assert (N1 : ~ (Before (CreatedAt x) (CreatedAt s) = true)) by congruence.
    assert (N2 : ~ (Before (CreatedAt s) (CreatedAt x) = true)) by congruence.
    rewrite Before_spec in N1, N2.
    destruct (tie s x).
    + apply Front. unfold newerFirst. apply leTime_spec. lia.
    + apply Back. unfold newerFirst. apply leTime_spec. lia.
Qed.

Lemma orderDesc_descending tie l : descending (orderDesc tie l).
Proof.
  induction l as [|s l IH]; [constructor|].
  cbn [orderDesc fold_right]. apply insertDesc_descending. exact IH.
Qed.

Lemma descending_app l1 l2 :
  descending (l1 ++ l2) ->
  descending l1 /\
  (forall a b, In a l1 -> In b l2 -> newerFirst a b).
Proof.
  unfold descending. induction l1 as [|x l1 IH]; cbn [app]; intros H.
  - split; [constructor|]. intros a b [].
  - apply StronglySorted_inv in H. destruct H as [H1 H2].
    destruct (IH H1) as [S1 S2]. rewrite Forall_forall in H2. split.
    + constructor; [exact S1|]. apply Forall_forall. intros y Hy.
      apply H2. apply in_or_app. left. exact Hy.
    + intros a b [<-|Ha] Hb.
      * apply H2. apply in_or_app. right. exact Hb.
      * apply S2; assumption.
Qed.

(** The rows a limit keeps are the newest ones, newest first, whatever
    the engine does with rows created at the same time. *)
Lemma firstn_orderDesc tie k l :
  let result := firstn k (orderDesc tie l) in
  List.length result = Nat.min k (List.length l) /\
  descending result /\
  exists older,
    Permutation (result ++ older) l /\
    (forall a b, In a result -> In b older -> newerFirst a b).
Proof.
  cbv zeta. split; [|split].
  - rewrite length_firstn. rewrite (Permutation_length (orderDesc_perm tie l)).
    reflexivity.
  - pose proof (orderDesc_descending tie l) as H.
    rewrite <- (firstn_skipn k (orderDesc tie l)) in H.
    apply descending_app in H. tauto.
  - exists (skipn k (orderDesc tie l)). split.
    + rewrite firstn_skipn. apply orderDesc_perm.
    + pose proof (orderDesc_descending tie l) as H.
      rewrite <- (firstn_skipn k (orderDesc tie l)) in H.
      apply descending_app in H. tauto.
Qed.

(** When no two rows were created at the same time, the order does not
    depend on the choice of the engine. *)
Lemma insertDesc_no_tie tie tie' s l :
  (forall x, In x l -> CreatedAt x <> CreatedAt s) ->
  insertDesc tie s l = insertDesc tie' s l.
Proof.
  induction l as [|x r IH]; intros H; cbn [insertDesc]; [reflexivity|].
  rewrite IH by (intros y Hy; apply H; right; exact Hy).
  destruct (Before (CreatedAt x) (CreatedAt s)) eqn:E1; [reflexivity|].
  destruct (Before (CreatedAt s) (CreatedAt x)) eqn:E2; [reflexivity|].
  exfalso. apply (H x (or_introl eq_refl)).
  assert (N1 : ~ (Before (CreatedAt x) (CreatedAt s) = true)) by congruence.
  assert (N2 : ~ (Before (CreatedAt s) (CreatedAt x) = true)) by congruence.
  rewrite Before_spec in N1, N2.
  destruct (CreatedAt x) as [a b], (CreatedAt s) as [c d]. cbn [sec nsec] in *.
  f_equal; lia.
Qed.

Lemma orderDesc_no_tie tie tie' l :
  NoDup (map CreatedAt l) -> orderDesc tie l = orderDesc tie' l.
Proof.
  induction l as [|s l IH]; intros N; [reflexivity|].
  cbn [map] in N. apply NoDup_cons_iff in N. destruct N as [N1 N2].
  cbn [orderDesc fold_right]. fold (orderDesc tie l) (orderDesc tie' l).
  rewrite (IH N2). apply insertDesc_no_tie.
  intros x Hx E. apply N1. rewrite <- E. apply in_map.
  apply (Permutation_in _ (orderDesc_perm tie' l)). exact Hx.
Qed.

End OrderFacts.

(** ** The properties of the streak computations *)
Import GoTime Calendar GoTimeFacts Models Database Services Spec StreakFacts.
Import ProgressSpec ProgressFacts OrderFacts.

Lemma calculateLongestStreak_byDayCount l :
  calculateLongestStreak l = longestStreakByDayCount (map dayCount l).
Proof.
  rewrite calculateLongestStreak_scan. unfold longestStreakByDayCount.
  rewrite <- map_rev. destruct (rev l) as [|a r]; [reflexivity|].
  rewrite scan_walkDays. reflexivity.
Qed.

(** C1. For every list of well-formed session dates (most recent first),
    the longest streak is what the walk over the adjacent pairs of the
    ascending list returns, extending the running counter on consecutive
    calendar days and restarting at 1 otherwise; it is the greatest length
    of a run of consecutive days in the ascending list: some run has this
    length and no run is longer.  For the empty list it is 0. *)
Theorem longest_streak_is_longest_run (sessionDates : list string) :
  Forall (fun s => wellFormed s = true) sessionDates ->
  let ascending := map dayCount (rev sessionDates) in
  let longest := calculateLongestStreak sessionDates in
  (sessionDates = [] -> longest = 0) /\
  longest = longestStreakByDayCount (map dayCount sessionDates) /\
  (exists pre run post,
      ascending = (pre ++ run ++ post)%list /\ isRun run /\
      Z.of_nat (List.length run) = longest) /\
  (forall pre run post,
      ascending = (pre ++ run ++ post)%list -> isRun run ->
      Z.of_nat (List.length run) <= longest).
Proof.
  intros _. cbv zeta. split; [intros ->; reflexivity|].
  split; [apply calculateLongestStreak_byDayCount|].
  rewrite calculateLongestStreak_longestRun. split.
  - apply longestRun_attained.
  - intros pre run post -> R. apply longestRun_upper. exact R.
Qed.

Lemma longest_streak_is_longest_run_witness :
  Forall (fun s => wellFormed s = true)
         ["2025-07-03"; "2025-07-02"; "2025-06-30"]%string /\
  calculateLongestStreak ["2025-07-03"; "2025-07-02"; "2025-06-30"]%string
  = longestStreakByDayCount
      (map dayCount ["2025-07-03"; "2025-07-02"; "2025-06-30"]%string).
Proof.
  assert (H : Forall (fun s => wellFormed s = true)
                ["2025-07-03"; "2025-07-02"; "2025-06-30"]%string)
    by (repeat constructor).
  split; [exact H|].
  exact (proj1 (proj2
    (longest_streak_is_longest_run
       ["2025-07-03"; "2025-07-02"; "2025-06-30"]%string H))).
Defined.

(** C2. For every list of well-formed session dates (most recent first),
    the current streak is 0 when the list is empty or when its first date
    is neither the text of today nor that of yesterday; otherwise it is the
    number [k >= 1] of leading entries that step down one calendar day at a
    time from the first date, the entry after them, if any, being off that
    step.  Ten consecutive days that ended three days ago give a current
    streak of 0 and a longest streak of 10. *)
Theorem current_streak_counts_back (now : Time) (sessionDates : list string) :
  Forall (fun s => wellFormed s = true) sessionDates ->
  let today := Format now in
  let yesterday := Format (AddDate now 0 0 (-1)) in
  let days := map dayCount sessionDates in
  let current := calculateCurrentStreak now sessionDates in
  (sessionDates = [] -> current = 0) /\
  (forall first rest, sessionDates = first :: rest ->
     first <> today -> first <> yesterday -> current = 0) /\
  (forall first rest, sessionDates = first :: rest ->
     first = today \/ first = yesterday ->
     exists k : nat,
       current = Z.of_nat k /\ (1 <= k <= List.length sessionDates)%nat /\
       (forall i, (i < k)%nat -> nth i days 0 = dayCount first - Z.of_nat i) /\
       (k = List.length sessionDates \/
        nth k days 0 <> dayCount first - Z.of_nat k)) /\
  (calculateCurrentStreak exampleNow exampleRun = 0 /\
   calculateLongestStreak exampleRun = 10).
Proof.
  intros _. cbv zeta. rewrite calculateCurrentStreak_cases.
  split; [intros ->; reflexivity|]. split; [|split].
  - intros first rest -> N1 N2.
    apply String.eqb_neq in N1, N2. rewrite N1, N2. reflexivity.
  - intros first rest -> H.
    assert (E : String.eqb first (Format now)
                || String.eqb first (Format (AddDate now 0 0 (-1))) = true).
    { apply orb_true_iff. rewrite !String.eqb_eq. exact H. }
    rewrite E.
    set (days := map dayCount (first :: rest)).
    destruct (countDays_spec days (dayCount first)) as (H1 & H2 & H3).
    exists (countDays (dayCount first) days).
    split; [reflexivity|]. split; [|split].
    + split; [|subst days; rewrite length_map in H1; exact H1].
      subst days. cbn [map countDays]. rewrite Z.eqb_refl. lia.
    + exact H2.
    + subst days. rewrite length_map in H3. exact H3.
  - split; vm_compute; reflexivity.
Qed.

Lemma current_streak_counts_back_witness :
  Forall (fun s => wellFormed s = true)
         ["2025-07-15"; "2025-07-14"; "2025-07-12"]%string /\
  exists k : nat,
    calculateCurrentStreak exampleNow
      ["2025-07-15"; "2025-07-14"; "2025-07-12"]%string = Z.of_nat k /\
    (1 <= k <= 3)%nat.
Proof.
  assert (H : Forall (fun s => wellFormed s = true)
                ["2025-07-15"; "2025-07-14"; "2025-07-12"]%string)
    by (repeat constructor).
  split; [exact H|].
  destruct (current_streak_counts_back exampleNow
              ["2025-07-15"; "2025-07-14"; "2025-07-12"]%string H)
    as (_ & _ & C & _).
  destruct (C "2025-07-15"%string ["2025-07-14"; "2025-07-12"]%string
              eq_refl (or_introl eq_refl)) as (k & E & B & _).
  exists k. split; [exact E|exact B].
Defined.

(** C8. For every pair of well-formed date texts, the adjacency test of
    the longest streak (the difference of the two parsed times is exactly
    24 hours) holds exactly when the day count of the second is one more
    than that of the first; and on every list of well-formed dates the
    longest streak is the one the walk over day counts computes. *)
Theorem adjacency_is_day_count_difference
  (prev curr : string) (sessionDates : list string) :
  wellFormed prev = true -> wellFormed curr = true ->
  Forall (fun s => wellFormed s = true) sessionDates ->
  (consecutive prev curr = true <-> dayCount curr - dayCount prev = 1) /\
  calculateLongestStreak sessionDates
  = longestStreakByDayCount (map dayCount sessionDates).
Proof.
  intros _ _ _. split.
  - apply consecutive_iff.
  - apply calculateLongestStreak_byDayCount.
Qed.

Lemma adjacency_is_day_count_difference_witness :
  wellFormed "2024-02-29" = true /\ wellFormed "2024-03-01" = true /\
  Forall (fun s => wellFormed s = true)
         ["2024-03-01"; "2024-02-29"; "2024-02-27"]%string /\
  (consecutive "2024-02-29" "2024-03-01" = true
   <-> dayCount "2024-03-01" - dayCount "2024-02-29" = 1).
Proof.
  assert (H : Forall (fun s => wellFormed s = true)
                ["2024-03-01"; "2024-02-29"; "2024-02-27"]%string)
    by (repeat constructor).
  split; [reflexivity|]. split; [reflexivity|]. split; [exact H|].
  exact (proj1 (adjacency_is_day_count_difference
                  "2024-02-29" "2024-03-01"
                  ["2024-03-01"; "2024-02-29"; "2024-02-27"]%string
                  eq_refl eq_refl H)).
Defined.

(** C9. For every list of well-formed session dates and every time of
    the call, the current and the longest streak, as [CalculateStreaks]
    puts them into its [StreakInfo], satisfy [0 <= current <= longest];
    and so does every [StreakInfo] that [CalculateStreaks] returns,
    whatever dates the store hands over. *)
Theorem streaks_current_le_longest (now : Time) (sessionDates : list string) :
  Forall (fun s => wellFormed s = true) sessionDates ->
  (let info := mkStreakInfo (calculateCurrentStreak now sessionDates)
                            (calculateLongestStreak sessionDates) in
   0 <= Current info <= Longest info) /\
  (forall (w : World) (userID : string) (n : nat),
     match CalculateStreaks w userID n with
     | (inl _, _) => True
     | (inr info, _) => 0 <= Current info <= Longest info
     end).
Proof.
  intros _. split.
  - cbv zeta. cbn [Current Longest]. apply current_le_longest.
  - intros w userID n. unfold CalculateStreaks, bind, getSessionDates.
    destruct (selectDates w userID n) as [[e|l] n']; [exact I|].
    cbv zeta. unfold ret. cbn [Current Longest]. apply current_le_longest.
Qed.

Lemma streaks_current_le_longest_witness :
  Forall (fun s => wellFormed s = true)
         ["2025-07-15"; "2025-07-14"; "2025-07-12"]%string /\
  0 <= calculateCurrentStreak exampleNow
         ["2025-07-15"; "2025-07-14"; "2025-07-12"]%string
    <= calculateLongestStreak ["2025-07-15"; "2025-07-14"; "2025-07-12"]%string.
Proof.
  assert (H : Forall (fun s => wellFormed s = true)
                ["2025-07-15"; "2025-07-14"; "2025-07-12"]%string)
    by (repeat constructor).
  split; [exact H|].
  exact (proj1 (streaks_current_le_longest exampleNow
                  ["2025-07-15"; "2025-07-14"; "2025-07-12"]%string H)).
Defined.

(** ** The properties of the progress queries *)

(** C4. For every user, [GetWeeklyProgress] either returns the error of
    the first of its seven queries that fails, or exactly 7 entries, the
    entry [j] for the day [today - 6 + j]: its date is the text of that
    day, and its minutes are the floor of a 60th of the seconds of the
    user's sessions that are not deleted and were created on that day, 0
    when there are none. *)
Theorem weekly_progress_seven_days (w : World) (userID : string) (n : nat) :
  durationsNonneg w -> validTime (now w) ->
  match GetWeeklyProgress w userID n with
  | (inl e, _) => exists k, (n <= k < n + 7)%nat /\ outcome w k = Some e
  | (inr progress, n') =>
      n' = (n + 7)%nat /\ List.length progress = 7%nat /\
      forall j, (j < 7)%nat ->
        let day := absDay (now w) - 6 + Z.of_nat j in
        let entry := nth j progress (mkWeeklyProgress "" "" 0) in
        let seconds :=
          sumSeconds (filter (createdOnDay userID day) (sessions w)) in
        (forall t, absDay t = day -> Date_ entry = Format t) /\
        Minutes entry = seconds / 60 /\
        (filter (createdOnDay userID day) (sessions w) = [] ->
         Minutes entry = 0)
  end.
Proof.
  intros Hd Hn. rewrite GetWeeklyProgress_run.
  destruct (firstError w n 7) as [[k e]|] eqn:F.
  - apply firstError_some in F. exists k. tauto.
  - split; [reflexivity|]. split; [reflexivity|].
    intros j Hj. cbv zeta.
    assert (E : exists i, 0 <= i <= 6 /\ Z.of_nat j = 6 - i /\
                nth j (map (weeklyEntry w userID) [6; 5; 4; 3; 2; 1; 0])
                    (mkWeeklyProgress "" "" 0)
                = weeklyEntry w userID i).
    { do 7 (destruct j as [|j];
            [eexists; split; [|split; [|reflexivity]]; lia|]). lia. }
    destruct E as (i & Hi & Ej & ->). rewrite Ej.
    replace (absDay (now w) - 6 + (6 - i)) with (absDay (now w) - i) by lia.
    unfold weeklyEntry. cbv zeta. cbn [Date_ Minutes].
    assert (A : absDay (AddDate (now w) 0 0 (- i)) = absDay (now w) - i)
      by (rewrite absDay_AddDate_days by exact Hn; lia).
    assert (S : sumSeconds
                  (filter (onDate userID (Format (AddDate (now w) 0 0 (- i))))
                          (sessions w))
                = sumSeconds
                    (filter (createdOnDay userID (absDay (now w) - i))
                            (sessions w))).
    { apply sumSeconds_filter_ext. intros s.
      rewrite onDate_createdOnDay, A. reflexivity. }
    rewrite S. split; [|split].
    + intros t Ht. apply Format_eq_iff. lia.
    + apply Z.quot_div_nonneg; [|lia].
      apply sumSeconds_filter_nonneg. exact Hd.
    + intros ->. reflexivity.
Qed.

Lemma exampleWorld_durations : durationsNonneg exampleWorld.
Proof.
  intros s Hs. cbn in Hs.
  repeat (destruct Hs as [<-|Hs]; [cbn; lia|]). destruct Hs.
Defined.

Lemma weekly_progress_seven_days_witness :
  durationsNonneg exampleWorld /\ validTime (now exampleWorld) /\
  exists progress,
    GetWeeklyProgress exampleWorld "u" 0%nat = (inr progress, 7%nat) /\
    List.length progress = 7%nat.
Proof.
  assert (V : validTime (now exampleWorld)) by (cbn; unfold validTime; cbn; lia).
  split; [exact exampleWorld_durations|]. split; [exact V|].
  pose proof (weekly_progress_seven_days exampleWorld "u" 0%nat
                exampleWorld_durations V) as H.
  destruct (GetWeeklyProgress exampleWorld "u" 0%nat) as [[e|progress] n'] eqn:E.
  - exfalso. destruct H as (k & _ & Hk). discriminate Hk.
  - destruct H as (-> & L & _). exists progress. split; [reflexivity|exact L].
Defined.

Lemma months_entries w userID year j :
  (j < 12)%nat ->
  nth j (map (yearlyEntry w userID year) (indexed 0 months))
      (mkYearlyProgress "" 0 0)
  = yearlyEntry w userID year (Z.of_nat j, nth j months EmptyString).
Proof.
  intros Hj. do 12 (destruct j as [|j]; [reflexivity|]). lia.
Qed.

(** C5. For every user and year, [GetYearlyProgress] either returns the
    error of the first of its twelve queries that fails, or exactly 12
    entries labelled January to December in this order; the entry of a
    month sums the seconds of the user's sessions that are not deleted and
    were created from the first instant of the month up to and including
    one second before the first instant of the month that follows, gives
    the floor of a 60th of them as minutes and a 3600th of them as hours. *)
Theorem yearly_progress_twelve_months
  (w : World) (userID : string) (year : Z) (n : nat) :
  durationsNonneg w ->
  match GetYearlyProgress w userID year n with
  | (inl e, _) => exists k, (n <= k < n + 12)%nat /\ outcome w k = Some e
  | (inr progress, n') =>
      n' = (n + 12)%nat /\ List.length progress = 12%nat /\
      map Month progress = months /\
      forall j, (j < 12)%nat ->
        let m := Z.of_nat j + 1 in
        let first := Date year m 1 0 0 0 0 in
        let next := Date year (m + 1) 1 0 0 0 0 in
        let last := mkTime (sec next - 1) 0 in
        let seconds :=
          sumSeconds (filter (between userID first last) (sessions w)) in
        let entry := nth j progress (mkYearlyProgress "" 0 0) in
        civil first = (year, m, 1) /\ Clock first = (0, 0, 0) /\
        civil next = (if m =? 12 then (year + 1, 1, 1) else (year, m + 1, 1)) /\
        Clock next = (0, 0, 0) /\
        Month entry = nth j months EmptyString /\
        YMinutes entry = seconds / 60 /\
        Hours_ entry = (inject_Z seconds / inject_Z 3600)%Q
  end.
Proof.
  intros Hd. rewrite GetYearlyProgress_run.
  destruct (firstError w n 12) as [[k e]|] eqn:F.
  - apply firstError_some in F. exists k. tauto.
  - split; [reflexivity|]. split; [reflexivity|]. split; [reflexivity|].
    intros j Hj. cbv zeta. rewrite months_entries by exact Hj.
    unfold yearlyEntry, monthSeconds. cbv zeta. cbn [fst snd Month YMinutes Hours_].
    set (i := Z.of_nat j). assert (Hi : 0 <= i <= 11) by lia.
    fold (monthStart year i).
    replace (Date year (i + 1 + 1) 1 0 0 0 0) with (monthStart year (i + 1))
      by reflexivity.
    rewrite <- monthEnd_time by exact Hi.
    split; [apply civil_Date; try lia; apply validDate_first; lia|].
    split; [rewrite monthStart_boundary by lia; apply Clock_midnight|].
    split.
    { destruct (Z.eqb_spec (i + 1) 12) as [E|N].
      - replace i with 11 by lia. unfold monthStart.
        change (11 + 1 + 1) with 13. rewrite Date_month13.
        apply civil_Date; try lia. apply validDate_first. lia.
      - unfold monthStart. apply civil_Date; try lia.
        apply validDate_first. lia. }
    split; [rewrite monthStart_boundary by lia; apply Clock_midnight|].
    split; [reflexivity|]. split; [|reflexivity].
    apply Z.quot_div_nonneg; [|lia].
    apply sumSeconds_filter_nonneg. exact Hd.
Qed.

Lemma yearly_progress_twelve_months_witness :
  durationsNonneg exampleWorld /\
  exists progress,
    GetYearlyProgress exampleWorld "u" 2025 0%nat = (inr progress, 12%nat) /\
    map Month progress = months.
Proof.
  split; [exact exampleWorld_durations|].
  pose proof (yearly_progress_twelve_months exampleWorld "u" 2025 0%nat
                exampleWorld_durations) as H.
  destruct (GetYearlyProgress exampleWorld "u" 2025 0%nat)
    as [[e|progress] n'] eqn:E.
  - exfalso. destruct H as (k & _ & Hk). discriminate Hk.
  - destruct H as (-> & _ & L & _). exists progress.
    split; [reflexivity|exact L].
Defined.


(** C3, as stated, fails: half a minute in January and half a minute in
    February are a minute of the year and no minute of any month. *)
Lemma monthly_minutes_add_up_counterexample :
  ~ monthly_minutes_add_up halfMinutesWorld "u" 2024.
Proof.
  intros H. specialize (H _ _ eq_refl). vm_compute in H. discriminate H.
Qed.

(** C3, amended. When every creation time is a whole second, the minutes
    of the twelve entries add up to at most the whole minutes of the
    user's sessions that are not deleted and were created within the year,
    and to no less than 11 minutes below them, every month being rounded
    down on its own; they add up to exactly the minutes of the year when
    the seconds of every month are whole minutes. *)
Theorem monthly_minutes_within_year
  (w : World) (userID : string) (year : Z) (n : nat) :
  durationsNonneg w -> wholeSeconds w ->
  match GetYearlyProgress w userID year n with
  | (inl e, _) => exists k, (n <= k < n + 12)%nat /\ outcome w k = Some e
  | (inr progress, _) =>
      let seconds :=
        sumSeconds (filter (createdInYear userID year) (sessions w)) in
      let minutes := sumZ (map YMinutes progress) in
      minutes <= seconds / 60 <= minutes + 11 /\
      ((forall i, 0 <= i <= 11 -> monthSeconds w userID year i mod 60 = 0) ->
       minutes = seconds / 60)
  end.
Proof.
  intros Hd Hw. rewrite GetYearlyProgress_run.
  destruct (firstError w n 12) as [[k e]|] eqn:F.
  - apply firstError_some in F. exists k. tauto.
  - cbv zeta.
    rewrite <- (months_partition userID year (sessions w) Hw).
    change (map YMinutes (map (yearlyEntry w userID year) (indexed 0 months)))
      with (map (fun m => Z.quot m 60)
                (map (monthSeconds w userID year) (zseq 0 12))).
    change (map (fun i => sumSeconds
                   (filter (between userID (monthStart year i) (monthEnd year i))
                           (sessions w))) (zseq 0 12))
      with (map (monthSeconds w userID year) (zseq 0 12)).
    set (ms := map (monthSeconds w userID year) (zseq 0 12)).
    assert (P : Forall (fun m => 0 <= m) ms).
    { subst ms. apply Forall_forall. intros m Hm. apply in_map_iff in Hm.
      destruct Hm as (i & <- & _). apply sumSeconds_filter_nonneg. exact Hd. }
    pose proof (floor_minutes_sum ms P) as B. cbv zeta in B.
    replace (Z.of_nat (List.length ms)) with 12 in B by reflexivity.
    split; [div_lia|].
    intros D.
    assert (P' : Forall (fun m => 0 <= m /\ m mod 60 = 0) ms).
    { subst ms. apply Forall_forall. intros m Hm. apply in_map_iff in Hm.
      destruct Hm as (i & <- & Hi). apply zseq_In in Hi. split.
      - apply sumSeconds_filter_nonneg. exact Hd.
      - apply D. lia. }
    pose proof (floor_minutes_exact ms P'). div_lia.
Qed.

Lemma exampleWorld_wholeSeconds : wholeSeconds exampleWorld.
Proof.
  intros s Hs. cbn in Hs.
  repeat (destruct Hs as [<-|Hs]; [reflexivity|]). destruct Hs.
Defined.

Lemma monthly_minutes_within_year_witness :
  durationsNonneg exampleWorld /\ wholeSeconds exampleWorld /\
  exists progress n',
    GetYearlyProgress exampleWorld "u" 2025 0%nat = (inr progress, n') /\
    sumZ (map YMinutes progress)
    <= sumSeconds (filter (createdInYear "u" 2025) (sessions exampleWorld)) / 60.
Proof.
  split; [exact exampleWorld_durations|].
  split; [exact exampleWorld_wholeSeconds|].
  pose proof (monthly_minutes_within_year exampleWorld "u" 2025 0%nat
                exampleWorld_durations exampleWorld_wholeSeconds) as H.
  destruct (GetYearlyProgress exampleWorld "u" 2025 0%nat)
    as [[e|progress] n'] eqn:E.
  - exfalso. destruct H as (k & _ & Hk). discriminate Hk.
  - destruct H as [[B _] _]. exists progress, n'.
    split; [reflexivity|exact B].
Defined.

(** ** The properties of the recent sessions and of the dashboard *)

Lemma GetRecentSessions_run w userID limit n :
  GetRecentSessions w userID limit n =
  match outcome w n with
  | Some e => (inl e, S n)
  | None =>
      (inr (firstn (Z.to_nat (sanitizeLimit limit))
                   (orderDesc (ties w n) (filter (live userID) (sessions w)))),
       S n)
  end.
Proof. reflexivity. Qed.

Lemma sanitizeLimit_range limit : 1 <= sanitizeLimit limit <= 100.
Proof.
  unfold sanitizeLimit.
  destruct (Z.leb_spec limit 0), (Z.ltb_spec 100 limit); cbn; lia.
Qed.

(** C6. For every limit, [GetRecentSessions] asks the store with 5 in
    place of a limit that is [<= 0] or [> 100] and with the limit itself
    otherwise; when the query succeeds it returns sessions of the user that
    are not deleted, newest first, as many as the limit allows and the user
    has, none of those left out being newer than one returned; with a limit
    of 10 and three sessions it returns the three. *)
Theorem recent_sessions_newest_first
  (w : World) (userID : string) (limit : Z) (n : nat) :
  let asked := if (limit <=? 0) || (100 <? limit) then 5 else limit in
  let mine := filter (live userID) (sessions w) in
  GetRecentSessions w userID limit n = GetRecentSessions w userID asked n /\
  match GetRecentSessions w userID limit n with
  | (inl e, n') => outcome w n = Some e /\ n' = S n
  | (inr result, n') =>
      outcome w n = None /\ n' = S n /\
      List.length result = Nat.min (Z.to_nat asked) (List.length mine) /\
      descending result /\
      (forall s, In s result ->
         In s (sessions w) /\ UserID s = userID /\ DeletedAt s = None) /\
      (exists older,
         Permutation (result ++ older) mine /\
         forall a b, In a result -> In b older -> newerFirst a b) /\
      (limit = 10 -> List.length mine = 3%nat -> List.length result = 3%nat)
  end.
Proof.
  cbv zeta. fold (sanitizeLimit limit). split.
  - rewrite !GetRecentSessions_run.
    replace (sanitizeLimit (sanitizeLimit limit)) with (sanitizeLimit limit);
      [reflexivity|].
    pose proof (sanitizeLimit_range limit) as R. unfold sanitizeLimit at 2.
    destruct (Z.leb_spec (sanitizeLimit limit) 0),
      (Z.ltb_spec 100 (sanitizeLimit limit)); cbn; lia.
  - rewrite GetRecentSessions_run. destruct (outcome w n) as [e|].
    + split; reflexivity.
    + split; [reflexivity|]. split; [reflexivity|].
      destruct (firstn_orderDesc (ties w n) (Z.to_nat (sanitizeLimit limit))
                  (filter (live userID) (sessions w))) as (L & D & O).
      split; [exact L|]. split; [exact D|]. split; [|split; [exact O|]].
      * intros s Hs. destruct O as (older & P & _).
        assert (Hm : In s (filter (live userID) (sessions w))).
        { apply (Permutation_in _ P). apply in_or_app. left. exact Hs. }
        apply filter_In in Hm. destruct Hm as [Hm Hl]. split; [exact Hm|].
        unfold live in Hl. apply andb_true_iff in Hl. destruct Hl as [H1 H2].
        apply String.eqb_eq in H1. split; [exact H1|].
        destruct (DeletedAt s); [discriminate|reflexivity].
      * intros -> H3. rewrite L, H3. reflexivity.
Qed.

(** C10. For every limit, the limit [GetRecentSessions] asks the store
    with lies in [1, 100], and it never returns more than 100 sessions. *)
Theorem recent_sessions_at_most_100
  (w : World) (userID : string) (limit : Z) (n : nat) :
  1 <= sanitizeLimit limit <= 100 /\
  GetRecentSessions w userID limit n
  = selectRecent w userID (sanitizeLimit limit) n /\
  match GetRecentSessions w userID limit n with
  | (inl _, _) => True
  | (inr result, _) => (List.length result <= 100)%nat
  end.
Proof.
  pose proof (sanitizeLimit_range limit) as R.
  split; [exact R|]. split; [reflexivity|].
  rewrite GetRecentSessions_run. destruct (outcome w n); [exact I|].
  rewrite length_firstn. lia.
Qed.

Lemma CalculateStreaks_run w userID n :
  CalculateStreaks w userID n =
  match firstError w n 1 with
  | Some (k, e) => (inl e, S k)
  | None =>
      let sessionDates := sessionDateTexts w userID in
      (inr (mkStreakInfo (calculateCurrentStreak (now w) sessionDates)
                         (calculateLongestStreak sessionDates)), (n + 1)%nat)
  end.
Proof.
  unfold CalculateStreaks, getSessionDates, selectDates, bind, query, ret.
  cbn [firstError]. destruct (outcome w n); [reflexivity|].
  cbv zeta. f_equal. lia.
Qed.

Lemma GetRecentSessions_first w userID limit n :
  GetRecentSessions w userID limit n =
  match firstError w n 1 with
  | Some (k, e) => (inl e, S k)
  | None =>
      (inr (firstn (Z.to_nat (sanitizeLimit limit))
                   (orderDesc (ties w n) (filter (live userID) (sessions w)))),
       (n + 1)%nat)
  end.
Proof.
  rewrite GetRecentSessions_run. cbn [firstError].
  destruct (outcome w n); [reflexivity|]. f_equal. lia.
Qed.

(** C7. [GetDashboardData] computes the yearly progress for the current
    calendar year in place of a year [<= 0]; it issues 21 queries, and when
    one of them fails it returns the error of the first that fails and no
    aggregate: the error of the first of its four operations that fails;
    when none fails it returns what the four operations return, each run
    after the one before it. *)
Theorem dashboard_fails_fast
  (w : World) (user : User) (year sessionLimit : Z) (n : nat) :
  let uid := User_ID user in
  let year' := if year <=? 0 then Year (now w) else year in
  GetDashboardData w user year sessionLimit n
  = GetDashboardData w user year' sessionLimit n /\
  match firstError w n 21 with
  | Some (k, e) =>
      GetDashboardData w user year sessionLimit n = (inl e, S k) /\
      (CalculateStreaks w uid n = (inl e, S k) \/
       (exists streaks,
          CalculateStreaks w uid n = (inr streaks, (n + 1)%nat) /\
          (GetWeeklyProgress w uid (n + 1)%nat = (inl e, S k) \/
           (exists weekly,
              GetWeeklyProgress w uid (n + 1)%nat = (inr weekly, (n + 8)%nat) /\
              (GetYearlyProgress w uid year' (n + 8)%nat = (inl e, S k) \/
               (exists yearly,
                  GetYearlyProgress w uid year' (n + 8)%nat
                  = (inr yearly, (n + 20)%nat) /\
                  GetRecentSessions w uid sessionLimit (n + 20)%nat
                  = (inl e, S k)))))))
  | None =>
      exists streaks weekly yearly recent,
        CalculateStreaks w uid n = (inr streaks, (n + 1)%nat) /\
        GetWeeklyProgress w uid (n + 1)%nat = (inr weekly, (n + 8)%nat) /\
        GetYearlyProgress w uid year' (n + 8)%nat = (inr yearly, (n + 20)%nat) /\
        GetRecentSessions w uid sessionLimit (n + 20)%nat
        = (inr recent, (n + 21)%nat) /\
        GetDashboardData w user year sessionLimit n
        = (inr (mkDashboardData user streaks weekly yearly recent),
           (n + 21)%nat)
  end.
Proof.
  cbv zeta. split.
  - unfold GetDashboardData. destruct (Z.leb_spec year 0) as [L|L].
    + destruct (Z.leb_spec (Year (now w)) 0); reflexivity.
    + rewrite (proj2 (Z.leb_gt _ _)) by lia. reflexivity.
  - set (year' := if year <=? 0 then Year (now w) else year).
    change 21%nat with (1 + (7 + (12 + 1)))%nat.
    rewrite !firstError_app.
    unfold GetDashboardData, bind. fold year'.
    rewrite CalculateStreaks_run.
    destruct (firstError w n 1) as [[k e]|] eqn:F1.
    { split; [reflexivity|]. left. reflexivity. }
    cbv beta iota zeta. rewrite GetWeeklyProgress_run.
    destruct (firstError w (n + 1) 7) as [[k e]|] eqn:F2.
    { split; [reflexivity|]. right. eexists. split; [reflexivity|].
      left. reflexivity. }
    cbv beta iota zeta. replace (n + 1 + 7)%nat with (n + 8)%nat by lia.
    rewrite GetYearlyProgress_run.
    destruct (firstError w (n + 8) 12) as [[k e]|] eqn:F3.
    { split; [reflexivity|]. right. eexists. split; [reflexivity|].
      right. eexists. split; [reflexivity|]. left. reflexivity. }
    cbv beta iota zeta. replace (n + 8 + 12)%nat with (n + 20)%nat by lia.
    rewrite GetRecentSessions_first.
    destruct (firstError w (n + 20) 1) as [[k e]|] eqn:F4.
    { split; [reflexivity|]. right. eexists. split; [reflexivity|].
      right. eexists. split; [reflexivity|]. right. eexists.
      split; reflexivity. }
    cbv beta iota zeta. replace (n + 20 + 1)%nat with (n + 21)%nat by lia.
    do 4 eexists. repeat (split; [reflexivity|]). reflexivity.
Qed.

(** ** Further properties of the streak computations *)

(** X1. Whatever the texts of the list, the longest streak of a list that
    is not empty is at least 1, and neither streak exceeds the number of
    dates. *)
Theorem streaks_within_length (now : Time) (sessionDates : list string) :
  (sessionDates <> [] -> 1 <= calculateLongestStreak sessionDates) /\
  calculateCurrentStreak now sessionDates
  <= calculateLongestStreak sessionDates
  <= Z.of_nat (List.length sessionDates).
Proof.
  split; [|split].
  - intros NE. rewrite calculateLongestStreak_longestRun.
    destruct (rev sessionDates) as [|a r] eqn:E.
    + apply (f_equal (@rev string)) in E. rewrite rev_involutive in E.
      contradiction.
    + cbn [map].
      change (longestRun (dayCount a :: map dayCount r))
        with (Z.max (lead (dayCount a :: map dayCount r))
                    (longestRun (map dayCount r))).
      pose proof (lead_pos (dayCount a) (map dayCount r)). lia.
  - apply current_le_longest.
  - rewrite calculateLongestStreak_longestRun.
    destruct (longestRun_attained (map dayCount (rev sessionDates)))
      as (pre & run & post & E & _ & L).
    apply (f_equal (@List.length Z)) in E.
    rewrite length_map, length_rev, !length_app in E. lia.
Qed.

(** X2. The longest streak drops the errors of [time.Parse]: a text that
    is no date counts as the first of January of the year 1, so that the
    day after it extends a streak. *)
Theorem longest_streak_reads_errors_as_year_one (sessionDates : list string) :
  calculateLongestStreak sessionDates
  = calculateLongestStreak (map orZeroDate sessionDates) /\
  (forall s, wellFormed s = false ->
     calculateLongestStreak ["0001-01-02"%string; s] = 2).
Proof.
  assert (D : forall s, dayCount (orZeroDate s) = dayCount s).
  { intros s. unfold orZeroDate, wellFormed, Parse.
    destruct (parseDate s) as [[[y m] d]|] eqn:P; cbn [snd]; [reflexivity|].
    unfold dayCount at 2. rewrite P. reflexivity. }
  split.
  - rewrite !calculateLongestStreak_longestRun, <- map_rev, map_map.
    f_equal. apply map_ext. intros s. symmetry. apply D.
  - intros s Hs. rewrite calculateLongestStreak_longestRun.
    cbn [rev app map].
    assert (E : dayCount s = 0).
    { unfold wellFormed, Parse, dayCount in *.
      destruct (parseDate s) as [[[y m] d]|]; [discriminate|reflexivity]. }
    rewrite E. reflexivity.
Qed.

Lemma validTime_AddDate t k : validTime t -> validTime (AddDate t 0 0 k).
Proof. intros H. rewrite AddDate_days by exact H. exact H. Qed.

Lemma Format_AddDate_inj t u j k :
  validTime t -> validTime u ->
  (Format (AddDate t 0 0 j) = Format (AddDate u 0 0 k)
   <-> absDay t + j = absDay u + k).
Proof.
  intros Ht Hu. rewrite Format_eq_iff, !absDay_AddDate_days by assumption.
  reflexivity.
Qed.

(** X3. The clock enters the current streak only by its day: two times of
    the same day give the same current streak. *)
Theorem current_streak_same_within_day
  (now now' : Time) (sessionDates : list string) :
  validTime now -> validTime now' -> absDay now = absDay now' ->
  calculateCurrentStreak now sessionDates
  = calculateCurrentStreak now' sessionDates.
Proof.
  intros V V' E. rewrite !calculateCurrentStreak_cases.
  destruct sessionDates as [|first rest]; [reflexivity|].
  replace (Format now') with (Format now) by (apply Format_eq_iff; exact E).
  replace (Format (AddDate now' 0 0 (-1))) with (Format (AddDate now 0 0 (-1)))
    by (apply Format_AddDate_inj; assumption || lia).
  reflexivity.
Qed.

Lemma current_streak_same_within_day_witness :
  calculateCurrentStreak (Date 2025 7 15 0 0 1 0) exampleRun
  = calculateCurrentStreak (Date 2025 7 15 23 59 59 0) exampleRun.
Proof.
  apply current_streak_same_within_day.
  - unfold validTime. cbn. lia.
  - unfold validTime. cbn. lia.
  - reflexivity.
Defined.

(** X4. A streak whose most recent date is today is alive and keeps its
    length through the next day, and is 0 from the day after on. *)
Theorem current_streak_expires
  (now : Time) (first : string) (rest : list string) :
  validTime now -> first = Format now ->
  1 <= calculateCurrentStreak now (first :: rest) /\
  calculateCurrentStreak (AddDate now 0 0 1) (first :: rest)
  = calculateCurrentStreak now (first :: rest) /\
  (forall k, 2 <= k ->
     calculateCurrentStreak (AddDate now 0 0 k) (first :: rest) = 0).
Proof.
  intros V ->. rewrite !calculateCurrentStreak_cases.
  rewrite String.eqb_refl. cbn [orb]. split; [|split].
  - cbn [map countDays]. rewrite Z.eqb_refl. lia.
  - assert (E : Format (AddDate (AddDate now 0 0 1) 0 0 (-1)) = Format now).
    { apply Format_eq_iff.
      rewrite !absDay_AddDate_days by (try apply validTime_AddDate; exact V).
      lia. }
    rewrite E, String.eqb_refl, orb_true_r. reflexivity.
  - intros k Hk. rewrite calculateCurrentStreak_cases.
    assert (N1 : Format now <> Format (AddDate now 0 0 k)).
    { intros H. apply Format_eq_iff in H.
      rewrite absDay_AddDate_days in H by exact V. lia. }
    assert (N2 : Format now <> Format (AddDate (AddDate now 0 0 k) 0 0 (-1))).
    { intros H. apply Format_eq_iff in H.
      rewrite !absDay_AddDate_days in H
        by (try apply validTime_AddDate; exact V). lia. }
    apply String.eqb_neq in N1, N2. rewrite N1, N2. reflexivity.
Qed.

Lemma current_streak_expires_witness :
  calculateCurrentStreak (AddDate exampleNow 0 0 1)
    ["2025-07-15"; "2025-07-14"]%string
  = calculateCurrentStreak exampleNow ["2025-07-15"; "2025-07-14"]%string.
Proof.
  assert (V : validTime exampleNow) by (unfold validTime; cbn; lia).
  exact (proj1 (proj2 (current_streak_expires exampleNow "2025-07-15"
                         ["2025-07-14"%string] V eq_refl))).
Defined.

(** ** Further properties of the progress queries *)

Lemma FormatMon_day t :
  FormatMon t = nth (Z.to_nat ((absDay t + 1) mod 7)) weekdays EmptyString.
Proof. reflexivity. Qed.

Lemma week_labels a :
  let labels :=
    map (fun i => nth (Z.to_nat ((a - i + 1) mod 7)) weekdays EmptyString)
        [6; 5; 4; 3; 2; 1; 0] in
  NoDup labels /\ incl labels weekdays.
Proof.
  cbv zeta. cbn [map].
  assert (R : 0 <= (a + 1) mod 7 < 7) by (apply Z.mod_pos_bound; lia).
  assert (C : exists c : nat, (a + 1) mod 7 = Z.of_nat c /\ (c < 7)%nat)
    by (exists (Z.to_nat ((a + 1) mod 7)); lia).
  destruct C as (c & Hc & Hlt).
  assert (S : forall i, 0 <= i <= 6 ->
            (a - i + 1) mod 7 = (Z.of_nat c - i) mod 7).
  { intros i Hi. div_lia. }
  rewrite !S by lia. clear S Hc R.
  do 7 (destruct c as [|c];
        [split;
         [repeat constructor; cbn; intuition discriminate
         |intros x Hx; cbn in Hx; cbn; intuition auto]|]).
  lia.
Qed.

(** X5. The seven entries of the weekly progress carry seven different
    days of the week, the last of them the day of the week of today. *)
Theorem weekly_progress_days_of_week (w : World) (userID : string) (n : nat) :
  validTime (now w) ->
  match GetWeeklyProgress w userID n with
  | (inl _, _) => True
  | (inr progress, _) =>
      NoDup (map Day progress) /\ incl (map Day progress) weekdays /\
      Day (nth 6 progress (mkWeeklyProgress "" "" 0)) = FormatMon (now w)
  end.
Proof.
  intros V. rewrite GetWeeklyProgress_run.
  destruct (firstError w n 7) as [[k e]|]; [exact I|].
  assert (E : map Day (map (weeklyEntry w userID) [6; 5; 4; 3; 2; 1; 0])
              = map (fun i => nth (Z.to_nat ((absDay (now w) - i + 1) mod 7))
                                  weekdays EmptyString)
                    [6; 5; 4; 3; 2; 1; 0]).
  { rewrite map_map. apply map_ext. intros i. unfold weeklyEntry.
    cbv zeta. cbn [Day]. rewrite FormatMon_day.
    rewrite absDay_AddDate_days by exact V.
    replace (absDay (now w) + - i) with (absDay (now w) - i) by lia.
    reflexivity. }
  rewrite E. destruct (week_labels (absDay (now w))) as [N1 N2].
  split; [exact N1|]. split; [exact N2|].
  cbn [map nth]. unfold weeklyEntry. cbv zeta. cbn [Day].
  rewrite !FormatMon_day, absDay_AddDate_days by exact V.
  replace (absDay (now w) + - 0) with (absDay (now w)) by lia. reflexivity.
Qed.

Lemma weekly_progress_days_of_week_witness :
  exists progress n',
    GetWeeklyProgress exampleWorld "u" 0%nat = (inr progress, n') /\
    NoDup (map Day progress).
Proof.
  assert (V : validTime (now exampleWorld)) by (unfold validTime; cbn; lia).
  pose proof (weekly_progress_days_of_week exampleWorld "u" 0%nat V) as H.
  destruct (GetWeeklyProgress exampleWorld "u" 0%nat)
    as [[e|progress] n'] eqn:E.
  - discriminate E.
  - exists progress, n'. split; [reflexivity|exact (proj1 H)].
Defined.

(** X6. [GetWeeklyProgress] and [GetYearlyProgress] return an error
    exactly when one of their 7 or 12 queries fails; the error is that of
    the first query that fails, no query is issued after it, and what the
    queries before it answered is dropped. *)
Theorem progress_stops_at_first_error
  (w : World) (userID : string) (year : Z) (n : nat) (e : error) (n' : nat) :
  (GetWeeklyProgress w userID n = (inl e, n')
   <-> exists k, firstError w n 7 = Some (k, e) /\ n' = S k) /\
  (GetYearlyProgress w userID year n = (inl e, n')
   <-> exists k, firstError w n 12 = Some (k, e) /\ n' = S k).
Proof.
  rewrite GetWeeklyProgress_run, GetYearlyProgress_run. split.
  - destruct (firstError w n 7) as [[k e']|].
    + split.
      * intros [= <- <-]. exists k. auto.
      * intros (k' & [= <- <-] & ->). reflexivity.
    + split; [discriminate|]. intros (k & H & _). discriminate H.
  - destruct (firstError w n 12) as [[k e']|].
    + split.
      * intros [= <- <-]. exists k. auto.
      * intros (k' & [= <- <-] & ->). reflexivity.
    + split; [discriminate|]. intros (k & H & _). discriminate H.
Qed.

Lemma boundary_mono year i j :
  0 <= i <= j -> j <= 12 -> boundary year i <= boundary year j.
Proof.
  intros Hi Hj.
  pose proof (chain_mono (boundary year) (Z.to_nat (j - i)) i) as H.
  replace (i + Z.of_nat (Z.to_nat (j - i))) with j in H by lia.
  apply H. intros k Hk. pose proof (boundary_increasing year k). lia.
Qed.

Lemma between_bounds userID year i s :
  0 <= i <= 11 -> validTime (CreatedAt s) ->
  between userID (monthStart year i) (monthEnd year i) s = true ->
  live userID s = true /\
  boundary year i <= sec (CreatedAt s) < boundary year (i + 1) /\
  (sec (CreatedAt s) = boundary year (i + 1) - 1 -> nsec (CreatedAt s) = 0).
Proof.
  intros Hi V. unfold between. rewrite monthEnd_time by exact Hi.
  rewrite !monthStart_boundary by lia.
  rewrite !andb_true_iff, !leTime_spec. cbn [sec nsec].
  unfold validTime in V. intros [[L A] B]. split; [exact L|]. lia.
Qed.

(** X7. No session is counted in two months of the yearly progress. *)
Theorem no_session_in_two_months
  (userID : string) (year i j : Z) (s : Session) :
  validTime (CreatedAt s) -> 0 <= i < j -> j <= 11 ->
  between userID (monthStart year i) (monthEnd year i) s = true ->
  between userID (monthStart year j) (monthEnd year j) s = false.
Proof.
  intros V Hi Hj B. apply between_bounds in B; [|lia|exact V].
  destruct B as (_ & B & _).
  destruct (between userID (monthStart year j) (monthEnd year j) s) eqn:B';
    [|reflexivity].
  apply between_bounds in B'; [|lia|exact V]. destruct B' as (_ & B' & _).
  pose proof (boundary_mono year (i + 1) j ltac:(lia) ltac:(lia)). lia.
Qed.

Lemma no_session_in_two_months_witness :
  between "u" (monthStart 2025 7) (monthEnd 2025 7)
    (exampleSession 1 "u" 600 (Date 2025 7 1 8 0 0 0) None) = false.
Proof.
  apply (no_session_in_two_months "u" 2025 6 7).
  - unfold validTime. cbn. lia.
  - lia.
  - lia.
  - reflexivity.
Defined.

(** X8. A session created within the last second of a month, but not at
    the start of that second, is counted in no month of the yearly
    progress, though it was created within the year. *)
Theorem last_second_of_month_left_out
  (userID : string) (year i : Z) (s : Session) :
  0 <= i <= 11 ->
  sec (CreatedAt s) = sec (monthStart year (i + 1)) - 1 ->
  0 < nsec (CreatedAt s) < 1000000000 ->
  (forall j, 0 <= j <= 11 ->
     between userID (monthStart year j) (monthEnd year j) s = false) /\
  createdInYear userID year s = live userID s.
Proof.
  intros Hi Hs Hn. rewrite monthStart_boundary in Hs by lia.
  cbn [sec] in Hs. split.
  - intros j Hj.
    destruct (between userID (monthStart year j) (monthEnd year j) s) eqn:B;
      [|reflexivity].
    apply between_bounds in B; [|lia|unfold validTime; lia].
    destruct B as (_ & B1 & B2). exfalso.
    destruct (Z.lt_trichotomy i j) as [L|[L|L]].
    + pose proof (boundary_mono year (i + 1) j ltac:(lia) ltac:(lia)). lia.
    + subst j. specialize (B2 Hs). lia.
    + pose proof (boundary_mono year (j + 1) i ltac:(lia) ltac:(lia)).
      pose proof (boundary_increasing year i Hi). lia.
  - rewrite createdInYear_within. unfold within.
    pose proof (boundary_mono year 0 i ltac:(lia) ltac:(lia)).
    pose proof (boundary_increasing year i Hi).
    pose proof (boundary_mono year (i + 1) 12 ltac:(lia) ltac:(lia)).
    rewrite (proj2 (Z.leb_le _ _)), (proj2 (Z.ltb_lt _ _)) by lia.
    cbn. apply andb_true_r.
Qed.

Lemma last_second_of_month_left_out_witness :
  createdInYear "u" 2025
    (exampleSession 9 "u" 60 (mkTime (sec (monthStart 2025 1) - 1) 500000000)
       None) = true /\
  between "u" (monthStart 2025 0) (monthEnd 2025 0)
    (exampleSession 9 "u" 60 (mkTime (sec (monthStart 2025 1) - 1) 500000000)
       None) = false.
Proof.
  destruct (last_second_of_month_left_out "u" 2025 0
              (exampleSession 9 "u" 60
                 (mkTime (sec (monthStart 2025 1) - 1) 500000000) None))
    as [H1 H2].
  - lia.
  - reflexivity.
  - cbn. lia.
  - split; [rewrite H2; reflexivity|apply H1; lia].
Defined.

(** X9. [hasSessionOnDate] returns the error of its query with [false],
    and otherwise [true] exactly when the user has a session that is not
    deleted and was created on the calendar day of [date], whatever the
    time of day of [date]. *)
Theorem hasSessionOnDate_day
  (w : World) (userID : string) (date : Time) (n : nat) :
  match hasSessionOnDate w userID date n with
  | ((found, Some e), n') => outcome w n = Some e /\ found = false /\ n' = S n
  | ((found, None), n') =>
      outcome w n = None /\ n' = S n /\
      (found = true <-> hasDay w userID (absDay date))
  end.
Proof.
  unfold hasSessionOnDate, selectCount. cbv zeta.
  destruct (outcome w n) as [e|]; [auto|].
  split; [reflexivity|]. split; [reflexivity|].
  rewrite Z.ltb_lt. unfold hasDay. split.
  - intros H.
    destruct (filter (onDate userID (Format date)) (sessions w))
      as [|s l] eqn:F; [cbn in H; lia|].
    assert (Hs : In s (filter (onDate userID (Format date)) (sessions w)))
      by (rewrite F; left; reflexivity).
    apply filter_In in Hs. destruct Hs as [Hs Ho].
    rewrite onDate_createdOnDay in Ho. unfold createdOnDay in Ho.
    apply andb_true_iff in Ho. destruct Ho as [Hl Hd].
    apply Z.eqb_eq in Hd. exists s. auto.
  - intros (s & Hs & Hl & Hd).
    assert (Hf : In s (filter (onDate userID (Format date)) (sessions w))).
    { apply filter_In. split; [exact Hs|].
      rewrite onDate_createdOnDay. unfold createdOnDay.
      rewrite Hl, Hd, Z.eqb_refl. reflexivity. }
    destruct (filter (onDate userID (Format date)) (sessions w));
      [destruct Hf|cbn [List.length]; lia].
Qed.

(** ** Further properties of the recent sessions and of the handler *)
Import Handlers.

Lemma sanitizeLimit_id limit : 1 <= limit <= 100 -> sanitizeLimit limit = limit.
Proof.
  intros H. unfold sanitizeLimit.
  destruct (Z.leb_spec limit 0), (Z.ltb_spec 100 limit); cbn; lia.
Qed.

Lemma NoDup_map_filter {A B} (f : A -> B) (p : A -> bool) l :
  NoDup (map f l) -> NoDup (map f (filter p l)).
Proof.
  induction l as [|x l IH]; cbn [map filter]; intros H; [constructor|].
  apply NoDup_cons_iff in H. destruct H as [H1 H2].
  destruct (p x); [|apply IH; exact H2].
  cbn [map]. constructor; [|apply IH; exact H2].
  intros Hin. apply H1. apply in_map_iff in Hin.
  destruct Hin as (y & E & Hy). apply filter_In in Hy.
  apply in_map_iff. exists y. tauto.
Qed.

(** X10. When no two sessions of the user that are not deleted were
    created at the same time, then for two limits within 1..100 what one
    call of [GetRecentSessions] returns for the smaller is the start of
    what another call returns for the larger.  When the sessions of the
    store have different ids, so have the sessions returned. *)
Theorem recent_sessions_prefix
  (w : World) (userID : string) (a b : Z) (na nb n1 n2 : nat)
  (ra rb : list Session) :
  1 <= a <= b -> b <= 100 ->
  GetRecentSessions w userID a na = (inr ra, n1) ->
  GetRecentSessions w userID b nb = (inr rb, n2) ->
  (NoDup (map CreatedAt (filter (live userID) (sessions w))) ->
   ra = firstn (Z.to_nat a) rb) /\
  (NoDup (map ID (sessions w)) -> NoDup (map ID rb)).
Proof.
  intros Ha Hb. rewrite !GetRecentSessions_run.
  rewrite !sanitizeLimit_id by lia.
  destruct (outcome w na); [discriminate|].
  destruct (outcome w nb); [discriminate|].
  intros [= <- _] [= <- _]. split.
  - intros T. rewrite firstn_firstn.
    rewrite (orderDesc_no_tie (ties w nb) (ties w na) _ T). f_equal. lia.
  - intros N.
    destruct (firstn_orderDesc (ties w nb) (Z.to_nat b)
                (filter (live userID) (sessions w)))
      as (_ & _ & older & P & _).
    apply (NoDup_map_filter ID (live userID)) in N.
    apply (Permutation_map ID) in P. rewrite map_app in P.
    apply Permutation_sym in P.
    apply (Permutation_NoDup P) in N.
    apply NoDup_app_remove_r in N. exact N.
Qed.

Lemma recent_sessions_prefix_witness :
  exists ra rb,
    GetRecentSessions exampleWorld "u" 2 0%nat = (inr ra, 1%nat) /\
    GetRecentSessions exampleWorld "u" 3 7%nat = (inr rb, 8%nat) /\
    ra = firstn 2 rb.
Proof.
  eexists. eexists. split; [reflexivity|]. split; [reflexivity|].
  apply (proj1 (recent_sessions_prefix exampleWorld "u" 2 3 0%nat 7%nat
                  1%nat 8%nat _ _ ltac:(lia) ltac:(lia) eq_refl eq_refl)).
  cbn. repeat constructor; cbn; intuition discriminate.
Defined.

(** What the four operations of [GetDashboardData] add up to: the error
    of the first of the 21 queries that fails, or the aggregate. *)
Lemma GetDashboardData_run w user year sessionLimit n :
  GetDashboardData w user year sessionLimit n =
  match firstError w n 21 with
  | Some (k, e) => (inl e, S k)
  | None =>
      let uid := User_ID user in
      let year' := if year <=? 0 then Year (now w) else year in
      let sessionDates := sessionDateTexts w uid in
      (inr (mkDashboardData user
              (mkStreakInfo (calculateCurrentStreak (now w) sessionDates)
                            (calculateLongestStreak sessionDates))
              (map (weeklyEntry w uid) [6; 5; 4; 3; 2; 1; 0])
              (map (yearlyEntry w uid year') (indexed 0 months))
              (firstn (Z.to_nat (sanitizeLimit sessionLimit))
                      (orderDesc (ties w (n + 20)%nat)
                                 (filter (live uid) (sessions w))))),
       (n + 21)%nat)
  end.
Proof.
  change 21%nat with (1 + (7 + (12 + 1)))%nat.
  rewrite !firstError_app.
  unfold GetDashboardData, bind.
  rewrite CalculateStreaks_run.
  destruct (firstError w n 1) as [[k e]|]; [reflexivity|].
  cbv beta iota zeta. rewrite GetWeeklyProgress_run.
  destruct (firstError w (n + 1) 7) as [[k e]|]; [reflexivity|].
  cbv beta iota zeta. replace (n + 1 + 7)%nat with (n + 8)%nat by lia.
  rewrite GetYearlyProgress_run.
  destruct (firstError w (n + 8) 12) as [[k e]|]; [reflexivity|].
  cbv beta iota zeta. replace (n + 8 + 12)%nat with (n + 20)%nat by lia.
  rewrite GetRecentSessions_first.
  destruct (firstError w (n + 20) 1) as [[k e]|]; [reflexivity|].
  cbv beta iota zeta. replace (n + 20 + 1)%nat with (n + 21)%nat by lia.
  reflexivity.
Qed.

Lemma parseSessionLimit_range q : 1 <= parseSessionLimit q <= 100.
Proof.
  unfold parseSessionLimit. destruct (String.eqb q EmptyString); [lia|].
  destruct (Atoi q) as [limit|]; [|lia].
  destruct (Z.leb_spec limit 0), (Z.ltb_spec 100 limit); cbn; lia.
Qed.

Lemma parseYear_range q : parseYear q = 0 \/ 1900 <= parseYear q <= 3000.
Proof.
  unfold parseYear. destruct (String.eqb q EmptyString); [auto|].
  destruct (Atoi q) as [year|]; [|auto].
  destruct (Z.ltb_spec year 1900), (Z.ltb_spec 3000 year); cbn;
    solve [left; reflexivity | right; lia].
Qed.

(** X11. The limit the handler reads from the request is the number of
    the parameter when [strconv.Atoi] reads one within 1..100, and 5 when
    the parameter is missing, no number or a number out of this range; it
    always lies within 1..100, and the service leaves it as it is.  The
    year the handler reads is the number of the parameter when it lies
    within 1900..3000, and 0 when the parameter is missing, no number or a
    number out of this range. *)
Theorem handler_parameters_sane (sessionsStr yearStr : string) :
  1 <= parseSessionLimit sessionsStr <= 100 /\
  sanitizeLimit (parseSessionLimit sessionsStr) = parseSessionLimit sessionsStr /\
  parseSessionLimit sessionsStr
  = match Atoi sessionsStr with
    | Some v => if (1 <=? v) && (v <=? 100) then v else 5
    | None => 5
    end /\
  parseYear yearStr
  = match Atoi yearStr with
    | Some v => if (1900 <=? v) && (v <=? 3000) then v else 0
    | None => 0
    end /\
  parseSessionLimit EmptyString = 5 /\ parseYear EmptyString = 0.
Proof.
  pose proof (parseSessionLimit_range sessionsStr) as R.
  split; [exact R|]. split; [apply sanitizeLimit_id; exact R|].
  split; [|split; [|split; reflexivity]].
  - unfold parseSessionLimit.
    destruct (String.eqb_spec sessionsStr EmptyString) as [->|_];
      [reflexivity|].
    destruct (Atoi sessionsStr) as [v|]; [|reflexivity].
    destruct (Z.leb_spec v 0), (Z.ltb_spec 100 v), (Z.leb_spec 1 v),
      (Z.leb_spec v 100); cbn; lia.
  - unfold parseYear.
    destruct (String.eqb_spec yearStr EmptyString) as [->|_]; [reflexivity|].
    destruct (Atoi yearStr) as [v|]; [|reflexivity].
    destruct (Z.ltb_spec v 1900), (Z.ltb_spec 3000 v), (Z.leb_spec 1900 v),
      (Z.leb_spec v 3000); cbn; lia.
Qed.

(** X12. [GetDashboard] answers 401 without a query when the context
    holds no user; with a user it answers 500 with the error of the first
    of its 21 queries that fails, and otherwise 200 with an aggregate of
    this user that has 7 weekly entries, 12 monthly entries for the year of
    the request, or the current year when the request names none within
    1900..3000, at most as many recent sessions as the limit of the
    request, and streaks with [0 <= current <= longest]. *)
Theorem GetDashboard_responses
  (w : World) (user : option User) (yearStr sessionsStr : string) (n : nat) :
  match user with
  | None =>
      GetDashboard w user yearStr sessionsStr n
      = (mkResponse 401 (ErrorBody "User not found" None), n)
  | Some u =>
      match firstError w n 21 with
      | Some (k, e) =>
          GetDashboard w user yearStr sessionsStr n
          = (mkResponse 500
               (ErrorBody "Failed to retrieve dashboard data" (Some e)), S k)
      | None =>
          exists data,
            GetDashboard w user yearStr sessionsStr n
            = (mkResponse 200 (DashboardBody data), (n + 21)%nat) /\
            User_ data = u /\
            List.length (WeeklyProgress_ data) = 7%nat /\
            List.length (YearlyProgress_ data) = 12%nat /\
            (exists year,
               (year = parseYear yearStr /\ 1900 <= year <= 3000 \/
                year = Year (now w) /\ parseYear yearStr = 0) /\
               YearlyProgress_ data
               = map (yearlyEntry w (User_ID u) year) (indexed 0 months)) /\
            Z.of_nat (List.length (RecentSessions data))
            <= parseSessionLimit sessionsStr <= 100 /\
            0 <= Current (Streaks data) <= Longest (Streaks data)
      end
  end.
Proof.
  destruct user as [u|]; [|reflexivity].
  unfold GetDashboard. rewrite GetDashboardData_run.
  destruct (firstError w n 21) as [[k e]|]; [reflexivity|].
  cbv zeta. eexists. split; [reflexivity|].
  cbn [User_ WeeklyProgress_ YearlyProgress_ RecentSessions Streaks
       Current Longest].
  split; [reflexivity|]. split; [reflexivity|]. split; [reflexivity|].
  pose proof (parseSessionLimit_range sessionsStr) as R.
  split; [|split].
  - destruct (parseYear_range yearStr) as [E|E].
    + exists (Year (now w)). rewrite E. split; [right; auto|reflexivity].
    + exists (parseYear yearStr). split; [left; auto|].
      rewrite (proj2 (Z.leb_gt _ _)) by lia. reflexivity.
  - rewrite sanitizeLimit_id by exact R. rewrite length_firstn. lia.
  - apply current_le_longest.
Qed.

(** ** Round trips between times and the texts of dates *)

Lemma decimal_length fuel : forall u acc k,
  0 <= u < 10 ^ Z.of_nat (S k) ->
  (List.length (decimal fuel u acc) <= S k + List.length acc)%nat.
Proof.
  induction fuel as [|fuel IH]; intros u acc k Hu; cbn [decimal].
  - cbn [List.length]. lia.
  - destruct (Z.ltb_spec u 10) as [L|L]; [cbn [List.length]; lia|].
    destruct k as [|k]; [change (10 ^ Z.of_nat 1) with 10 in Hu; lia|].
    assert (Hq : 0 <= u / 10 < 10 ^ Z.of_nat (S k)).
    { replace (Z.of_nat (S (S k))) with (Z.succ (Z.of_nat (S k))) in Hu by lia.
      rewrite Z.pow_succ_r in Hu by lia. div_lia. }
    specialize (IH (u / 10) (digit (u mod 10) :: acc) k Hq).
    cbn [List.length] in IH. lia.
Qed.

Lemma digit_digitVal c : isDigit c = true -> digit (digitVal c) = c.
Proof.
  intros H. unfold digit, digitVal.
  replace (48 + (Z.of_N (N_of_ascii c) - 48)) with (Z.of_N (N_of_ascii c))
    by lia.
  rewrite N2Z.id. apply ascii_N_embedding.
Qed.

Lemma digitVal_inj c c' :
  isDigit c = true -> isDigit c' = true -> digitVal c = digitVal c' -> c = c'.
Proof.
  intros H H' E. rewrite <- (digit_digitVal c H), <- (digit_digitVal c' H').
  rewrite E. reflexivity.
Qed.

(** Four decimal digits are the four digits of the number they write. *)
Lemma four_digits_unique a b c d y :
  allDigits [a; b; c; d] -> valOf 0 [a; b; c; d] = y ->
  [a; b; c; d]
  = [digit (y / 1000); digit (y / 100 mod 10); digit (y / 10 mod 10);
     digit (y mod 10)].
Proof.
  intros A V. unfold valOf in V. cbn [fold_left] in V.
  inversion A as [|? ? Ha A1]; subst. inversion A1 as [|? ? Hb A2]; subst.
  inversion A2 as [|? ? Hc A3]; subst. inversion A3 as [|? ? Hd _]; subst.
  pose proof (isDigit_digitVal _ Ha). pose proof (isDigit_digitVal _ Hb).
  pose proof (isDigit_digitVal _ Hc). pose proof (isDigit_digitVal _ Hd).
  set (y := 10 * (10 * (10 * (10 * 0 + digitVal a) + digitVal b) + digitVal c)
            + digitVal d).
  replace (y / 1000) with (digitVal a) by (subst y; div_lia).
  replace (y / 100 mod 10) with (digitVal b) by (subst y; div_lia).
  replace (y / 10 mod 10) with (digitVal c) by (subst y; div_lia).
  replace (y mod 10) with (digitVal d) by (subst y; div_lia).
  rewrite !digit_digitVal by assumption. reflexivity.
Qed.

Lemma appendInt_width4 y :
  0 <= y <= 9999 ->
  appendInt y 4
  = [digit (y / 1000); digit (y / 100 mod 10); digit (y / 10 mod 10);
     digit (y mod 10)].
Proof.
  intros Hy. unfold appendInt. cbv zeta.
  rewrite Z.abs_eq by lia.
  rewrite (proj2 (Z.ltb_ge y 0)) by lia. cbn [app].
  assert (Hu : 0 <= y < 2 ^ (Z.of_nat (Z.to_nat (Z.log2 y)) + 1)).
  { split; [lia|]. rewrite Z2Nat.id by apply Z.log2_nonneg.
    destruct (Z.eq_dec y 0) as [->|N]; [reflexivity|].
    replace (Z.log2 y + 1) with (Z.succ (Z.log2 y)) by lia.
    apply Z.log2_spec. lia. }
  destruct (decimal_spec _ y [] Hu) as (ds & E & NE & A & V).
  pose proof (decimal_length (Z.to_nat (Z.log2 y)) y [] 3
                ltac:(change (10 ^ Z.of_nat 4) with 10000; lia)) as L.
  rewrite E, app_nil_r in *. cbn [List.length] in L.
  assert (Z0 : isDigit "0"%char = true) by reflexivity.
  assert (V0 : digitVal "0"%char = 0) by reflexivity.
  destruct ds as [|a [|b [|c [|d [|x ds]]]]];
    [congruence| | | | |cbn [List.length] in L; lia];
    cbn [List.length Nat.sub repeat app];
    apply four_digits_unique;
    try (repeat constructor;
         solve [exact Z0
               |inversion A; subst; assumption
               |inversion A as [|? ? ? A1]; subst;
                inversion A1; subst; assumption
               |inversion A as [|? ? ? A1]; subst;
                inversion A1 as [|? ? ? A2]; subst;
                inversion A2; subst; assumption
               |inversion A as [|? ? ? A1]; subst;
                inversion A1 as [|? ? ? A2]; subst;
                inversion A2 as [|? ? ? A3]; subst;
                inversion A3; subst; assumption]);
    unfold valOf in *; cbn [fold_left] in *; rewrite ?V0; lia.
Qed.

Lemma Format_text t :
  0 <= Year t <= 9999 ->
  let '(y, m, d) := civil t in
  Format t =
  string_of_list_ascii
    [digit (y / 1000); digit (y / 100 mod 10); digit (y / 10 mod 10);
     digit (y mod 10); dash; digit (m / 10); digit (m mod 10); dash;
     digit (d / 10); digit (d mod 10)].
Proof.
  unfold Year, Format. pose proof (civil_spec t) as H.
  destruct (civil t) as [[y m] d]. cbn [fst]. intros Hy.
  destruct H as [[Hm Hd] _]. pose proof (daysIn_le_31 m y Hm).
  rewrite appendInt_width4 by exact Hy.
  rewrite !appendInt_width2 by lia. reflexivity.
Qed.

Lemma parseDate_Format t :
  0 <= Year t <= 9999 -> parseDate (Format t) = Some (civil t).
Proof.
  intros Hy. pose proof (Format_text t Hy) as F.
  pose proof (civil_spec t) as H. unfold Year in Hy.
  destruct (civil t) as [[y m] d]. cbn [fst] in Hy.
  destruct H as [[Hm Hd] _]. pose proof (daysIn_le_31 m y Hm) as H31.
  rewrite F. unfold parseDate.
  rewrite list_ascii_of_string_of_list_ascii.
  destruct (digit_spec (y / 1000) ltac:(div_lia)) as [I1 V1].
  destruct (digit_spec (y / 100 mod 10) ltac:(div_lia)) as [I2 V2].
  destruct (digit_spec (y / 10 mod 10) ltac:(div_lia)) as [I3 V3].
  destruct (digit_spec (y mod 10) ltac:(div_lia)) as [I4 V4].
  destruct (digit_spec (m / 10) ltac:(div_lia)) as [I5 V5].
  destruct (digit_spec (m mod 10) ltac:(div_lia)) as [I6 V6].
  destruct (digit_spec (d / 10) ltac:(div_lia)) as [I7 V7].
  destruct (digit_spec (d mod 10) ltac:(div_lia)) as [I8 V8].
  cbn [forallb]. rewrite I1, I2, I3, I4, I5, I6, I7, I8.
  rewrite V1, V2, V3, V4, V5, V6, V7, V8.
  change (Ascii.eqb dash dash) with true. cbn [andb]. cbv zeta.
  replace (1000 * (y / 1000) + 100 * (y / 100 mod 10) + 10 * (y / 10 mod 10)
           + y mod 10) with y by div_lia.
  replace (10 * (m / 10) + m mod 10) with m by div_lia.
  replace (10 * (d / 10) + d mod 10) with d by div_lia.
  rewrite (proj2 (Z.leb_gt m 0)), (proj2 (Z.ltb_ge 12 m)) by lia. cbn [orb].
  rewrite (proj2 (Z.ltb_ge d 1)), (proj2 (Z.ltb_ge (daysIn m y) d)) by lia.
  reflexivity.
Qed.

Lemma Format_Parse_round_trip_day t :
  0 <= Year t <= 9999 -> dayCount (Format t) = absDay t.
Proof.
  intros Hy. unfold dayCount. rewrite (parseDate_Format t Hy).
  pose proof (civil_spec t) as H. destruct (civil t) as [[y m] d].
  destruct H as [_ H]. exact H.
Qed.

(** X13. Writing the date of a time of the years 0 to 9999 and reading it
    back, as [calculateCurrentStreak] does with today, gives without error
    the midnight that starts that day; reading a well-formed text and
    writing it, as the counting loop does with every date, gives the text
    back. *)
Theorem Format_Parse_round_trip (t : Time) (s : string) :
  (0 <= Year t <= 9999 ->
   Parse (Format t)
   = (mkTime ((absDay t - unixEpochDay) * secondsPerDay) 0, true) /\
   dayCount (Format t) = absDay t) /\
  (wellFormed s = true -> Format (fst (Parse s)) = s).
Proof.
  split.
  - intros Hy. pose proof (parseDate_Format t Hy) as P.
    pose proof (civil_spec t) as H.
    assert (D : dayCount (Format t) = absDay t).
    { unfold dayCount. rewrite P. destruct (civil t) as [[y m] d].
      destruct H as [_ H]. exact H. }
    split; [|exact D].
    pose proof (Parse_time (Format t)) as T. rewrite D in T.
    unfold Parse in *. rewrite P in *. destruct (civil t) as [[y m] d].
    cbn [fst] in T. rewrite T. reflexivity.
  - intros W. apply wellFormed_parseDate in W.
    destruct W as (y & m & d & P).
    pose proof (parseDate_valid s y m d P) as [V Hy].
    assert (T : fst (Parse s) = Date y m d 0 0 0 0)
      by (unfold Parse; rewrite P; reflexivity).
    assert (C : civil (fst (Parse s)) = (y, m, d))
      by (rewrite T; apply civil_Date; try lia; exact V).
    pose proof (Format_text (fst (Parse s))) as F.
    unfold Year in F. rewrite C in F. cbn [fst] in F. rewrite (F Hy).
    clear F T C. destruct V as [Hm Hd]. pose proof (daysIn_le_31 m y Hm).
    unfold parseDate in P.
    rewrite <- (string_of_list_ascii_of_string s).
    destruct (list_ascii_of_string s)
      as [|y1 [|y2 [|y3 [|y4 [|s1 [|m1 [|m2 [|s2 [|d1 [|d2 [|]]]]]]]]]]];
      try discriminate.
    destruct (forallb isDigit [y1; y2; y3; y4; m1; m2; d1; d2]
              && Ascii.eqb s1 dash && Ascii.eqb s2 dash) eqn:G;
      [|discriminate].
    rewrite !andb_true_iff in G. destruct G as [[G S1] S2].
    apply Ascii.eqb_eq in S1, S2. subst s1 s2.
    cbn [forallb] in G. rewrite !andb_true_iff in G.
    destruct G as (G1 & G2 & G3 & G4 & G5 & G6 & G7 & G8 & _).
    cbv zeta in P.
    destruct ((10 * digitVal m1 + digitVal m2 <=? 0)
              || (12 <? 10 * digitVal m1 + digitVal m2)); [discriminate|].
    destruct ((10 * digitVal d1 + digitVal d2 <? 1)
              || (daysIn (10 * digitVal m1 + digitVal m2)
                    (1000 * digitVal y1 + 100 * digitVal y2
                     + 10 * digitVal y3 + digitVal y4)
                  <? 10 * digitVal d1 + digitVal d2)); [discriminate|].
    pose proof (isDigit_digitVal _ G1). pose proof (isDigit_digitVal _ G2).
    pose proof (isDigit_digitVal _ G3). pose proof (isDigit_digitVal _ G4).
    pose proof (isDigit_digitVal _ G5). pose proof (isDigit_digitVal _ G6).
    pose proof (isDigit_digitVal _ G7). pose proof (isDigit_digitVal _ G8).
    assert (Ey : y = 1000 * digitVal y1 + 100 * digitVal y2
                     + 10 * digitVal y3 + digitVal y4) by congruence.
    assert (Em : m = 10 * digitVal m1 + digitVal m2) by congruence.
    assert (Ed : d = 10 * digitVal d1 + digitVal d2) by congruence.
    clear P.
    replace (y / 1000) with (digitVal y1) by div_lia.
    replace (y / 100 mod 10) with (digitVal y2) by div_lia.
    replace (y / 10 mod 10) with (digitVal y3) by div_lia.
    replace (y mod 10) with (digitVal y4) by div_lia.
    replace (m / 10) with (digitVal m1) by div_lia.
    replace (m mod 10) with (digitVal m2) by div_lia.
    replace (d / 10) with (digitVal d1) by div_lia.
    replace (d mod 10) with (digitVal d2) by div_lia.
    rewrite !digit_digitVal by assumption. reflexivity.
Qed.

Lemma Format_Parse_round_trip_witness :
  dayCount (Format exampleNow) = absDay exampleNow /\
  Format (fst (Parse "2024-02-29")) = "2024-02-29"%string.
Proof.
  destruct (Format_Parse_round_trip exampleNow "2024-02-29") as [H1 H2].
  split.
  - apply H1. vm_compute. split; discriminate.
  - apply H2. reflexivity.
Defined.

(** ** The streaks in terms of the days of the dates *)

Lemma sorted_strict l :
  StronglySorted Z.ge l -> NoDup l -> StronglySorted Z.gt l.
Proof.
  induction 1 as [|x l S IH F]; intros N; [constructor|].
  apply NoDup_cons_iff in N. destruct N as [N1 N2].
  constructor; [apply IH; exact N2|]. apply Forall_forall. intros y Hy.
  rewrite Forall_forall in F. specialize (F y Hy).
  assert (y <> x) by (intros ->; contradiction). lia.
Qed.

Lemma sorted_snoc l a :
  StronglySorted Z.lt l -> (forall x, In x l -> x < a) ->
  StronglySorted Z.lt (l ++ [a]).
Proof.
  induction 1 as [|x l S IH F]; intros H; cbn [app].
  - repeat constructor.
  - constructor.
    + apply IH. intros y Hy. apply H. right. exact Hy.
    + apply Forall_app. split; [exact F|].
      repeat constructor. apply H. left. reflexivity.
Qed.

Lemma sorted_rev l : StronglySorted Z.gt l -> StronglySorted Z.lt (rev l).
Proof.
  induction 1 as [|x l S IH F]; cbn [rev]; [constructor|].
  apply sorted_snoc; [exact IH|]. intros y Hy. apply in_rev in Hy.
  rewrite Forall_forall in F. specialize (F y Hy). lia.
Qed.

Lemma zseq_run d k : isRun (zseq d k) /\ List.length (zseq d k) = k.
Proof.
  revert d. induction k as [|k IH]; intros d; cbn [zseq]; [split; constructor|].
  destruct (IH (d + 1)) as [R L]. split; [|cbn [List.length]; lia].
  destruct k as [|k]; [exact I|]. cbn [zseq] in *.
  apply isRun_cons. split; [lia|exact R].
Qed.

Lemma isRun_nth run : forall d i,
  isRun (d :: run) -> (i < List.length (d :: run))%nat ->
  nth i (d :: run) 0 = d + Z.of_nat i.
Proof.
  induction run as [|b run IH]; intros d i R Hi.
  - cbn [List.length] in Hi. replace i with 0%nat by lia. cbn. lia.
  - apply isRun_cons in R. destruct R as [E R].
    destruct i as [|i]; [cbn; lia|].
    change (nth (Datatypes.S i) (d :: b :: run) 0) with (nth i (b :: run) 0).
    cbn [List.length] in Hi.
    rewrite (IH b i R) by (cbn [List.length]; lia). lia.
Qed.

Lemma run_prefix k : forall a l,
  StronglySorted Z.lt l -> (forall x, In x l -> a <= x) ->
  (forall i, (i < k)%nat -> In (a + Z.of_nat i) l) ->
  exists post, l = (zseq a k ++ post)%list.
Proof.
  induction k as [|k IH]; intros a l S Hmin H; [exists l; reflexivity|].
  pose proof (H 0%nat ltac:(lia)) as H0.
  replace (a + Z.of_nat 0) with a in H0 by lia.
  destruct l as [|b r]; [destruct H0|].
  apply StronglySorted_inv in S. destruct S as [S F].
  rewrite Forall_forall in F.
  assert (b = a).
  { pose proof (Hmin b (or_introl eq_refl)) as Hb.
    destruct H0 as [E|E]; [exact E|]. specialize (F a E). lia. }
  subst b.
  destruct (IH (a + 1) r S) as [post E].
  - intros x Hx. specialize (F x Hx). lia.
  - intros i Hi. specialize (H (Datatypes.S i) ltac:(lia)).
    replace (a + 1 + Z.of_nat i) with (a + Z.of_nat (Datatypes.S i)) by lia.
    destruct H as [E|E]; [lia|exact E].
  - exists post. cbn [zseq app]. rewrite <- E. reflexivity.
Qed.

Lemma run_window l : forall d k,
  StronglySorted Z.lt l -> (0 < k)%nat ->
  (forall i, (i < k)%nat -> In (d + Z.of_nat i) l) ->
  exists pre post, l = (pre ++ zseq d k ++ post)%list.
Proof.
  induction l as [|a r IH]; intros d k S Hk H.
  - destruct (H 0%nat Hk).
  - destruct (Z.eq_dec a d) as [->|N].
    + destruct (run_prefix k d (d :: r) S) as [post E].
      * intros x [<-|Hx]; [lia|].
        apply StronglySorted_inv in S. destruct S as [_ F].
        rewrite Forall_forall in F. specialize (F x Hx). lia.
      * exact H.
      * exists [], post. exact E.
    + apply StronglySorted_inv in S. destruct S as [S F].
      rewrite Forall_forall in F.
      assert (Hd : a < d).
      { pose proof (H 0%nat Hk) as H0.
        replace (d + Z.of_nat 0) with d in H0 by lia.
        destruct H0 as [E|E]; [congruence|]. apply F. exact E. }
      destruct (IH d k S Hk) as (pre & post & E).
      * intros i Hi. destruct (H i Hi) as [E|E]; [lia|exact E].
      * exists (a :: pre), post. cbn [app]. rewrite <- E. reflexivity.
Qed.

(** In a list of different days in ascending order, the longest run is at
    least [k] exactly when the list holds [k] consecutive days. *)
Lemma longestRun_days asc k :
  StronglySorted Z.lt asc ->
  (Z.of_nat k <= longestRun asc
   <-> exists d, forall i, (i < k)%nat -> In (d + Z.of_nat i) asc).
Proof.
  intros S. split.
  - intros H.
    destruct (longestRun_attained asc) as (pre & run & post & E & R & L).
    destruct run as [|d run].
    + exists 0. intros i Hi. cbn [List.length] in L. lia.
    + exists d. intros i Hi.
      rewrite <- (isRun_nth run d i R) by lia.
      rewrite E. apply in_or_app. right. apply in_or_app. left.
      apply nth_In. lia.
  - intros (d & H). destruct k as [|k].
    + apply longestRun_nonneg.
    + destruct (run_window asc d (Datatypes.S k) S ltac:(lia) H)
        as (pre & post & E).
      destruct (zseq_run d (Datatypes.S k)) as [R L].
      rewrite E. rewrite <- L at 1. apply longestRun_upper. exact R.
Qed.

(** In a list of different days in descending order that starts with [m],
    the count of the current streak is at least [k] exactly when the list
    holds the [k] days that end with [m]. *)
Lemma countDays_days ds : forall m k,
  StronglySorted Z.gt ds -> (forall x, In x ds -> x <= m) ->
  ((k <= countDays m ds)%nat
   <-> forall i, (i < k)%nat -> In (m - Z.of_nat i) ds).
Proof.
  intros m k S Hmax. split.
  - intros H i Hi. destruct (countDays_spec ds m) as (H1 & H2 & _).
    rewrite <- H2 by lia. apply nth_In. lia.
  - revert m k S Hmax.
    induction ds as [|a r IH]; intros m k S Hmax H.
    + destruct k as [|k]; [lia|]. destruct (H 0%nat ltac:(lia)).
    + destruct k as [|k]; [lia|].
      apply StronglySorted_inv in S. destruct S as [S F].
      rewrite Forall_forall in F.
      assert (a = m).
      { pose proof (Hmax a (or_introl eq_refl)) as Ha.
        pose proof (H 0%nat ltac:(lia)) as Hm.
        replace (m - Z.of_nat 0) with m in Hm by lia.
        destruct Hm as [E|E]; [exact E|]. specialize (F m E). lia. }
      subst a. cbn [countDays]. rewrite Z.eqb_refl.
      apply le_n_S. apply IH; [exact S| |].
      * intros x Hx. specialize (F x Hx). lia.
      * intros i Hi. specialize (H (Datatypes.S i) ltac:(lia)).
        replace (m - 1 - Z.of_nat i) with (m - Z.of_nat (Datatypes.S i)) by lia.
        destruct H as [E|E]; [lia|exact E].
Qed.

(** X14. For every list of dates of different days, the latest first
    (a text that is no date standing for 0001-01-01, as the code reads it),
    the longest streak is at least [k] exactly when the list holds [k]
    consecutive calendar days. *)
Theorem longest_streak_of_distinct_days (sessionDates : list string) (k : nat) :
  StronglySorted Z.gt (map dayCount sessionDates) ->
  (Z.of_nat k <= calculateLongestStreak sessionDates
   <-> exists d, forall i, (i < k)%nat ->
         In (d + Z.of_nat i) (map dayCount sessionDates)).
Proof.
  intros S. rewrite calculateLongestStreak_longestRun, map_rev.
  rewrite (longestRun_days _ k (sorted_rev _ S)).
  split; intros (d & H); exists d; intros i Hi; specialize (H i Hi).
  - apply in_rev. exact H.
  - apply in_rev. rewrite rev_involutive. exact H.
Qed.

Lemma longest_streak_of_distinct_days_witness :
  Z.of_nat 2 <= calculateLongestStreak
                  ["2025-07-15"; "2025-07-14"; "2025-07-12"]%string
  <-> exists d, forall i, (i < 2)%nat ->
        In (d + Z.of_nat i)
           (map dayCount ["2025-07-15"; "2025-07-14"; "2025-07-12"]%string).
Proof.
  apply longest_streak_of_distinct_days.
  vm_compute. repeat constructor.
Defined.

(** X15. For every list of dates of different days, the latest first,
    whose first date is today or yesterday, the current streak is at least
    [k] exactly when the list holds each of the [k] days that end with the
    first date. *)
Theorem current_streak_of_distinct_days
  (now : Time) (first : string) (rest : list string) (k : nat) :
  StronglySorted Z.gt (map dayCount (first :: rest)) ->
  first = Format now \/ first = Format (AddDate now 0 0 (-1)) ->
  (Z.of_nat k <= calculateCurrentStreak now (first :: rest)
   <-> forall i, (i < k)%nat ->
         In (dayCount first - Z.of_nat i) (map dayCount (first :: rest))).
Proof.
  intros S H. rewrite calculateCurrentStreak_cases.
  assert (C : String.eqb first (Format now)
              || String.eqb first (Format (AddDate now 0 0 (-1))) = true).
  { apply orb_true_iff. rewrite !String.eqb_eq. exact H. }
  rewrite C, <- Nat2Z.inj_le.
  apply (countDays_days _ (dayCount first) k S).
  intros x Hx. cbn [map] in S, Hx. apply StronglySorted_inv in S.
  destruct S as [_ F]. rewrite Forall_forall in F.
  destruct Hx as [<-|Hx]; [lia|]. specialize (F x Hx). lia.
Qed.

Lemma current_streak_of_distinct_days_witness :
  Z.of_nat 2 <= calculateCurrentStreak exampleNow
                  ["2025-07-15"; "2025-07-14"; "2025-07-12"]%string
  <-> forall i, (i < 2)%nat ->
        In (dayCount "2025-07-15" - Z.of_nat i)
           (map dayCount ["2025-07-15"; "2025-07-14"; "2025-07-12"]%string).
Proof.
  apply current_streak_of_distinct_days.
  - vm_compute. repeat constructor.
  - left. reflexivity.
Defined.

(** ** The dates of the store as the service receives them *)

Lemma string_of_list_ascii_app l l' :
  string_of_list_ascii (l ++ l') =
  (string_of_list_ascii l ++ string_of_list_ascii l')%string.
Proof.
  induction l as [|c l IH]; [reflexivity|].
  cbn [app string_of_list_ascii String.append]. rewrite IH. reflexivity.
Qed.

Lemma absDay_midnight d : absDay (midnight d) = d.
Proof.
  unfold absDay, midnight, secondsPerDay. cbn [sec].
  rewrite Z.div_mul by lia. lia.
Qed.

Lemma FormatRFC3339Nano_midnight d : FormatRFC3339Nano (midnight d) = dayText d.
Proof.
  unfold dayText, FormatRFC3339Nano, Format.
  rewrite (Clock_midnight (d - unixEpochDay) : Clock (midnight d) = (0, 0, 0)).
  destruct (civil (midnight d)) as [[y m] dd].
  change (nsec (midnight d)) with 0.
  change (appendInt 0 2) with ["0"; "0"]%char.
  change (appendNano 0) with (@nil ascii).
  rewrite <- (string_of_list_ascii_of_string "T00:00:00Z") at 1.
  rewrite <- string_of_list_ascii_app. f_equal.
  repeat (rewrite <- app_assoc; cbn [app]). reflexivity.
Qed.

Lemma decimal_chars fuel : forall u acc,
  0 <= u -> forallb dateChar acc = true ->
  forallb dateChar (decimal fuel u acc) = true.
Proof.
  assert (D : forall n, 0 <= n <= 9 -> dateChar (digit n) = true).
  { intros n Hn. unfold dateChar.
    destruct (digit_spec n Hn) as [-> _]. reflexivity. }
  induction fuel as [|fuel IH]; intros u acc Hu Ha; cbn [decimal].
  - cbn [forallb]. rewrite D, Ha by div_lia. reflexivity.
  - destruct (Z.ltb_spec u 10) as [L|L].
    + cbn [forallb]. rewrite D, Ha by lia. reflexivity.
    + apply IH; [div_lia|]. cbn [forallb]. rewrite D, Ha by div_lia.
      reflexivity.
Qed.

Lemma appendInt_chars x width : forallb dateChar (appendInt x width) = true.
Proof.
  unfold appendInt. cbv zeta. rewrite !forallb_app.
  rewrite decimal_chars by (try reflexivity; lia).
  assert (Z : forall k, forallb dateChar (repeat "0"%char k) = true).
  { induction k as [|k IH]; [reflexivity|]. cbn [repeat forallb].
    rewrite IH. reflexivity. }
  rewrite Z. destruct (x <? 0); reflexivity.
Qed.

Lemma Format_chars t :
  exists l, Format t = string_of_list_ascii l /\ forallb dateChar l = true.
Proof.
  unfold Format. destruct (civil t) as [[y m] d]. eexists.
  split; [reflexivity|].
  rewrite forallb_app. cbn [forallb]. rewrite forallb_app. cbn [forallb].
  rewrite !appendInt_chars. reflexivity.
Qed.

Lemma parseDate_chars s x :
  parseDate s = Some x -> forallb dateChar (list_ascii_of_string s) = true.
Proof.
  unfold parseDate.
  destruct (list_ascii_of_string s)
    as [|c1 [|c2 [|c3 [|c4 [|c5 [|c6 [|c7 [|c8 [|c9 [|c10 [|c11 r]]]]]]]]]]];
    try discriminate.
  match goal with
  | |- (if ?c then _ else _) = _ -> _ => destruct c eqn:E; [|discriminate]
  end.
  intros _. cbn [forallb] in E. rewrite !andb_true_iff in E.
  destruct E as [[(D1 & D2 & D3 & D4 & D5 & D6 & D7 & D8 & _) S1] S2].
  cbn [forallb]. unfold dateChar.
  rewrite D1, D2, D3, D4, D5, D6, D7, D8, S1, S2, !orb_true_r. reflexivity.
Qed.

(** The text of a store's date holds a [T], which no date of the layout
    ["2006-01-02"] does. *)
Lemma dayText_chars d l :
  dayText d = string_of_list_ascii l -> forallb dateChar l = false.
Proof.
  unfold dayText. destruct (Format_chars (midnight d)) as (l' & -> & _).
  rewrite <- (string_of_list_ascii_of_string "T00:00:00Z") at 1.
  rewrite <- string_of_list_ascii_app. intros E.
  apply string_of_list_ascii_inj in E. subst l.
  rewrite forallb_app. apply andb_false_iff. right. reflexivity.
Qed.

Lemma dayText_not_date d : parseDate (dayText d) = None.
Proof.
  destruct (parseDate (dayText d)) as [x|] eqn:E; [|reflexivity].
  apply parseDate_chars in E.
  rewrite (dayText_chars d (list_ascii_of_string (dayText d))) in E
    by (symmetry; apply string_of_list_ascii_of_string).
  discriminate.
Qed.

Lemma dayText_not_Format d t : String.eqb (dayText d) (Format t) = false.
Proof.
  apply String.eqb_neq. intros E.
  destruct (Format_chars t) as (l & F & C). rewrite F in E.
  apply dayText_chars in E. congruence.
Qed.

Lemma dayText_wellFormed d : wellFormed (dayText d) = false.
Proof. unfold wellFormed, Parse. rewrite dayText_not_date. reflexivity. Qed.

Lemma dayText_dayCount d : dayCount (dayText d) = 0.
Proof. unfold dayCount. rewrite dayText_not_date. reflexivity. Qed.

Lemma insertDateDesc_perm d l : Permutation (d :: l) (insertDateDesc d l).
Proof.
  induction l as [|x r IH]; cbn [insertDateDesc]; [reflexivity|].
  destruct (leTime d x); [|reflexivity].
  eapply perm_trans; [apply perm_swap|]. apply perm_skip. exact IH.
Qed.

Lemma leTime_midnight a b : leTime (midnight a) (midnight b) = true <-> a <= b.
Proof.
  rewrite leTime_spec. unfold midnight, secondsPerDay. cbn [sec nsec]. lia.
Qed.

(** Inserting a day into days that descend keeps them descending. *)
Lemma insertDateDesc_days d : forall ds,
  ~ In d ds -> StronglySorted Z.gt ds ->
  exists ds', insertDateDesc (midnight d) (map midnight ds) = map midnight ds' /\
              StronglySorted Z.gt ds' /\
              (forall x, In x ds' <-> x = d \/ In x ds).
Proof.
  induction ds as [|x r IH]; intros N S.
  - exists [d]. split; [reflexivity|]. split; [repeat constructor|].
    intros x. cbn [In]. split; intros [H|[]]; left; congruence.
  - cbn [map insertDateDesc].
    apply StronglySorted_inv in S. destruct S as [S F].
    rewrite Forall_forall in F.
    destruct (leTime (midnight d) (midnight x)) eqn:L.
    + apply leTime_midnight in L.
      assert (d <> x) by (intros ->; apply N; left; reflexivity).
      destruct (IH (fun H => N (or_intror H)) S) as (ds' & E & S' & I).
      exists (x :: ds'). cbn [map]. rewrite E. split; [reflexivity|]. split.
      * constructor; [exact S'|]. apply Forall_forall. intros y Hy.
        apply I in Hy. destruct Hy as [->|Hy]; [lia|]. apply F. exact Hy.
      * intros y. cbn [In]. rewrite I. tauto.
    + assert (L' : ~ d <= x)
        by (intros H; apply leTime_midnight in H; congruence).
      exists (d :: x :: r). split; [reflexivity|]. split.
      * constructor; [constructor; [exact S|apply Forall_forall; exact F]|].
        apply Forall_forall. intros y [<-|Hy]; [lia|].
        specialize (F y Hy). lia.
      * intros y. cbn [In]. split; intros [H|H]; auto.
Qed.

Lemma orderDatesDesc_days : forall ds,
  NoDup ds ->
  exists ds', orderDatesDesc (map midnight ds) = map midnight ds' /\
              StronglySorted Z.gt ds' /\ (forall x, In x ds' <-> In x ds).
Proof.
  induction ds as [|a r IH]; intros N.
  - exists []. split; [reflexivity|]. split; [constructor|]. reflexivity.
  - apply NoDup_cons_iff in N. destruct N as [N1 N2].
    destruct (IH N2) as (ds' & E & S & I).
    change (orderDatesDesc (map midnight (a :: r)))
      with (insertDateDesc (midnight a) (orderDatesDesc (map midnight r))).
    rewrite E.
    destruct (insertDateDesc_days a ds') as (ds'' & E' & S' & I');
      [rewrite I; exact N1|exact S|].
    exists ds''. split; [exact E'|]. split; [exact S'|].
    intros x. rewrite I', I. cbn [In]. split; intros [H|H]; auto.
Qed.

Lemma midnights_days l :
  Forall (fun x => x = midnight (absDay x)) l -> NoDup l ->
  l = map midnight (map absDay l) /\ NoDup (map absDay l).
Proof.
  induction 1 as [|x l Hx F IH]; intros N; [split; constructor|].
  apply NoDup_cons_iff in N. destruct N as [N1 N2].
  destruct (IH N2) as [E D]. cbn [map]. split.
  - rewrite <- E, <- Hx. reflexivity.
  - constructor; [|exact D]. intros H. apply in_map_iff in H.
    destruct H as (y & Ey & Hy). rewrite Forall_forall in F.
    apply N1. rewrite Hx, <- Ey, <- (F y Hy). exact Hy.
Qed.

(** The dates of a user as [getSessionDates] receives them: one text for
    each day with a session, the latest day first. *)
Lemma sessionDateTexts_days w userID :
  exists days, sessionDateTexts w userID = map dayText days /\
               StronglySorted Z.gt days /\
               (forall d, In d days <-> hasDay w userID d).
Proof.
  unfold sessionDateTexts.
  set (l := nodup Time_eq_dec
              (map (fun s => dateOf (CreatedAt s))
                   (filter (live userID) (sessions w)))).
  assert (I : forall x, In x l <->
                exists s, In s (sessions w) /\ live userID s = true /\
                          x = midnight (absDay (CreatedAt s))).
  { intros x. unfold l. rewrite nodup_In, in_map_iff. split.
    - intros (s & <- & Hs). apply filter_In in Hs. exists s. tauto.
    - intros (s & Hs & L & ->). exists s. split; [reflexivity|].
      apply filter_In. tauto. }
  assert (F : Forall (fun x => x = midnight (absDay x)) l).
  { apply Forall_forall. intros x Hx. apply I in Hx.
    destruct Hx as (s & _ & _ & ->). rewrite absDay_midnight. reflexivity. }
  destruct (midnights_days l F (NoDup_nodup _ _)) as [E D].
  destruct (orderDatesDesc_days _ D) as (days & E' & S & I').
  exists days. rewrite E, E', map_map. split; [|split; [exact S|]].
  - apply map_ext. exact FormatRFC3339Nano_midnight.
  - intros d. rewrite I', in_map_iff. unfold hasDay. split.
    + intros (x & <- & Hx). apply I in Hx.
      destruct Hx as (s & Hs & L & ->). exists s.
      rewrite absDay_midnight. tauto.
    + intros (s & Hs & L & <-). exists (midnight (absDay (CreatedAt s))).
      split; [apply absDay_midnight|]. apply I. exists s. tauto.
Qed.

Lemma longestRun_no_dates l :
  Forall (fun s => dayCount s = 0) l ->
  longestRun (map dayCount l) = match l with [] => 0 | _ :: _ => 1 end.
Proof.
  induction 1 as [|a l Ha F IH]; [reflexivity|].
  cbn [map longestRun lead]. rewrite IH, Ha.
  destruct F as [|b l Hb F]; [reflexivity|].
  cbn [map]. rewrite Hb. reflexivity.
Qed.

(** X16. [getSessionDates] returns the error of its query or, for each
    day on which the user has a session that is not deleted, one text, the
    latest day first: the date of the day followed by [T00:00:00Z], which
    is no date of the layout ["2006-01-02"]. *)
Theorem getSessionDates_timestamps (w : World) (userID : string) (n : nat) :
  match getSessionDates w userID n with
  | (inl e, n') => outcome w n = Some e /\ n' = S n
  | (inr sessionDates, n') =>
      outcome w n = None /\ n' = S n /\
      exists days,
        sessionDates = map dayText days /\
        StronglySorted Z.gt days /\
        (forall d, In d days <-> hasDay w userID d) /\
        Forall (fun s => wellFormed s = false) sessionDates
  end.
Proof.
  unfold getSessionDates, selectDates, query.
  destruct (outcome w n) as [e|]; [split; reflexivity|].
  split; [reflexivity|]. split; [reflexivity|].
  destruct (sessionDateTexts_days w userID) as (days & E & S & I).
  exists days. rewrite E. repeat split; try exact S; try apply I.
  apply Forall_forall. intros s Hs. apply in_map_iff in Hs.
  destruct Hs as (d & <- & _). apply dayText_wellFormed.
Qed.

(** X18. On the dates [getSessionDates] receives, [CalculateStreaks]
    counts no consecutive days: when its query succeeds the current streak
    is 0, and the longest streak is 0 for a user without a session and 1
    for every other, whatever the days of the sessions. *)
Theorem store_streaks_count_no_days (w : World) (userID : string) (n : nat) :
  match CalculateStreaks w userID n with
  | (inl e, _) => outcome w n = Some e
  | (inr info, _) =>
      outcome w n = None /\
      Current info = 0 /\
      Longest info = storeLongest (filter (live userID) (sessions w))
  end.
Proof.
  unfold CalculateStreaks, getSessionDates, selectDates, bind, query, ret.
  destruct (outcome w n) as [e|]; [reflexivity|].
  cbv zeta. cbn [Current Longest]. split; [reflexivity|].
  destruct (sessionDateTexts_days w userID) as (days & -> & _ & I). split.
  - rewrite calculateCurrentStreak_cases.
    destruct days as [|d r]; [reflexivity|]. cbn [map].
    rewrite !dayText_not_Format. reflexivity.
  - rewrite calculateLongestStreak_longestRun, longestRun_no_dates.
    + destruct (filter (live userID) (sessions w)) as [|s r] eqn:E.
      * destruct days as [|d r]; [reflexivity|].
        destruct (proj1 (I d) (or_introl eq_refl)) as (s & Hs & L & _).
        assert (H : In s (filter (live userID) (sessions w)))
          by (apply filter_In; tauto).
        rewrite E in H. destruct H.
      * assert (H : In s (filter (live userID) (sessions w)))
          by (rewrite E; left; reflexivity).
        apply filter_In in H.
        assert (D : In (absDay (CreatedAt s)) days)
          by (apply I; exists s; tauto).
        destruct days as [|d r']; [destruct D|].
        cbn [map rev]. destruct (rev (map dayText r')); reflexivity.
    + apply Forall_forall. intros s Hs. apply in_rev in Hs.
      apply in_map_iff in Hs. destruct Hs as (d & <- & _).
      apply dayText_dayCount.
Qed.

Lemma sumZ_map_le {A} (f g : A -> Z) xs :
  (forall x, In x xs -> f x <= g x) -> sumZ (map f xs) <= sumZ (map g xs).
Proof.
  induction xs as [|x xs IH]; intros H; [cbn; lia|].
  cbn [map sumZ fold_right].
  pose proof (H x (or_introl eq_refl)).
  assert (sumZ (map f xs) <= sumZ (map g xs))
    by (apply IH; intros; apply H; right; assumption).
  unfold sumZ in *. lia.
Qed.

Lemma session_in_at_most_one_month userID year s :
  validTime (CreatedAt s) -> 0 <= DurationSeconds s ->
  sumZ (map (fun i =>
               if between userID (monthStart year i) (monthEnd year i) s
               then DurationSeconds s else 0) (zseq 0 12))
  <= if createdInYear userID year s then DurationSeconds s else 0.
Proof.
  intros V Hd.
  transitivity
    (sumZ (map (fun i => (if live userID s then DurationSeconds s else 0)
                         * within (boundary year i) (boundary year (i + 1))
                                  (sec (CreatedAt s))) (zseq 0 12))).
  - apply sumZ_map_le. intros i Hi. apply zseq_In in Hi.
    destruct (between userID (monthStart year i) (monthEnd year i) s) eqn:B.
    + apply between_bounds in B; [|lia|exact V]. destruct B as (L & B & _).
      rewrite L. unfold within.
      rewrite (proj2 (Z.leb_le _ _)), (proj2 (Z.ltb_lt _ _)) by lia.
      cbn. lia.
    + destruct (live userID s); [|lia].
      destruct (within_01 (boundary year i) (boundary year (i + 1))
                  (sec (CreatedAt s))) as [E|E]; rewrite E; lia.
  - rewrite sumZ_map_scale.
    rewrite (within_telescope (boundary year) (sec (CreatedAt s)) 12 0)
      by (intros j Hj; pose proof (boundary_increasing year j); lia).
    rewrite createdInYear_within. change (0 + Z.of_nat 12) with 12.
    destruct (live userID s); cbn [andb]; [|lia].
    destruct (within_01 (boundary year 0) (boundary year 12)
                (sec (CreatedAt s))) as [E|E]; rewrite E; cbn; lia.
Qed.

Lemma months_within_year userID year l :
  (forall s, In s l -> validTime (CreatedAt s) /\ 0 <= DurationSeconds s) ->
  sumZ (map (fun i =>
               sumSeconds
                 (filter (between userID (monthStart year i) (monthEnd year i)) l))
            (zseq 0 12))
  <= sumSeconds (filter (createdInYear userID year) l).
Proof.
  induction l as [|s l IH]; intros H.
  - cbn [filter]. rewrite sumZ_map_const0. cbn. lia.
  - rewrite sumSeconds_filter_cons.
    specialize (IH (fun x Hx => H x (or_intror Hx))).
    destruct (H s (or_introl eq_refl)) as [V Hd].
    pose proof (session_in_at_most_one_month userID year s V Hd) as M.
    rewrite (map_ext _ (fun i =>
               (if between userID (monthStart year i) (monthEnd year i) s
                then DurationSeconds s else 0)
               + sumSeconds
                   (filter (between userID (monthStart year i)
                                    (monthEnd year i)) l)))
      by (intros i; apply sumSeconds_filter_cons).
    rewrite sumZ_map_add. lia.
Qed.

(** X17. Whatever the fractions of a second of the creation times, the
    minutes of the twelve entries of the yearly progress never add up to
    more than the whole minutes of the user's sessions that are not deleted
    and were created within the year. *)
Theorem monthly_minutes_never_exceed_year
  (w : World) (userID : string) (year : Z) (n : nat) :
  durationsNonneg w ->
  (forall s, In s (sessions w) -> validTime (CreatedAt s)) ->
  match GetYearlyProgress w userID year n with
  | (inl _, _) => True
  | (inr progress, _) =>
      sumZ (map YMinutes progress)
      <= sumSeconds (filter (createdInYear userID year) (sessions w)) / 60
  end.
Proof.
  intros Hd Hv. rewrite GetYearlyProgress_run.
  destruct (firstError w n 12) as [[k e]|]; [exact I|].
  pose proof (months_within_year userID year (sessions w)
                (fun s Hs => conj (Hv s Hs) (Hd s Hs))) as M.
  change (map YMinutes (map (yearlyEntry w userID year) (indexed 0 months)))
    with (map (fun m => Z.quot m 60)
              (map (monthSeconds w userID year) (zseq 0 12))).
  change (map (fun i => sumSeconds
                 (filter (between userID (monthStart year i) (monthEnd year i))
                         (sessions w))) (zseq 0 12))
    with (map (monthSeconds w userID year) (zseq 0 12)) in M.
  set (ms := map (monthSeconds w userID year) (zseq 0 12)) in *.
  assert (P : Forall (fun m => 0 <= m) ms).
  { subst ms. apply Forall_forall. intros m Hm. apply in_map_iff in Hm.
    destruct Hm as (i & <- & _). apply sumSeconds_filter_nonneg. exact Hd. }
  pose proof (floor_minutes_sum ms P) as B. cbv zeta in B. div_lia.
Qed.

Lemma monthly_minutes_never_exceed_year_witness :
  exists progress n',
    GetYearlyProgress halfMinutesWorld "u" 2024 0%nat = (inr progress, n') /\
    sumZ (map YMinutes progress)
    <= sumSeconds (filter (createdInYear "u" 2024) (sessions halfMinutesWorld))
       / 60.
Proof.
  assert (Hd : durationsNonneg halfMinutesWorld).
  { intros s Hs. cbn in Hs.
    repeat (destruct Hs as [<-|Hs]; [cbn; lia|]). destruct Hs. }
  assert (Hv : forall s, In s (sessions halfMinutesWorld) ->
                         validTime (CreatedAt s)).
  { intros s Hs. cbn in Hs.
    repeat (destruct Hs as [<-|Hs]; [unfold validTime; cbn; lia|]).
    destruct Hs. }
  pose proof (monthly_minutes_never_exceed_year halfMinutesWorld "u" 2024
                0%nat Hd Hv) as H.
  destruct (GetYearlyProgress halfMinutesWorld "u" 2024 0%nat)
    as [[e|progress] n'] eqn:E.
  - discriminate E.
  - exists progress, n'. split; [reflexivity|exact H].
Defined.
